(** * UYTCAB map.py: the heuristic tabular field locator

    A shallow embedding of [map.py] (numeric normalizer, date resolvers,
    intersection locator, date resolution cascade, record assembler and the
    batch writer) together with the properties of its specification.

    Layout: [Py] holds the pieces of the Python runtime the script relies
    on (text as code points, [str] methods, [re], [int], [datetime], a small
    exception monad); [Map] holds the functions of [map.py], one definition
    per source function or loop; the theorems follow. *)

From Stdlib Require Import ZArith List Bool Lia String Ascii DecimalString.
From Stdlib Require DecimalPos Permutation Sorted.
Import ListNotations.
Local Open Scope Z_scope.

(* ================================================================= *)
(** ** The Python runtime, as far as map.py uses it *)
(* ================================================================= *)

Module Py.

(** A Python [str] is a sequence of Unicode code points. *)
Definition str := list Z.

(** ASCII literals of the source. *)
Definition lit (s : string) : str :=
  List.map (fun a => Z.of_N (N_of_ascii a)) (list_ascii_of_string s).

(** Truth value of a string: [if s] / [if not s]. *)
Definition truthy {A : Type} (s : list A) : bool :=
  match s with [] => false | _ :: _ => true end.

(** *** Exceptions *)

Inductive exn : Type :=
| OpenError    (* pdfplumber.open on a missing or damaged file *)
| IndexError
| KeyError
| ValueError
| OverflowError.

Inductive res (A : Type) : Type :=
| Ok (a : A)
| Raise (e : exn).
Arguments Ok {A} a.
Arguments Raise {A} e.

Definition bind {A B : Type} (m : res A) (k : A -> res B) : res B :=
  match m with
  | Ok a => k a
  | Raise e => Raise e
  end.

(** *** str methods *)

(** [str.isspace] for one code point (the table of CPython's
    [_PyUnicode_IsWhitespace]). *)
Definition isspace (c : Z) : bool :=
  ((9 <=? c) && (c <=? 13)) || ((28 <=? c) && (c <=? 32))
  || (c =? 133) || (c =? 160) || (c =? 5760)
  || ((8192 <=? c) && (c <=? 8202))
  || (c =? 8232) || (c =? 8233) || (c =? 8239) || (c =? 8287)
  || (c =? 12288).

Fixpoint lstrip (s : str) : str :=
  match s with
  | [] => []
  | c :: s' => if isspace c then lstrip s' else s
  end.

Definition rstrip (s : str) : str := rev (lstrip (rev s)).

(** [s.strip()] *)
Definition strip (s : str) : str := rstrip (lstrip s).

(** [s.startswith(pre)] *)
Fixpoint startswith (pre s : str) : bool :=
  match pre, s with
  | [], _ => true
  | _ :: _, [] => false
  | a :: pre', b :: s' => (a =? b) && startswith pre' s'
  end.

(** [sub in s] *)
Fixpoint contains (sub s : str) : bool :=
  startswith sub s
  || match s with
     | [] => false
     | _ :: s' => contains sub s'
     end.

(** [s.replace(c, '')] for a one-character [c]. *)
Definition remove_char (c : Z) (s : str) : str :=
  filter (fun x => negb (x =? c)) s.

(** *** Decimal digits

    [\d] in a [str] pattern and [int()] both accept every character of the
    Unicode category Nd.  Such characters come in runs of ten consecutive
    code points with the values 0 to 9; [nd_zeros] lists the first code point
    of each run (Unicode 14, as shipped with CPython 3.11). *)
Definition nd_zeros : list Z :=
  [48; 1632; 1776; 1984; 2406; 2534; 2662; 2790; 2918; 3046; 3174; 3302;
   3430; 3558; 3664; 3792; 3872; 4160; 4240; 6112; 6160; 6470; 6608; 6784;
   6800; 6992; 7088; 7232; 7248; 42528; 43216; 43264; 43472; 43504; 43600;
   44016; 65296; 66720; 68912; 69734; 69872; 69942; 70096; 70384; 70736;
   70864; 71248; 71360; 71472; 71904; 72016; 72784; 73040; 73120; 92768;
   92864; 93008; 120782; 120792; 120802; 120812; 120822; 123200; 123632;
   125264; 130032].

(** [unicodedata.decimal]: the value of a decimal digit, if it is one. *)
Definition decimal (c : Z) : option Z :=
  match find (fun z => (z <=? c) && (c <? z + 10)) nd_zeros with
  | Some z => Some (c - z)
  | None => None
  end.

(** [c.isdecimal()], which is what [\d] tests. *)
Definition isdecimal (c : Z) : bool :=
  match decimal c with Some _ => true | None => false end.

(** The characters [0] to [9] only. *)
Definition is_ascii_digit (c : Z) : bool := (48 <=? c) && (c <=? 57).

Definition digit_value (c : Z) : Z :=
  match decimal c with Some v => v | None => 0 end.

(** Value of a digit string read in base ten. *)
Definition digits_value (s : str) : Z :=
  fold_left (fun acc c => acc * 10 + digit_value c) s 0.

(** [sys.int_info.default_max_str_digits]. *)
Definition int_max_str_digits : nat := 4300.

(** [int(s)] on the strings map.py passes to it: runs of decimal digits
    (the output of the digit filter, or a [\d] group of a match).  It raises
    [ValueError] on the empty string, on any other character, and on more
    digits than the conversion limit.  Signs, blanks and underscores, which
    [int] would also accept, never reach it from map.py. *)
Definition int_of_str (s : str) : res Z :=
  if negb (truthy s) then Raise ValueError
  else if negb (forallb isdecimal s) then Raise ValueError
  else if (int_max_str_digits <? List.length s)%nat then Raise ValueError
  else Ok (digits_value s).

(** [str(n)] / [f"{n}"] for an int. *)
Definition str_of_int (n : Z) : str :=
  lit (NilZero.string_of_int (Z.to_int n)).

(** *** re: the patterns of map.py

    Every pattern of the script is a sequence of literal characters and
    captured groups [(\d{lo,hi})]. *)
Inductive atom : Type :=
| Chr (c : Z)
| Digits (lo hi : nat).

Definition pattern := list atom.

(** A greedy counted repetition: take [k] digits for the largest [k] between
    [lo] and the starting [k] for which the rest of the pattern matches. *)
Fixpoint try_counts (cont : str -> option (list str)) (s : str)
         (lo k : nat) : option (list str) :=
  let attempt :=
    if (lo <=? k)%nat && (k <=? List.length s)%nat
       && forallb isdecimal (firstn k s)
    then match cont (skipn k s) with
         | Some gs => Some (firstn k s :: gs)
         | None => None
         end
    else None in
  match attempt with
  | Some r => Some r
  | None => match k with
            | O => None
            | S k' => try_counts cont s lo k'
            end
  end.

(** Match the pattern at the start of [s]; the result is the list of
    captured groups. *)
Fixpoint match_here (p : pattern) (s : str) : option (list str) :=
  match p with
  | [] => Some []
  | Chr c :: p' =>
      match s with
      | x :: s' => if x =? c then match_here p' s' else None
      | [] => None
      end
  | Digits lo hi :: p' => try_counts (match_here p') s lo hi
  end.

(** [re.search(p, s)]: the leftmost match. *)
Fixpoint re_search (p : pattern) (s : str) : option (list str) :=
  match match_here p s with
  | Some gs => Some gs
  | None => match s with
            | [] => None
            | _ :: s' => re_search p s'
            end
  end.

(** [re.sub(r'[^\d]', '', s)] *)
Definition sub_non_digits (s : str) : str := filter isdecimal s.

(** *** datetime *)

Record datetime : Type := mk_datetime { year : Z; month : Z; day : Z }.

Definition is_leap (y : Z) : bool :=
  (y mod 4 =? 0) && (negb (y mod 100 =? 0) || (y mod 400 =? 0)).

(** CPython's [_DAYS_IN_MONTH]. *)
Definition DAYS_IN_MONTH : list Z :=
  [-1; 31; 28; 31; 30; 31; 30; 31; 31; 30; 31; 30; 31].

Definition days_in_month (y m : Z) : Z :=
  if (m =? 2) && is_leap y then 29 else nth (Z.to_nat m) DAYS_IN_MONTH 0.

(** The values of a C [int]. *)
Definition c_int (n : Z) : bool := (-2147483648 <=? n) && (n <=? 2147483647).

(** [datetime(y, m, d)]: the arguments are first converted to C [int]s,
    [OverflowError] when one does not fit; then [ValueError] unless the
    fields are in range. *)
Definition new_datetime (y m d : Z) : res datetime :=
  if negb (c_int y && c_int m && c_int d) then Raise OverflowError
  else if negb ((1 <=? y) && (y <=? 9999)) then Raise ValueError
  else if negb ((1 <=? m) && (m <=? 12)) then Raise ValueError
  else if negb ((1 <=? d) && (d <=? days_in_month y m)) then Raise ValueError
  else Ok (mk_datetime y m d).

Definition digit_char (n : Z) : Z := 48 + n mod 10.

Definition two_digits (n : Z) : str := [digit_char (n / 10); digit_char n].

Definition four_digits (n : Z) : str :=
  [digit_char (n / 1000); digit_char (n / 100); digit_char (n / 10);
   digit_char n].

(** [dt.strftime('%Y-%m-%d')], as the C library of CPython on Linux
    (glibc) renders it: the year as a plain decimal number, hence with four
    digits from the year 1000 on and with fewer below, the month and the day
    zero-padded to two digits. *)
Definition strftime_Ymd (dt : datetime) : str :=
  str_of_int (year dt) ++ [45] ++ two_digits (month dt) ++ [45]
  ++ two_digits (day dt).

(** *** Values stored in a dict or DataFrame cell *)
Inductive value : Type :=
| VNone
| VStr (s : str)
| VInt (n : Z).

Definition dict := list (string * value).

(** [d[k]] *)
Fixpoint getitem (d : dict) (k : string) : res value :=
  match d with
  | [] => Raise KeyError
  | (k', v) :: d' => if String.eqb k k' then Ok v else getitem d' k
  end.

(** [f"{v}"] *)
Definition format_value (v : value) : str :=
  match v with
  | VNone => lit "None"
  | VStr s => s
  | VInt n => str_of_int n
  end.

(** *** Control flow

    [try: m except ValueError: h] *)
Definition catch_ValueError {A : Type} (m h : res A) : res A :=
  match m with
  | Raise ValueError => h
  | _ => m
  end.

(** A statement that may [return] a value ([Some]) or fall through
    ([None]), followed by the rest of the function. *)
Definition or_else {B : Type} (m k : res (option B)) : res (option B) :=
  match m with
  | Ok (Some b) => Ok (Some b)
  | Ok None => k
  | Raise e => Raise e
  end.

(** [for x in xs: body], where the body may [return] out of the enclosing
    function or raise; [continue] and falling off the end of the body are
    [Ok None]. *)
Fixpoint for_loop {A B : Type} (xs : list A) (body : A -> res (option B))
  : res (option B) :=
  match xs with
  | [] => Ok None
  | x :: xs' => or_else (body x) (for_loop xs' body)
  end.

(** [range(lo, hi)] *)
Definition range (lo hi : Z) : list Z :=
  List.map (fun i => lo + Z.of_nat i) (seq 0 (Z.to_nat (hi - lo))).

(** [enumerate(l)] *)
Definition enumerate {A : Type} (l : list A) : list (nat * A) :=
  combine (seq 0 (List.length l)) l.

End Py.

Notation "x <- m ;; k" := (Py.bind m (fun x => k))
  (at level 61, m at next level, right associativity).

(* ================================================================= *)
(** ** map.py *)
(* ================================================================= *)

Module Map.
Import Py.

(** *** Documents, as pdfplumber presents them *)

Definition cell := option str.
Definition row := list cell.
Definition table := list row.

Record page : Type := mk_page {
  extract_text : str;
  extract_tables : list table
}.

(** What a path names: a file pdfplumber cannot open, or a document. *)
Inductive pdf_file : Type :=
| Unreadable
| Pdf (pages : list page).

(** [pdfplumber.open(pdf_path)], giving [pdf.pages] *)
Definition pdfplumber_open (pdf_path : pdf_file) : res (list page) :=
  match pdf_path with
  | Unreadable => Raise OpenError
  | Pdf pages => Ok pages
  end.

(** [pages[0]] *)
Definition first_of {A : Type} (l : list A) : res A :=
  match l with
  | [] => Raise IndexError
  | x :: _ => Ok x
  end.

(** *** Configuration *)

Definition HEADER_1 : string := "UYTCAB.DEMANDFORECAST.CHANGECURRBAL.JPN.B".
Definition HEADER_2 : string :=
  "Supply and demand forecast: Change in current account balance".

(** The characters the script names: U+5E74 (year), U+6708 (month),
    U+65E5 (day), U+25B2 (the black triangle). *)
Definition NEN : Z := 24180.
Definition GATSU : Z := 26376.
Definition NICHI : Z := 26085.
Definition SANKAKU : Z := 9650.

(** ['財政'] *)
Definition TARGET_ROW_KEYWORDS : list str := [[36001; 25919]].

(** ['当社需給予想', '需給予想'] *)
Definition TARGET_COLUMN_KEYWORDS : list str :=
  [[24403; 31038; 38656; 32102; 20104; 24819];
   [38656; 32102; 20104; 24819]].

(** *** extract_date_from_pdf *)

(** [(\d{4})年(\d{1,2})月(\d{1,2})日] *)
Definition date_pattern1 : pattern :=
  [Digits 4 4; Chr NEN; Digits 1 2; Chr GATSU; Digits 1 2; Chr NICHI].

(** [(\d{4})\.(\d{1,2})\.(\d{1,2})] *)
Definition date_pattern2 : pattern :=
  [Digits 4 4; Chr 46; Digits 1 2; Chr 46; Digits 1 2].

(** [(\d{4})/(\d{1,2})/(\d{1,2})] *)
Definition date_pattern3 : pattern :=
  [Digits 4 4; Chr 47; Digits 1 2; Chr 47; Digits 1 2].

(** [match.group(n)] *)
Definition group (gs : list str) (n : nat) : res str :=
  match n with
  | O => Raise IndexError
  | S i => match nth_error gs i with
           | Some g => Ok g
           | None => Raise IndexError
           end
  end.

(** [datetime(int(match.group(1)), int(match.group(2)), int(match.group(3)))] *)
Definition datetime_of_match (gs : list str) : res datetime :=
  g1 <- group gs 1 ;; year <- int_of_str g1 ;;
  g2 <- group gs 2 ;; month <- int_of_str g2 ;;
  g3 <- group gs 3 ;; day <- int_of_str g3 ;;
  new_datetime year month day.

Definition extract_date_from_pdf (pdf_path : pdf_file) : res (option datetime) :=
  pages <- pdfplumber_open pdf_path ;;
  first_page <- first_of pages ;;
  let text := extract_text first_page in
  match re_search date_pattern1 text with
  | Some gs => dt <- datetime_of_match gs ;; Ok (Some dt)
  | None =>
  match re_search date_pattern2 text with
  | Some gs => dt <- datetime_of_match gs ;; Ok (Some dt)
  | None =>
  match re_search date_pattern3 text with
  | Some gs => dt <- datetime_of_match gs ;; Ok (Some dt)
  | None => Ok None
  end end end.

(** *** extract_date_from_cell *)

(** [(\d{1,2})月(\d{1,2})日] *)
Definition date_pattern : pattern :=
  [Digits 1 2; Chr GATSU; Digits 1 2; Chr NICHI].

Definition extract_date_from_cell (cell_text : str) (year : Z)
  : res (option str) :=
  if negb (truthy cell_text) then Ok None
  else
    match re_search date_pattern cell_text with
    | Some gs =>
        g1 <- group gs 1 ;; month <- int_of_str g1 ;;
        g2 <- group gs 2 ;; day <- int_of_str g2 ;;
        catch_ValueError
          (date_obj <- new_datetime year month day ;;
           Ok (Some (strftime_Ymd date_obj)))
          (Ok None)
    | None => Ok None
    end.

(** *** extract_forecast_date_universal *)

(** The lines the three strategies share, from [row = table[row_idx]] on:
    [Some date] when the strategy returns [date]. *)
Definition check_cell (table : table) (row_idx col_idx : nat) (year : Z)
  : res (option str) :=
  let row := nth row_idx table [] in
  if (col_idx <? List.length row)%nat then
    match nth col_idx row None with
    | Some cell_text =>
        if truthy cell_text then
          date <- extract_date_from_cell cell_text year ;;
          match date with
          | Some d => if truthy d then Ok (Some d) else Ok None
          | None => Ok None
          end
        else Ok None
    | None => Ok None
    end
  else Ok None.

(** The row and column indices are those of [range] and [enumerate] in the
    caller, hence naturals; [check_row_idx] can fall below zero. *)
Definition extract_forecast_date_universal
  (table : table) (header_row_idx col_idx : nat) (pdf_path : pdf_file)
  : res (option str) :=
  doc_date <- extract_date_from_pdf pdf_path ;;
  match doc_date with
  | None => Ok None
  | Some doc_date =>
      let year := year doc_date in
      (* Strategy 1: the header cell itself *)
      or_else
        (if (header_row_idx <? List.length table)%nat
         then check_cell table header_row_idx col_idx year
         else Ok None)
      (* Strategy 2: rows around the header *)
      (or_else
        (for_loop [1; -1; 2; -2; 3] (fun offset =>
           let check_row_idx := Z.of_nat header_row_idx + offset in
           if (0 <=? check_row_idx)
              && (check_row_idx <? Z.of_nat (List.length table))
           then check_cell table (Z.to_nat check_row_idx) col_idx year
           else Ok None))
      (* Strategy 3: rows above the header *)
        (for_loop
           (range (Z.max 0 (Z.of_nat header_row_idx - 5))
                  (Z.of_nat header_row_idx))
           (fun row_idx =>
              if row_idx <? Z.of_nat (List.length table)
              then check_cell table (Z.to_nat row_idx) col_idx year
              else Ok None)))
  end.

(** *** clean_numeric_value *)

Definition clean_numeric_value (value_str : str) : res (option Z) :=
  if negb (truthy value_str) then Ok None
  else
    let value_str := strip value_str in
    let is_negative :=
      contains [SANKAKU] value_str || startswith [45] value_str in
    let value_str := remove_char 43 value_str in
    let value_str := sub_non_digits value_str in
    if negb (truthy value_str) then Ok None
    else
      catch_ValueError
        (value <- int_of_str value_str ;;
         let value := if is_negative && (0 <? value) then - value else value in
         Ok (Some value))
        (Ok None).

(** *** find_fiscal_forecast_value *)

(** [cell and any(keyword in str(cell) for keyword in keywords)] *)
Definition cell_has_keyword (keywords : list str) (cell : cell) : bool :=
  match cell with
  | Some text =>
      truthy text && existsb (fun keyword => contains keyword text) keywords
  | None => false
  end.

(** [if row:] followed by the scan of its cells that stops at the first
    cell holding one of the keywords. *)
Definition row_has_keyword (keywords : list str) (row : row) : bool :=
  truthy row && existsb (cell_has_keyword keywords) row.

(** Step 1: all potential header rows among the first 40. *)
Definition header_candidates (table : table) : list (nat * row) :=
  flat_map
    (fun row_idx =>
       let row := nth row_idx table [] in
       if row_has_keyword TARGET_COLUMN_KEYWORDS row
       then [(row_idx, row)] else [])
    (seq 0 (Nat.min 40 (List.length table))).

(** Step 2: the first row holding a row keyword. *)
Fixpoint find_target_row (rows : list (nat * row)) : option (nat * row) :=
  match rows with
  | [] => None
  | (row_idx, row) :: rest =>
      if row_has_keyword TARGET_ROW_KEYWORDS row
      then Some (row_idx, row)
      else find_target_row rest
  end.

(** Step 3, body of the loop over the cells of one header row. *)
Definition try_column (pdf_path : pdf_file) (table : table)
  (header_idx : nat) (target_row : row) (col : nat * cell)
  : res (option (Z * str)) :=
  let '(col_idx, cell) := col in
  if cell_has_keyword TARGET_COLUMN_KEYWORDS cell then
    if (col_idx <? List.length target_row)%nat then
      match nth col_idx target_row None with
      | None => Ok None
      | Some value_cell =>
          if negb (truthy (strip value_cell)) then Ok None
          else
            value <- clean_numeric_value value_cell ;;
            match value with
            | None => Ok None
            | Some value =>
                date_str <- extract_forecast_date_universal
                              table header_idx col_idx pdf_path ;;
                match date_str with
                | Some date_str => Ok (Some (value, date_str))
                | None => Ok None
                end
            end
      end
    else Ok None
  else Ok None.

(** Step 3, body of the loop over the header candidates. *)
Definition try_header (pdf_path : pdf_file) (table : table)
  (target_row_idx : nat) (target_row : row) (header : nat * row)
  : res (option (Z * str)) :=
  let '(header_idx, header_row) := header in
  if (target_row_idx <=? header_idx)%nat then Ok None
  else for_loop (enumerate header_row)
                (try_column pdf_path table header_idx target_row).

(** Body of the loop over the tables of the first page. *)
Definition search_table (pdf_path : pdf_file) (table : table)
  : res (option (Z * str)) :=
  if negb (truthy table) || (List.length table <? 2)%nat then Ok None
  else
    let header_candidates := header_candidates table in
    match find_target_row (enumerate table) with
    | None => Ok None
    | Some (target_row_idx, target_row) =>
        if negb (truthy target_row) then Ok None
        else for_loop header_candidates
                      (try_header pdf_path table target_row_idx target_row)
    end.

Definition find_fiscal_forecast_value (pdf_path : pdf_file)
  : res (option Z * option str) :=
  pages <- pdfplumber_open pdf_path ;;
  first_page <- first_of pages ;;
  let tables := extract_tables first_page in
  found <- for_loop tables (search_table pdf_path) ;;
  match found with
  | Some (value, date_str) => Ok (Some value, Some date_str)
  | None => Ok (None, None)
  end.

(** *** create_mapped_data *)

Definition create_mapped_data (pdf_path : pdf_file) : res (option dict) :=
  found <- find_fiscal_forecast_value pdf_path ;;
  match found with
  | (Some value, Some forecast_date) =>
      Ok (Some [(HEADER_1, VStr forecast_date); (HEADER_2, VInt value)])
  | _ => Ok None
  end.

(** *** save_custom_csv *)

(** A DataFrame, row by row; the cells keep the Python values the rows were
    built from. *)
Definition dataframe := list dict.

(** The body of [for _, row in df.iterrows()]: the line written. *)
Definition csv_line (row : dict) : res str :=
  date_value <- getitem row HEADER_1 ;;
  numeric_value <- getitem row HEADER_2 ;;
  Ok (format_value date_value ++ lit "," ++ format_value numeric_value
      ++ [10]).

Fixpoint csv_lines (rows : dataframe) : res str :=
  match rows with
  | [] => Ok []
  | row :: rest =>
      line <- csv_line row ;;
      more <- csv_lines rest ;;
      Ok (line ++ more)
  end.

(** The text written to [output_path]. *)
Definition save_custom_csv (df : dataframe) : res str :=
  data <- csv_lines df ;;
  Ok (lit "," ++ lit HEADER_1 ++ [10]
      ++ lit "," ++ lit HEADER_2 ++ [10]
      ++ data).

(** *** process_multiple_pdfs *)

(** The loop over the documents.  [pdf_files] is the folder's listing as the
    script walks it: the [.pdf] entries in sorted name order, each with the
    file it names. *)
Fixpoint collect (pdf_files : list pdf_file) (all_data : list dict)
  : res (list dict) :=
  match pdf_files with
  | [] => Ok all_data
  | pdf_path :: rest =>
      data <- create_mapped_data pdf_path ;;
      match data with
      | Some d => if truthy d then collect rest (all_data ++ [d])
                  else collect rest all_data
      | None => collect rest all_data
      end
  end.

(** [df[[HEADER_1, HEADER_2]]] *)
Fixpoint select_columns (df : dataframe) : res dataframe :=
  match df with
  | [] => Ok []
  | row :: rest =>
      v1 <- getitem row HEADER_1 ;;
      v2 <- getitem row HEADER_2 ;;
      rest' <- select_columns rest ;;
      Ok ([(HEADER_1, v1); (HEADER_2, v2)] :: rest')
  end.

(** The result is the returned DataFrame and the files written, as
    (path, text) pairs.  [if output_csv:] holds for a path that is neither
    [None] nor the empty string. *)
Definition process_multiple_pdfs (pdf_files : list pdf_file)
  (output_csv : option string) : res (dataframe * list (string * str)) :=
  all_data <- collect pdf_files [] ;;
  if truthy all_data then
    df <- select_columns all_data ;;
    match output_csv with
    | Some EmptyString => Ok (df, [])
    | Some path =>
        text <- save_custom_csv df ;;
        Ok (df, [(path, text)])
    | None => Ok (df, [])
    end
  else Ok ([], []).

End Map.

(* ================================================================= *)
(** ** Notions of the specification *)
(* ================================================================= *)

Module Spec.
Import Py Map.

(** *** Numeric Normalizer *)

(** The rule of the specification, read literally: digits are the ASCII
    digits and the minus sign is looked for at the start of the raw text. *)
Definition normalize_ascii (text : str) : option Z :=
  match filter is_ascii_digit text with
  | [] => None
  | ds =>
      let negative :=
        existsb (Z.eqb SANKAKU) text || startswith [45] text in
      let magnitude := digits_value ds in
      Some (if negative && (0 <? magnitude) then - magnitude else magnitude)
  end.

(** The rule the script follows: digits are the decimal digits of any
    script, the minus sign is the first character after leading blanks, and
    a run of more than [int_max_str_digits] digits gives no value. *)
Definition normalize (text : str) : option Z :=
  match filter isdecimal text with
  | [] => None
  | ds =>
      if (int_max_str_digits <? List.length ds)%nat then None
      else
        let negative :=
          existsb (Z.eqb SANKAKU) text
          || match lstrip text with
             | c :: _ => c =? 45
             | [] => false
             end in
        let magnitude := digits_value ds in
        Some (if negative && (0 <? magnitude) then - magnitude
              else magnitude)
  end.

(** *** Calendar dates *)

(** Days of a month in the Gregorian calendar. *)
Definition month_length (y m : Z) : Z :=
  if m =? 2 then
    (if (y mod 400 =? 0) then 29
     else if (y mod 100 =? 0) then 28
     else if (y mod 4 =? 0) then 29 else 28)
  else if (m =? 4) || (m =? 6) || (m =? 9) || (m =? 11) then 30
  else 31.

Definition valid_date (y m d : Z) : Prop :=
  1 <= y <= 9999 /\ 1 <= m <= 12 /\ 1 <= d <= month_length y m.

(** Reading an ISO date [YYYY-MM-DD] back. *)
Definition ascii_value (c : Z) : option Z :=
  if is_ascii_digit c then Some (c - 48) else None.

Definition parse_iso (s : str) : option (Z * Z * Z) :=
  match s with
  | [y1; y2; y3; y4; h1; m1; m2; h2; d1; d2] =>
      if (h1 =? 45) && (h2 =? 45) then
        match ascii_value y1, ascii_value y2, ascii_value y3, ascii_value y4,
              ascii_value m1, ascii_value m2, ascii_value d1, ascii_value d2
        with
        | Some a, Some b, Some c, Some d, Some e, Some f, Some g, Some h =>
            Some (1000 * a + 100 * b + 10 * c + d, 10 * e + f, 10 * g + h)
        | _, _, _, _, _, _, _, _ => None
        end
      else None
  | _ => None
  end.

(** The shape of the groups a pattern captures: one run of decimal digits
    per [Digits] atom, of a length within its bounds. *)
Fixpoint groups_of (p : pattern) (gs : list str) : Prop :=
  match p with
  | [] => gs = []
  | Chr _ :: p' => groups_of p' gs
  | Digits lo hi :: p' =>
      match gs with
      | [] => False
      | g :: gs' =>
          forallb isdecimal g = true
          /\ (lo <= List.length g <= hi)%nat
          /\ groups_of p' gs'
      end
  end.

(** The month and day the cell-date pattern finds in a cell, if any. *)
Definition parsed_month_day (cell_text : str) : option (Z * Z) :=
  match re_search date_pattern cell_text with
  | Some [g1; g2] => Some (digits_value g1, digits_value g2)
  | _ => None
  end.

(** The short form of a date in a cell: month, 月, day, 日. *)
Definition short_date (m d : Z) : str :=
  str_of_int m ++ [GATSU] ++ str_of_int d ++ [NICHI].

(** *** Date Resolution Cascade *)

(** The text of the grid at a row and column; absent outside the grid and
    on an absent cell. *)
Definition cell_at (grid : table) (r : Z) (c : nat) : option str :=
  if r <? 0 then None
  else match nth_error grid (Z.to_nat r) with
       | Some row => match nth_error row c with
                     | Some (Some text) => Some text
                     | _ => None
                     end
       | None => None
       end.

(** The cell-date resolver, as a function to an optional date. *)
Definition cell_date (cell_text : str) (year : Z) : option str :=
  match extract_date_from_cell cell_text year with
  | Ok r => r
  | Raise _ => None
  end.

Definition date_at (grid : table) (c : nat) (year : Z) (r : Z) : option str :=
  match cell_at grid r c with
  | Some text => cell_date text year
  | None => None
  end.

(** The rows of the search order: the header row, the offsets
    +1, -1, +2, -2, +3, then header-5 up to header-1. *)
Definition cascade_rows (h : Z) : list Z :=
  [h; h + 1; h - 1; h + 2; h - 2; h + 3;
   h - 5; h - 4; h - 3; h - 2; h - 1].

Fixpoint first_some {A B : Type} (f : A -> option B) (l : list A) : option B :=
  match l with
  | [] => None
  | x :: l' => match f x with
               | Some b => Some b
               | None => first_some f l'
               end
  end.

Definition cascade (grid : table) (h c : nat) (year : Z) : option str :=
  first_some (date_at grid c year) (cascade_rows (Z.of_nat h)).

(** *** Intersection Locator *)

Definition matches_metric (cell : cell) : bool :=
  cell_has_keyword TARGET_COLUMN_KEYWORDS cell.

Definition matches_subject (cell : cell) : bool :=
  cell_has_keyword TARGET_ROW_KEYWORDS cell.

(** The columns of a header row that match the metric keywords, left to
    right. *)
Definition metric_columns (header_row : row) : list nat :=
  List.map fst (filter (fun col => matches_metric (snd col))
                       (enumerate header_row)).

(** What the locator does with one column of the data row: read the cell,
    normalize it, resolve the date for (header row, column). *)
Definition read_column (doc : pdf_file) (grid : table) (header_idx : nat)
  (data_row : row) (col_idx : nat) : res (option (Z * str)) :=
  match nth_error data_row col_idx with
  | Some (Some text) =>
      match strip text with
      | [] => Ok None
      | _ :: _ =>
          value <- clean_numeric_value text ;;
          match value with
          | None => Ok None
          | Some n =>
              date <- extract_forecast_date_universal
                        grid header_idx col_idx doc ;;
              match date with
              | Some d => Ok (Some (n, d))
              | None => Ok None
              end
          end
      end
  | _ => Ok None
  end.

(** The reading of the specification: only the first matching column of a
    header row is ever tried. *)
Definition first_column_only (doc : pdf_file) (grid : table)
  (header_idx : nat) (header_row data_row : row) : res (option (Z * str)) :=
  match metric_columns header_row with
  | c :: _ => read_column doc grid header_idx data_row c
  | [] => Ok None
  end.

(** *** Record Assembler and batch *)

(** The record a document yields, when its extraction ends normally with
    one. *)
Definition record_of (doc : pdf_file) : option (str * Z) :=
  match find_fiscal_forecast_value doc with
  | Ok (Some value, Some date) => Some (date, value)
  | _ => None
  end.

(** The exception that ends a document's extraction, if any. *)
Definition failure_of (doc : pdf_file) : option exn :=
  match create_mapped_data doc with
  | Raise e => Some e
  | Ok _ => None
  end.

(** The records of a batch, in processing order. *)
Definition records (docs : list pdf_file) : list (str * Z) :=
  flat_map (fun doc => match record_of doc with
                       | Some r => [r]
                       | None => []
                       end) docs.

(** The first exception met in a batch, in processing order. *)
Definition first_failure (docs : list pdf_file) : option exn :=
  first_some failure_of docs.

Definition frame_row (r : str * Z) : dict :=
  [(HEADER_1, VStr (fst r)); (HEADER_2, VInt (snd r))].

(** The lines of a text, each ended by a line feed. *)
Fixpoint unlines (ls : list str) : str :=
  match ls with
  | [] => []
  | l :: ls' => l ++ [10] ++ unlines ls'
  end.

Definition data_line (r : str * Z) : str :=
  fst r ++ lit "," ++ str_of_int (snd r).

(** The layout of the batch file. *)
Definition file_lines (rs : list (str * Z)) : list str :=
  (lit "," ++ lit HEADER_1) :: (lit "," ++ lit HEADER_2)
  :: List.map data_line rs.

Definition no_line_feed (s : str) : bool :=
  forallb (fun c => negb (c =? 10)) s.

End Spec.

(* ================================================================= *)
(** ** Sample documents *)
(* ================================================================= *)

Module Samples.
Import Py Map.

(** 当社需給予想, 需給予想 and 財政 *)
Definition metric : str := [24403; 31038; 38656; 32102; 20104; 24819].
Definition metric_short : str := [38656; 32102; 20104; 24819].
Definition subject : str := [36001; 25919].

(** 10月3日 and 7月16日 *)
Definition oct3 : str := lit "10" ++ [GATSU] ++ lit "3" ++ [NICHI].
Definition jul16 : str := lit "7" ++ [GATSU] ++ lit "16" ++ [NICHI].

(** 2月30日 *)
Definition feb30 : str := lit "2" ++ [GATSU] ++ lit "30" ++ [NICHI].

(** ▲1,234 *)
Definition minus_1234 : str := [SANKAKU] ++ lit "1,234".

(** １２３ in full-width digits *)
Definition fullwidth_123 : str := [65297; 65298; 65299].

(** A first page dated 2024年10月1日. *)
Definition dated_text : str :=
  lit "2024" ++ [NEN] ++ lit "10" ++ [GATSU] ++ lit "1" ++ [NICHI].

(** The grid of the end-to-end scenario. *)
Definition grid : table :=
  [ [Some (lit "x"); Some metric; Some (lit "y")];
    [Some subject; Some minus_1234; Some (lit "z")];
    [Some []; Some oct3; Some []] ].

Definition doc : pdf_file := Pdf [mk_page dated_text [grid]].

(** The same grid without the row that carries the date. *)
Definition grid_without_date : table :=
  [ [Some (lit "x"); Some metric; Some (lit "y")];
    [Some subject; Some minus_1234; Some (lit "z")] ].

Definition doc_without_cell_date : pdf_file :=
  Pdf [mk_page dated_text [grid_without_date]].

(** The same grid with the numeric cell blank. *)
Definition grid_blank_value : table :=
  [ [Some (lit "x"); Some metric; Some (lit "y")];
    [Some subject; Some (lit "  "); Some (lit "z")];
    [Some []; Some oct3; Some []] ].

Definition doc_blank_value : pdf_file :=
  Pdf [mk_page dated_text [grid_blank_value]].

(** The scenario grid in a document whose first page carries no date. *)
Definition doc_undated : pdf_file := Pdf [mk_page (lit "Daily signal") [grid]].

(** A header row with two metric columns: the first sits over the row label,
    the second over the figure. *)
Definition grid_two_metric_columns : table :=
  [ [Some metric_short; Some metric];
    [Some subject; Some (lit "123")];
    [None; Some oct3] ].

Definition doc_two_metric_columns : pdf_file :=
  Pdf [mk_page dated_text [grid_two_metric_columns]].

(** Dates in the header cell, one row below and one row above. *)
Definition grid_dates_around_header : table :=
  [ [Some jul16]; [Some oct3]; [Some (lit "7" ++ [GATSU] ++ lit "1" ++ [NICHI])] ].

(** Dates one row below and one row above only. *)
Definition grid_dates_below_and_above : table :=
  [ [Some jul16]; [Some metric]; [Some oct3] ].

End Samples.

(* ================================================================= *)
(** ** The folder listing of process_multiple_pdfs *)
(* ================================================================= *)

Module Folder.
Import Py Map.

(** [s.endswith(suffix)] *)
Definition endswith (suffix s : str) : bool :=
  startswith (rev suffix) (rev s).

(** [a < b] on [str]: code point by code point, a proper prefix first. *)
Fixpoint str_ltb (a b : str) : bool :=
  match a, b with
  | _, [] => false
  | [], _ :: _ => true
  | x :: a', y :: b' => (x <? y) || ((x =? y) && str_ltb a' b')
  end.

(** [sorted(names)]: a stable sort, here by insertion from the right; a
    name goes in front of the first name that is not below it. *)
Fixpoint insert (name : str) (names : list str) : list str :=
  match names with
  | [] => [name]
  | x :: rest =>
      if str_ltb x name then x :: insert name rest else name :: names
  end.

Fixpoint sorted (names : list str) : list str :=
  match names with
  | [] => []
  | name :: rest => insert name (sorted rest)
  end.

(** [sorted([f for f in os.listdir(pdf_folder) if f.endswith('.pdf')])],
    from the names [os.listdir] returns, in whatever order it does. *)
Definition pdf_files (listdir : list str) : list str :=
  sorted (filter (endswith (lit ".pdf")) listdir).

(** [process_multiple_pdfs(pdf_folder, output_csv)] from the folder itself:
    [listdir] is what [os.listdir(pdf_folder)] returns and [file_at name]
    is the file that [os.path.join(pdf_folder, name)] names. *)
Definition process_folder (listdir : list str) (file_at : str -> pdf_file)
  (output_csv : option string) : res (dataframe * list (string * str)) :=
  process_multiple_pdfs (List.map file_at (pdf_files listdir)) output_csv.

End Folder.

(* ================================================================= *)
(** ** main.py: wait_for_download *)
(* ================================================================= *)

Module Download.
Import Py Map.

Section WaitForDownload.

(** [os.path.join] of the platform. *)
Variable path_join : str -> str -> str.

(** [files[-1]] on a non-empty list. *)
Definition last_of (files : list str) : str := last files [].

(** The loop of [wait_for_download].  [polls] holds, for each pass through
    the loop body (each time the clock test of the [while] holds), the two
    directory listings the body reads, first for the [.pdf] names, then for
    the [.crdownload] names; after the last pass the clock test fails and
    the function returns [None]. *)
Fixpoint wait_for_download (download_dir : str)
         (polls : list (list str * list str)) : option str :=
  match polls with
  | [] => None
  | (listing1, listing2) :: later =>
      let files := filter (Folder.endswith (lit ".pdf")) listing1 in
      let temp_files := filter (Folder.endswith (lit ".crdownload")) listing2 in
      if truthy files && negb (truthy temp_files)
      then Some (path_join download_dir (last_of files))
      else wait_for_download download_dir later
  end.

End WaitForDownload.

End Download.

(* ================================================================= *)
(** ** orchestrator.py *)
(* ================================================================= *)

Module Orchestrator.

(** How [subprocess.run([sys.executable, script], check=True, ...)] ends:
    the child exits with a return code, or the call raises before or
    instead of that (something other than [CalledProcessError]). *)
Inductive outcome : Type :=
| Exited (returncode : Z)
| Failed.

(** [run_script(script_name, description)]: [True] when the child exits
    with return code 0; [CalledProcessError] (any other return code) and
    any other exception give [False].  [launched] records the scripts
    started so far. *)
Definition run_script (run : string -> outcome) (script_name : string)
  (launched : list string) : bool * list string :=
  let launched := launched ++ [script_name] in
  match run script_name with
  | Exited 0 => (true, launched)
  | Exited _ => (false, launched)
  | Failed => (false, launched)
  end.

(** [main()]: the exit status of the orchestrator ([sys.exit(1)], or 0 on
    falling off the end) and the scripts it started, in order. *)
Definition main (run : string -> outcome) : Z * list string :=
  let '(success, launched) := run_script run "main.py" [] in
  if negb success then (1, launched)
  else
    let '(success, launched) := run_script run "map.py" launched in
    if negb success then (1, launched)
    else (0, launched).

End Orchestrator.

(* ================================================================= *)
(** ** Texts and documents used below *)
(* ================================================================= *)

Module DateText.
Import Py Map.

(** A month or day, zero-padded to two digits or not. *)
Definition field (padded : bool) (n : Z) : str :=
  if padded then two_digits n else str_of_int n.

(** 2025年10月1日 *)
Definition japanese_date (pm pd : bool) (y m d : Z) : str :=
  four_digits y ++ [NEN] ++ field pm m ++ [GATSU] ++ field pd d ++ [NICHI].

(** 2024.05.16 and 2024/05/16 *)
Definition separated_date (sep : Z) (pm pd : bool) (y m d : Z) : str :=
  four_digits y ++ [sep] ++ field pm m ++ [sep] ++ field pd d.

(** The year, month and day the document-date patterns find in a text: the
    groups of the first of the three patterns that matches. *)
Definition document_match (text : str) : option (Z * Z * Z) :=
  let found :=
    match re_search date_pattern1 text with
    | Some gs => Some gs
    | None =>
        match re_search date_pattern2 text with
        | Some gs => Some gs
        | None => re_search date_pattern3 text
        end
    end in
  match found with
  | Some [g1; g2; g3] =>
      Some (digits_value g1, digits_value g2, digits_value g3)
  | _ => None
  end.

(** A first page dated 2024年2月30日 followed by 2024/05/16. *)
Definition impossible_then_slashed : str :=
  lit "2024" ++ [NEN] ++ Samples.feb30 ++ lit " 2024/05/16".

(** The scenario grid in a document dated 0999年10月1日. *)
Definition doc_year_999 : pdf_file :=
  Pdf [mk_page (lit "0999" ++ [NEN] ++ lit "10" ++ [GATSU] ++ lit "1"
                ++ [NICHI]) [Samples.grid]].

(** A value under the only header row, no date in its column, and a date
    in a cell of another column. *)
Definition grid_date_elsewhere : table :=
  [ [Some (lit "x"); Some Samples.metric];
    [Some Samples.subject; Some (lit "123")];
    [Some Samples.oct3; None] ].

Definition doc_date_elsewhere : pdf_file :=
  Pdf [mk_page Samples.dated_text [grid_date_elsewhere]].

(** A second page that would give another value and date. *)
Definition other_page : page :=
  mk_page (lit "2023/01/02")
    [ [ [Some (lit "x"); Some Samples.metric];
        [Some Samples.subject; Some (lit "77")];
        [None; Some Samples.jul16] ] ].

End DateText.

(* ================================================================= *)
(** ** Properties of the runtime pieces *)
(* ================================================================= *)

Section RuntimeFacts.
Import Py.

Lemma bind_ok {A B : Type} (a : A) (k : A -> res B) : bind (Ok a) k = k a.
Proof. reflexivity. Qed.

Lemma truthy_filter_existsb {A : Type} (p : A -> bool) (l : list A) :
  truthy (filter p l) = existsb p l.
Proof.
  induction l as [|x l IH]; simpl; [reflexivity|].
  destruct (p x); simpl; [reflexivity | exact IH].
Qed.

Lemma forallb_filter_same {A : Type} (p : A -> bool) (l : list A) :
  forallb p (filter p l) = true.
Proof.
  induction l as [|x l IH]; simpl; [reflexivity|].
  destruct (p x) eqn:E; simpl; [rewrite E; exact IH | exact IH].
Qed.

Lemma filter_filter_implied {A : Type} (p q : A -> bool) (l : list A) :
  (forall x, p x = true -> q x = true) ->
  filter p (filter q l) = filter p l.
Proof.
  intros Hpq. induction l as [|x l IH]; simpl; [reflexivity|].
  destruct (q x) eqn:Eq; simpl.
  - now rewrite IH.
  - destruct (p x) eqn:Ep; [|exact IH].
    apply Hpq in Ep. congruence.
Qed.

(** Stripping removes blanks only. *)
Lemma filter_lstrip (p : Z -> bool) (s : str) :
  (forall c, p c = true -> isspace c = false) ->
  filter p (lstrip s) = filter p s.
Proof.
  intros Hp. induction s as [|c s IH]; simpl; [reflexivity|].
  destruct (isspace c) eqn:Ec; [|reflexivity].
  rewrite IH. destruct (p c) eqn:Epc; [|reflexivity].
  apply Hp in Epc. congruence.
Qed.

Lemma filter_rev_comm {A : Type} (p : A -> bool) (l : list A) :
  filter p (rev l) = rev (filter p l).
Proof.
  induction l as [|x l IH]; simpl; [reflexivity|].
  rewrite filter_app, IH. simpl.
  destruct (p x); simpl; [reflexivity | now rewrite app_nil_r].
Qed.

Lemma filter_strip (p : Z -> bool) (s : str) :
  (forall c, p c = true -> isspace c = false) ->
  filter p (strip s) = filter p s.
Proof.
  intros Hp. unfold strip, rstrip.
  rewrite filter_rev_comm, (filter_lstrip p _ Hp), filter_rev_comm.
  rewrite rev_involutive. apply filter_lstrip, Hp.
Qed.

Lemma lstrip_head (s : str) (c : Z) (r : str) :
  lstrip s = c :: r -> isspace c = false.
Proof.
  induction s as [|x s IH]; simpl; [discriminate|].
  destruct (isspace x) eqn:Ex; [exact IH|].
  intros [= <- _]. exact Ex.
Qed.

Lemma lstrip_snoc (l : str) (c : Z) :
  isspace c = false -> lstrip (l ++ [c]) = lstrip l ++ [c].
Proof.
  intros Hc. induction l as [|x l IH]; simpl.
  - now rewrite Hc.
  - destruct (isspace x); [exact IH | reflexivity].
Qed.

Lemma rstrip_cons (c : Z) (r : str) :
  isspace c = false -> rstrip (c :: r) = c :: rstrip r.
Proof.
  intros Hc. unfold rstrip. simpl.
  rewrite (lstrip_snoc _ _ Hc), rev_app_distr. reflexivity.
Qed.

Lemma contains_char (c : Z) (s : str) :
  contains [c] s = existsb (Z.eqb c) s.
Proof.
  induction s as [|x s IH]; simpl; [reflexivity|].
  rewrite IH, andb_true_r. reflexivity.
Qed.

(** The first character of the stripped text is the first one after the
    leading blanks. *)
Lemma startswith_char_strip (c : Z) (s : str) :
  startswith [c] (strip s)
  = match lstrip s with x :: _ => x =? c | [] => false end.
Proof.
  unfold strip. destruct (lstrip s) as [|x r] eqn:E.
  - reflexivity.
  - rewrite (rstrip_cons _ _ (lstrip_head _ _ _ E)). simpl.
    rewrite andb_true_r. apply Z.eqb_sym.
Qed.

Lemma isspace_true (c : Z) :
  isspace c = true ->
  9 <= c <= 13 \/ 28 <= c <= 32 \/ c = 133 \/ c = 160 \/ c = 5760
  \/ 8192 <= c <= 8202 \/ c = 8232 \/ c = 8233 \/ c = 8239 \/ c = 8287
  \/ c = 12288.
Proof.
  unfold isspace.
  repeat rewrite orb_true_iff. repeat rewrite andb_true_iff.
  repeat rewrite Z.leb_le. repeat rewrite Z.eqb_eq. tauto.
Qed.

Lemma decimal_run (c : Z) :
  isdecimal c = true -> exists z, In z nd_zeros /\ z <= c < z + 10.
Proof.
  unfold isdecimal, decimal.
  destruct (find _ nd_zeros) as [z|] eqn:E; [intros _ | discriminate].
  apply find_some in E. destruct E as [Hin Hb].
  apply andb_prop in Hb. destruct Hb as [H1 H2].
  apply Z.leb_le in H1. apply Z.ltb_lt in H2.
  exists z. split; [exact Hin | lia].
Qed.

(** Decimal digits are no blanks. *)
Lemma isdecimal_not_space (c : Z) : isdecimal c = true -> isspace c = false.
Proof.
  intros H. apply decimal_run in H. destruct H as (z & Hin & Hz).
  destruct (isspace c) eqn:E; [|reflexivity].
  apply isspace_true in E. exfalso.
  unfold nd_zeros in Hin.
  repeat (destruct Hin as [Hin|Hin]; [subst z; lia|]).
  exact Hin.
Qed.

Lemma isdecimal_not_plus (c : Z) :
  isdecimal c = true -> negb (c =? 43) = true.
Proof.
  intros H. destruct (Z.eqb_spec c 43) as [->|]; [|reflexivity].
  vm_compute in H. discriminate.
Qed.

Lemma range_in (lo hi x : Z) : lo <= x < hi -> In x (range lo hi).
Proof.
  intros Hx. unfold range. apply in_map_iff.
  exists (Z.to_nat (x - lo)). split; [lia|]. apply in_seq. lia.
Qed.

Lemma sankaku_not_space (c : Z) :
  (Map.SANKAKU =? c) = true -> isspace c = false.
Proof. intros H. apply Z.eqb_eq in H. subst c. reflexivity. Qed.

End RuntimeFacts.

(* ================================================================= *)
(** ** Numeric Normalizer *)
(* ================================================================= *)

Section NumericNormalizer.
Import Py Map.

Example clean_triangle : clean_numeric_value Samples.minus_1234 = Ok (Some (-1234)).
Proof. reflexivity. Qed.

Example clean_thousands : clean_numeric_value (lit "1,234") = Ok (Some 1234).
Proof. reflexivity. Qed.

Example clean_empty : clean_numeric_value [] = Ok None.
Proof. reflexivity. Qed.

Example clean_blank : clean_numeric_value (lit "  ") = Ok None.
Proof. reflexivity. Qed.

Example clean_minus_zero : clean_numeric_value (lit "-0") = Ok (Some 0).
Proof. reflexivity. Qed.

Example clean_plus : clean_numeric_value (lit "+56") = Ok (Some 56).
Proof. reflexivity. Qed.

(** A minus sign after leading blanks still counts as leading. *)
Example clean_blank_minus :
  clean_numeric_value (lit " -5") = Ok (Some (-5))
  /\ Spec.normalize_ascii (lit " -5") = Some 5.
Proof. split; reflexivity. Qed.

(** More digits than [int] converts: the [ValueError] is caught. *)
Example clean_too_many_digits :
  clean_numeric_value (repeat 49 4301) = Ok None.
Proof. vm_compute. reflexivity. Qed.

(** C2, as stated, fails on the code: a cell written in full-width digits
    holds no ASCII digit, so the stated rule gives no value, yet the
    normalizer returns 123, because [\d] and [int] accept the decimal digits
    of every script. *)
Lemma clean_numeric_value_fullwidth_digits :
  filter is_ascii_digit Samples.fullwidth_123 = []
  /\ Spec.normalize_ascii Samples.fullwidth_123 = None
  /\ clean_numeric_value Samples.fullwidth_123 = Ok (Some 123)
  /\ clean_numeric_value Samples.fullwidth_123
     <> Ok (Spec.normalize_ascii Samples.fullwidth_123).
Proof.
  repeat split; try reflexivity. vm_compute. discriminate.
Qed.

(** The normalizer computes [Spec.normalize]; in particular it ends
    normally on every input. *)
Lemma normalizer_computes (value_str : str) :
  clean_numeric_value value_str = Ok (Spec.normalize value_str).
Proof.
  unfold clean_numeric_value, Spec.normalize.
  destruct value_str as [|c0 s0]; [reflexivity|].
  set (s := c0 :: s0). cbv [truthy negb].
  unfold sub_non_digits, remove_char.
  rewrite (filter_filter_implied isdecimal _ _ isdecimal_not_plus).
  rewrite (filter_strip isdecimal _ isdecimal_not_space).
  rewrite contains_char, startswith_char_strip.
  rewrite <- (truthy_filter_existsb (Z.eqb SANKAKU) (strip s)).
  rewrite (filter_strip _ _ sankaku_not_space), truthy_filter_existsb.
  destruct (filter isdecimal s) as [|d ds] eqn:E; [reflexivity|].
  cbv [truthy negb]. unfold int_of_str. cbv [truthy negb].
  rewrite <- E, forallb_filter_same. cbv [negb].
  destruct (int_max_str_digits <? List.length (filter isdecimal s))%nat;
    reflexivity.
Qed.

(** C2 (amended): the Numeric Normalizer is a total function that never
    raises.  It returns absent for empty or blank input, for input without
    any decimal digit (Unicode category Nd, wider than the ASCII digits) and
    for input with more than 4300 digits; otherwise it returns the integer
    whose decimal digits are the values of the input's digit characters in
    order, negated exactly when the input holds the triangle glyph or its
    first character after leading blanks is a minus sign, except that zero
    is never negated. *)
Theorem clean_numeric_value_normalize (value_str : str) :
  clean_numeric_value value_str = Ok (Spec.normalize value_str).
Proof. apply normalizer_computes. Qed.

(** A blank text has no digit, so it has no value. *)
Lemma normalize_blank (text : str) :
  forallb isspace text = true -> Spec.normalize text = None.
Proof.
  intros H. unfold Spec.normalize.
  replace (filter isdecimal text) with (@nil Z); [reflexivity|].
  induction text as [|c t IH]; [reflexivity|].
  simpl in *. apply andb_prop in H. destruct H as [Hc Ht].
  destruct (isdecimal c) eqn:E.
  - apply isdecimal_not_space in E. congruence.
  - apply IH, Ht.
Qed.

(** The sign of a value: never below zero without a negative marker. *)
Lemma normalize_sign (text : str) (n : Z) :
  Spec.normalize text = Some n ->
  existsb (Z.eqb SANKAKU) text = false ->
  hd_error (lstrip text) <> Some 45 ->
  n = digits_value (filter isdecimal text).
Proof.
  unfold Spec.normalize. intros H Htri Hminus.
  destruct (filter isdecimal text) as [|d ds] eqn:E; [discriminate|].
  destruct (_ <? _)%nat; [discriminate|].
  rewrite Htri in H. simpl in H.
  destruct (lstrip text) as [|x r]; simpl in H.
  - now injection H as <-.
  - destruct (Z.eqb_spec x 45) as [->|]; [now elim Hminus|].
    simpl in H. now injection H as <-.
Qed.

(** On texts whose only digits are ASCII digits, that do not start with a
    blank and hold at most [int_max_str_digits] digits, the rule of the
    script is the rule read literally. *)
Lemma normalize_ascii_agrees (text : str) :
  (forall c, In c text -> isdecimal c = is_ascii_digit c) ->
  match text with c :: _ => isspace c = false | [] => True end ->
  (List.length (filter isdecimal text) <= int_max_str_digits)%nat ->
  Spec.normalize text = Spec.normalize_ascii text.
Proof.
  intros Hd Hs Hl. unfold Spec.normalize, Spec.normalize_ascii.
  rewrite <- (filter_ext_in _ _ _ Hd).
  destruct (filter isdecimal text) as [|x ds] eqn:E; [reflexivity|].
  replace (int_max_str_digits <? List.length (x :: ds))%nat with false
    by (symmetry; apply Nat.ltb_ge, Hl).
  destruct text as [|c t]; [discriminate|].
  cbn [lstrip startswith]. rewrite Hs, andb_true_r, (Z.eqb_sym c 45).
  reflexivity.
Qed.

End NumericNormalizer.

(* ================================================================= *)
(** ** Date Resolvers *)
(* ================================================================= *)

Section DateResolvers.
Import Py Map.

(** *** Calendar *)

Lemma days_in_month_length (y m : Z) :
  1 <= m <= 12 -> days_in_month y m = Spec.month_length y m.
Proof.
  intros Hm. unfold days_in_month, Spec.month_length, is_leap.
  assert (Hcases : m = 1 \/ m = 2 \/ m = 3 \/ m = 4 \/ m = 5 \/ m = 6 \/ m = 7
                   \/ m = 8 \/ m = 9 \/ m = 10 \/ m = 11 \/ m = 12) by lia.
  repeat (destruct Hcases as [->|Hcases]); try subst m; try reflexivity.
  simpl.
  destruct (Z.eqb_spec (y mod 400) 0) as [H400|H400];
    destruct (Z.eqb_spec (y mod 100) 0) as [H100|H100];
    destruct (Z.eqb_spec (y mod 4) 0) as [H4|H4];
    simpl; try reflexivity; exfalso;
    revert H400 H100 H4; Z.div_mod_to_equations; lia.
Qed.

Lemma month_length_bound (y m : Z) : 28 <= Spec.month_length y m <= 31.
Proof.
  unfold Spec.month_length.
  repeat match goal with
         | |- context [if ?b then _ else _] => destruct b
         end; lia.
Qed.

Lemma valid_date_c_int (y m d : Z) :
  Spec.valid_date y m d -> c_int y && c_int m && c_int d = true.
Proof.
  intros (Hy & Hm & Hd). pose proof (month_length_bound y m).
  unfold c_int. lia.
Qed.

Lemma new_datetime_valid (y m d : Z) :
  Spec.valid_date y m d -> new_datetime y m d = Ok (mk_datetime y m d).
Proof.
  intros Hv. unfold new_datetime. rewrite (valid_date_c_int _ _ _ Hv).
  destruct Hv as (Hy & Hm & Hd).
  rewrite <- (days_in_month_length y m Hm) in Hd.
  replace ((1 <=? y) && (y <=? 9999)) with true by lia.
  replace ((1 <=? m) && (m <=? 12)) with true by lia.
  replace ((1 <=? d) && (d <=? days_in_month y m)) with true by lia.
  reflexivity.
Qed.

(** Numbers that fit a C [int] and are no calendar date: [ValueError]. *)
Lemma new_datetime_invalid (y m d : Z) :
  c_int y && c_int m && c_int d = true ->
  ~ Spec.valid_date y m d -> new_datetime y m d = Raise ValueError.
Proof.
  intros Hc Hn. unfold new_datetime. rewrite Hc. cbn [negb].
  destruct ((1 <=? y) && (y <=? 9999)) eqn:Ey; [|reflexivity].
  destruct ((1 <=? m) && (m <=? 12)) eqn:Em; [|reflexivity].
  destruct ((1 <=? d) && (d <=? days_in_month y m)) eqn:Ed; [|reflexivity].
  exfalso. apply Hn. unfold Spec.valid_date.
  assert (Hm : 1 <= m <= 12) by lia.
  rewrite <- (days_in_month_length y m Hm). lia.
Qed.

(** A number that does not fit a C [int]: [OverflowError]. *)
Lemma new_datetime_overflow (y m d : Z) :
  c_int y && c_int m && c_int d = false ->
  new_datetime y m d = Raise OverflowError.
Proof. intros Hc. unfold new_datetime. now rewrite Hc. Qed.

Lemma new_datetime_fields (y m d : Z) (dt : datetime) :
  new_datetime y m d = Ok dt ->
  dt = mk_datetime y m d /\ Spec.valid_date y m d.
Proof.
  intros H.
  destruct (c_int y && c_int m && c_int d) eqn:Hc;
    [|rewrite (new_datetime_overflow _ _ _ Hc) in H; discriminate].
  assert (Hv : Spec.valid_date y m d).
  { unfold Spec.valid_date.
    destruct (Z_le_dec 1 y), (Z_le_dec y 9999), (Z_le_dec 1 m),
      (Z_le_dec m 12), (Z_le_dec 1 d), (Z_le_dec d (Spec.month_length y m));
      try tauto;
      rewrite new_datetime_invalid in H
        by (try exact Hc; unfold Spec.valid_date; tauto);
      discriminate. }
  rewrite (new_datetime_valid _ _ _ Hv) in H. injection H as <-. now split.
Qed.

(** *** The ISO form *)

Lemma ascii_value_digit_char (n : Z) :
  Spec.ascii_value (digit_char n) = Some (n mod 10).
Proof.
  unfold Spec.ascii_value, is_ascii_digit, digit_char.
  pose proof (Z.mod_pos_bound n 10 ltac:(lia)) as Hb.
  replace ((48 <=? 48 + n mod 10) && (48 + n mod 10 <=? 57)) with true by lia.
  f_equal. lia.
Qed.

(** From the year 1000 on, the year written out has four digits. *)
Lemma str_of_int_four_digits (y : Z) :
  1000 <= y <= 9999 -> str_of_int y = four_digits y.
Proof.
  intros Hy.
  assert (Hall :
    forallb (fun y' =>
               if list_eq_dec Z.eq_dec (str_of_int y') (four_digits y')
               then true else false) (range 1000 10000) = true)
    by (vm_compute; reflexivity).
  rewrite forallb_forall in Hall.
  specialize (Hall y (range_in 1000 10000 y ltac:(lia))).
  now destruct (list_eq_dec Z.eq_dec (str_of_int y) (four_digits y)).
Qed.

(** From the year 1000 on, the date written out reads back as itself. *)
Lemma parse_iso_strftime (y m d : Z) :
  1000 <= y ->
  Spec.valid_date y m d ->
  Spec.parse_iso (strftime_Ymd (mk_datetime y m d)) = Some (y, m, d).
Proof.
  intros Hy1000 (Hy & Hm & Hd).
  pose proof (month_length_bound y m) as Hd31.
  unfold strftime_Ymd. cbn [year month day].
  rewrite str_of_int_four_digits by lia.
  unfold four_digits, two_digits.
  cbn [app Spec.parse_iso Z.eqb Pos.eqb andb].
  rewrite !ascii_value_digit_char.
  replace (y / 1000) with (y / 10 / 10 / 10)
    by (rewrite !Z.div_div by lia; reflexivity).
  replace (y / 100) with (y / 10 / 10)
    by (rewrite !Z.div_div by lia; reflexivity).
  f_equal. f_equal; [f_equal|]; Z.div_mod_to_equations; lia.
Qed.

Lemma strftime_truthy (dt : datetime) : truthy (strftime_Ymd dt) = true.
Proof. unfold strftime_Ymd. now destruct (str_of_int (year dt)). Qed.

End DateResolvers.

Section Matching.
Import Py Map.

Lemma try_counts_some (cont : str -> option (list str)) (s : str)
      (lo k : nat) (r : list str) :
  try_counts cont s lo k = Some r ->
  exists n gs,
    (lo <= n <= k)%nat
    /\ forallb isdecimal (firstn n s) = true
    /\ List.length (firstn n s) = n
    /\ cont (skipn n s) = Some gs
    /\ r = firstn n s :: gs.
Proof.
  assert (Hweak : forall k',
             (exists n gs, (lo <= n <= k')%nat
                /\ forallb isdecimal (firstn n s) = true
                /\ List.length (firstn n s) = n
                /\ cont (skipn n s) = Some gs
                /\ r = firstn n s :: gs) ->
             exists n gs, (lo <= n <= S k')%nat
                /\ forallb isdecimal (firstn n s) = true
                /\ List.length (firstn n s) = n
                /\ cont (skipn n s) = Some gs
                /\ r = firstn n s :: gs).
  { intros k' (n & gs & Hn & H). exists n, gs. split; [lia | exact H]. }
  induction k as [|k IH]; cbn [try_counts];
    (destruct ((lo <=? _)%nat && (_ <=? List.length s)%nat
               && forallb isdecimal (firstn _ s)) eqn:E;
     [ apply andb_prop in E; destruct E as [E E3];
       apply andb_prop in E; destruct E as [E1 E2];
       apply Nat.leb_le in E1; apply Nat.leb_le in E2;
       destruct (cont (skipn _ s)) as [gs|] eqn:Ec | ]).
  - intros [= Hr]. exists 0%nat, gs. subst r.
    repeat split; auto; try (apply firstn_length_le, E2); lia.
  - discriminate.
  - discriminate.
  - intros [= Hr]. exists (S k), gs. subst r.
    repeat split; auto; try (apply firstn_length_le, E2); lia.
  - intros H. apply Hweak, IH, H.
  - intros H. apply Hweak, IH, H.
Qed.

Lemma match_here_groups (p : pattern) :
  forall s gs, match_here p s = Some gs -> Spec.groups_of p gs.
Proof.
  induction p as [|a p IH]; intros s gs; simpl.
  - now intros [= <-].
  - destruct a as [c|lo hi].
    + destruct s as [|x s]; [discriminate|].
      destruct (x =? c); [apply IH | discriminate].
    + intros H. apply try_counts_some in H.
      destruct H as (n & gs' & Hn & Hd & Hl & Hc & ->).
      repeat split; auto; try lia. eapply IH, Hc.
Qed.

Lemma re_search_groups (p : pattern) (s : str) (gs : list str) :
  re_search p s = Some gs -> Spec.groups_of p gs.
Proof.
  induction s as [|x s IH]; simpl.
  - destruct (match_here p []) eqn:E; [|discriminate].
    intros [= <-]. eapply match_here_groups, E.
  - destruct (match_here p (x :: s)) eqn:E.
    + intros [= <-]. eapply match_here_groups, E.
    + exact IH.
Qed.

(** [int] converts a short run of digits. *)
Lemma int_of_str_digits (g : str) :
  forallb isdecimal g = true ->
  (1 <= List.length g <= int_max_str_digits)%nat ->
  int_of_str g = Ok (digits_value g).
Proof.
  intros Hd Hl. unfold int_of_str. rewrite Hd.
  destruct g as [|c g]; [simpl in Hl; lia|]. cbv [truthy negb].
  replace (int_max_str_digits <? List.length (c :: g))%nat with false;
    [reflexivity|].
  symmetry. apply Nat.ltb_ge. lia.
Qed.

Lemma digit_value_bounds (c : Z) : 0 <= digit_value c <= 9.
Proof.
  unfold digit_value, decimal.
  destruct (find _ nd_zeros) as [z|] eqn:E; [|lia].
  apply find_some in E. destruct E as [_ Hb]. lia.
Qed.

(** A run of [n] characters reads as a number below [10 ^ n]. *)
Lemma digits_value_bound (g : str) :
  0 <= digits_value g < 10 ^ Z.of_nat (List.length g).
Proof.
  unfold digits_value.
  assert (H : forall acc, 0 <= acc ->
            0 <= fold_left (fun a c => a * 10 + digit_value c) g acc
            <= acc * 10 ^ Z.of_nat (List.length g)
               + (10 ^ Z.of_nat (List.length g) - 1)).
  { induction g as [|c g IH]; intros acc Hacc.
    - simpl. lia.
    - cbn [fold_left List.length]. pose proof (digit_value_bounds c) as Hc.
      specialize (IH (acc * 10 + digit_value c) ltac:(lia)).
      rewrite Nat2Z.inj_succ, Z.pow_succ_r by lia.
      assert (Hp : 0 < 10 ^ Z.of_nat (List.length g))
        by (apply Z.pow_pos_nonneg; lia).
      nia. }
  specialize (H 0 ltac:(lia)). lia.
Qed.

Lemma short_run_c_int (g : str) :
  (List.length g <= 4)%nat -> c_int (digits_value g) = true.
Proof.
  intros Hl. pose proof (digits_value_bound g) as Hb.
  assert (Hp : 10 ^ Z.of_nat (List.length g) <= 10 ^ 4)
    by (apply Z.pow_le_mono_r; lia).
  change (10 ^ 4) with 10000 in Hp. unfold c_int. lia.
Qed.

(** The cell-date pattern captures a month and a day of one or two digits. *)
Lemma date_pattern_groups (s : str) (gs : list str) :
  re_search date_pattern s = Some gs ->
  exists g1 g2,
    gs = [g1; g2]
    /\ int_of_str g1 = Ok (digits_value g1)
    /\ int_of_str g2 = Ok (digits_value g2)
    /\ c_int (digits_value g1) = true
    /\ c_int (digits_value g2) = true.
Proof.
  intros H. apply re_search_groups in H. simpl in H.
  destruct gs as [|g1 gs]; [contradiction|]. destruct H as (D1 & L1 & H).
  destruct gs as [|g2 gs]; [contradiction|]. destruct H as (D2 & L2 & H).
  subst gs. exists g1, g2.
  split; [reflexivity|].
  split; [apply int_of_str_digits; auto; unfold int_max_str_digits; lia|].
  split; [apply int_of_str_digits; auto; unfold int_max_str_digits; lia|].
  split; apply short_run_c_int; lia.
Qed.

(** The document-date patterns capture a year of four digits and a month and
    a day of one or two. *)
Lemma date_pattern3_groups (p : pattern) (s : str) (gs : list str) :
  p = date_pattern1 \/ p = date_pattern2 \/ p = date_pattern3 ->
  re_search p s = Some gs ->
  exists g1 g2 g3,
    gs = [g1; g2; g3]
    /\ int_of_str g1 = Ok (digits_value g1)
    /\ int_of_str g2 = Ok (digits_value g2)
    /\ int_of_str g3 = Ok (digits_value g3)
    /\ c_int (digits_value g1) && c_int (digits_value g2)
       && c_int (digits_value g3) = true.
Proof.
  intros Hp H. apply re_search_groups in H.
  destruct Hp as [->|[->| ->]]; simpl in H;
    (destruct gs as [|g1 gs]; [contradiction|]; destruct H as (D1 & L1 & H);
     destruct gs as [|g2 gs]; [contradiction|]; destruct H as (D2 & L2 & H);
     destruct gs as [|g3 gs]; [contradiction|]; destruct H as (D3 & L3 & H);
     subst gs; exists g1, g2, g3;
     split; [reflexivity|];
     split; [apply int_of_str_digits; auto; unfold int_max_str_digits; lia|];
     split; [apply int_of_str_digits; auto; unfold int_max_str_digits; lia|];
     split; [apply int_of_str_digits; auto; unfold int_max_str_digits; lia|];
     rewrite !short_run_c_int by lia; reflexivity).
Qed.

End Matching.

Section CellDate.
Import Py Map.

Example cell_date_oct3 :
  extract_date_from_cell Samples.oct3 2024 = Ok (Some (lit "2024-10-03")).
Proof. reflexivity. Qed.

Example cell_date_feb30 :
  extract_date_from_cell Samples.feb30 2024 = Ok None.
Proof. reflexivity. Qed.

Example cell_date_feb29 :
  extract_date_from_cell (lit "2" ++ [GATSU] ++ lit "29" ++ [NICHI]) 2024
  = Ok (Some (lit "2024-02-29"))
  /\ extract_date_from_cell (lit "2" ++ [GATSU] ++ lit "29" ++ [NICHI]) 2023
     = Ok None.
Proof. split; reflexivity. Qed.

Example cell_date_apr31 :
  extract_date_from_cell (lit "4" ++ [GATSU] ++ lit "31" ++ [NICHI]) 2024
  = Ok None.
Proof. reflexivity. Qed.

(** The resolver, case by case on what the pattern finds. *)
Lemma cell_date_computes (cell_text : str) (year : Z) :
  extract_date_from_cell cell_text year
  = match Spec.parsed_month_day cell_text with
    | Some (m, d) =>
        catch_ValueError
          (date_obj <- new_datetime year m d ;;
           Ok (Some (strftime_Ymd date_obj)))
          (Ok None)
    | None => Ok None
    end.
Proof.
  unfold extract_date_from_cell, Spec.parsed_month_day.
  destruct cell_text as [|c t]; [reflexivity|]. cbv [truthy negb].
  destruct (re_search date_pattern (c :: t)) as [gs|] eqn:E; [|reflexivity].
  destruct (date_pattern_groups _ _ E) as (g1 & g2 & -> & I1 & I2 & _).
  cbn [group nth_error bind]. rewrite I1. cbn [bind]. rewrite I2. reflexivity.
Qed.

(** The month and day found in a cell are numbers below 100. *)
Lemma parsed_month_day_c_int (cell_text : str) (m d : Z) :
  Spec.parsed_month_day cell_text = Some (m, d) ->
  c_int m = true /\ c_int d = true.
Proof.
  unfold Spec.parsed_month_day.
  destruct (re_search date_pattern cell_text) as [gs|] eqn:E; [|discriminate].
  destruct (date_pattern_groups _ _ E) as (g1 & g2 & -> & _ & _ & C1 & C2).
  intros [= <- <-]. now split.
Qed.

(** With a reference year that fits a C [int], the cell-date resolver does
    not raise. *)
Lemma extract_date_from_cell_total (cell_text : str) (year : Z) :
  c_int year = true ->
  extract_date_from_cell cell_text year = Ok (Spec.cell_date cell_text year).
Proof.
  intros Hy. unfold Spec.cell_date. rewrite cell_date_computes.
  destruct (Spec.parsed_month_day cell_text) as [[m d]|] eqn:Ep;
    [|reflexivity].
  destruct (parsed_month_day_c_int _ _ _ Ep) as [Cm Cd].
  destruct (new_datetime year m d) as [dt|e] eqn:N; [reflexivity|].
  assert (Hn : ~ Spec.valid_date year m d).
  { intros Hv. rewrite (new_datetime_valid _ _ _ Hv) in N. discriminate. }
  rewrite new_datetime_invalid in N by (now rewrite ?Hy, ?Cm, ?Cd).
  injection N as <-. reflexivity.
Qed.

(** A resolved date is the written form of a calendar date of the
    reference year. *)
Lemma cell_date_iso (cell_text : str) (year : Z) (iso : str) :
  Spec.cell_date cell_text year = Some iso ->
  exists m d, Spec.valid_date year m d
              /\ iso = strftime_Ymd (mk_datetime year m d).
Proof.
  unfold Spec.cell_date. rewrite cell_date_computes.
  destruct (Spec.parsed_month_day cell_text) as [[m d]|]; [|discriminate].
  destruct (new_datetime year m d) as [dt|e] eqn:N.
  - cbn [bind catch_ValueError]. intros [= <-].
    apply new_datetime_fields in N. destruct N as [-> Hv]. now exists m, d.
  - destruct e; discriminate.
Qed.

(** From the reference year 1000 on (and up to what a C [int] holds): a
    calendar date found in a cell is returned in the form YYYY-MM-DD, and
    numbers that are no calendar date give absent. *)
Lemma cell_date_calendar (cell_text : str) (year m d : Z) :
  Spec.parsed_month_day cell_text = Some (m, d) ->
  (1000 <= year -> Spec.valid_date year m d ->
   exists iso, extract_date_from_cell cell_text year = Ok (Some iso)
               /\ Spec.parse_iso iso = Some (year, m, d))
  /\ (c_int year = true -> ~ Spec.valid_date year m d ->
      extract_date_from_cell cell_text year = Ok None).
Proof.
  intros Hp. destruct (parsed_month_day_c_int _ _ _ Hp) as [Cm Cd].
  rewrite cell_date_computes, Hp. split.
  - intros Hy Hv. rewrite (new_datetime_valid _ _ _ Hv).
    eexists. split; [reflexivity | now apply parse_iso_strftime].
  - intros Hy Hn. rewrite new_datetime_invalid; [reflexivity | | exact Hn].
    now rewrite Hy, Cm, Cd.
Qed.

(** C6 fails on the code, by a defect of the code: for the reference year
    999 the calendar date 3 October is returned as 999-10-03, with a year
    of three digits, which is not the form YYYY-MM-DD that the function's
    docstring promises and does not read back as a date; and for a
    reference year that does not fit a C [int] the resolver does not return
    absent but raises [OverflowError], which its [except ValueError] does
    not catch. *)
Theorem extract_date_from_cell_year_999 :
  Spec.parsed_month_day Samples.oct3 = Some (10, 3)
  /\ Spec.valid_date 999 10 3
  /\ extract_date_from_cell Samples.oct3 999 = Ok (Some (lit "999-10-03"))
  /\ Spec.parse_iso (lit "999-10-03") = None
  /\ ~ Spec.valid_date 2147483648 10 3
  /\ extract_date_from_cell Samples.oct3 2147483648 = Raise OverflowError.
Proof.
  split; [reflexivity|]. split.
  { unfold Spec.valid_date. change (Spec.month_length 999 10) with 31. lia. }
  split; [reflexivity|]. split; [reflexivity|]. split; [|reflexivity].
  unfold Spec.valid_date. lia.
Qed.

(** Without a month-day pattern in the cell there is no date. *)
Lemma extract_date_from_cell_no_match (cell_text : str) (year : Z) :
  Spec.parsed_month_day cell_text = None ->
  extract_date_from_cell cell_text year = Ok None.
Proof. intros Hp. now rewrite cell_date_computes, Hp. Qed.

(** Every month and day of the calendar, written in the short form, is
    found again by the pattern. *)
Lemma short_date_parsed (m d : Z) :
  1 <= m <= 12 -> 1 <= d <= 31 ->
  Spec.parsed_month_day (Spec.short_date m d) = Some (m, d).
Proof.
  intros Hm Hd.
  assert (Hall :
    forallb (fun m' =>
      forallb (fun d' =>
        match Spec.parsed_month_day (Spec.short_date m' d') with
        | Some (m'', d'') => (m'' =? m') && (d'' =? d')
        | None => false
        end) (range 1 32)) (range 1 13) = true) by (vm_compute; reflexivity).
  rewrite forallb_forall in Hall.
  assert (Hin : forall lo hi x, lo <= x < hi -> In x (range lo hi)).
  { intros lo hi x Hx. unfold range. apply in_map_iff.
    exists (Z.to_nat (x - lo)). split; [lia|]. apply in_seq. lia. }
  specialize (Hall m (Hin 1 13 m ltac:(lia))).
  rewrite forallb_forall in Hall.
  specialize (Hall d (Hin 1 32 d ltac:(lia))).
  destruct (Spec.parsed_month_day (Spec.short_date m d)) as [[m' d']|];
    [|discriminate].
  apply andb_prop in Hall. destruct Hall as [H1 H2].
  apply Z.eqb_eq in H1. apply Z.eqb_eq in H2. now subst.
Qed.

(** A calendar date of the reference year, written in the short form,
    resolves to that date. *)
Lemma short_date_round_trip (year m d : Z) :
  Spec.valid_date year m d ->
  extract_date_from_cell (Spec.short_date m d) year
  = Ok (Some (strftime_Ymd (mk_datetime year m d))).
Proof.
  intros Hv. rewrite cell_date_computes.
  assert (Hd31 : d <= 31).
  { destruct Hv as (_ & _ & Hd). unfold Spec.month_length in Hd.
    repeat match type of Hd with
           | context [if ?b then _ else _] => destruct b
           end; lia. }
  rewrite short_date_parsed by (unfold Spec.valid_date in Hv; lia).
  now rewrite (new_datetime_valid _ _ _ Hv).
Qed.

End CellDate.

(* ================================================================= *)
(** ** Date Resolution Cascade *)
(* ================================================================= *)

Section Cascade.
Import Py Map.

(** *** Loops that return on the first hit *)

Lemma for_loop_first_some {A B : Type} (body : A -> res (option B))
      (f : A -> option B) (l : list A) :
  (forall x, In x l -> body x = Ok (f x)) ->
  for_loop l body = Ok (Spec.first_some f l).
Proof.
  induction l as [|x l IH]; intros H; simpl; [reflexivity|].
  rewrite (H x (or_introl eq_refl)).
  destruct (f x); simpl; [reflexivity|].
  apply IH. intros y Hy. apply H. now right.
Qed.

Lemma for_loop_hit {A B : Type} (body : A -> res (option B))
      (l : list A) (b : B) :
  for_loop l body = Ok (Some b) ->
  exists x, In x l /\ body x = Ok (Some b).
Proof.
  induction l as [|x l IH]; simpl; [discriminate|].
  destruct (body x) as [[b'|]|e] eqn:E; simpl.
  - intros [= <-]. exists x. split; [now left | exact E].
  - intros H. destruct (IH H) as (y & Hy & Hb). exists y. split; [now right | exact Hb].
  - discriminate.
Qed.

Lemma for_loop_all_miss {A B : Type} (body : A -> res (option B))
      (l : list A) :
  (forall x, In x l -> body x = Ok None) -> for_loop l body = Ok None.
Proof.
  induction l as [|x l IH]; intros H; simpl; [reflexivity|].
  rewrite (H x (or_introl eq_refl)). simpl.
  apply IH. intros y Hy. apply H. now right.
Qed.

Lemma first_some_hit {A B : Type} (f : A -> option B) (l : list A) (b : B) :
  Spec.first_some f l = Some b -> exists x, In x l /\ f x = Some b.
Proof.
  induction l as [|x l IH]; simpl; [discriminate|].
  destruct (f x) as [b'|] eqn:E.
  - intros [= <-]. exists x. split; [now left | exact E].
  - intros H. destruct (IH H) as (y & Hy & Hb). exists y. split; [now right | exact Hb].
Qed.

(** *** The document's year *)

Lemma datetime_of_match_valid (gs : list str) (dt : datetime) :
  datetime_of_match gs = Ok dt ->
  Spec.valid_date (year dt) (month dt) (day dt).
Proof.
  unfold datetime_of_match.
  destruct (group gs 1) as [g1|]; [|discriminate]. cbn [bind].
  destruct (int_of_str g1) as [y|]; [|discriminate]. cbn [bind].
  destruct (group gs 2) as [g2|]; [|discriminate]. cbn [bind].
  destruct (int_of_str g2) as [m|]; [|discriminate]. cbn [bind].
  destruct (group gs 3) as [g3|]; [|discriminate]. cbn [bind].
  destruct (int_of_str g3) as [d|]; [|discriminate]. cbn [bind].
  intros N. apply new_datetime_fields in N. now destruct N as [-> Hv].
Qed.

(** The date of a document is a calendar date: its year lies between 1 and
    9999. *)
Lemma extract_date_from_pdf_valid (pdf_path : pdf_file) (doc_date : datetime) :
  extract_date_from_pdf pdf_path = Ok (Some doc_date) ->
  Spec.valid_date (year doc_date) (month doc_date) (day doc_date).
Proof.
  unfold extract_date_from_pdf.
  destruct (pdfplumber_open pdf_path) as [pages|]; [|discriminate].
  cbn [bind]. destruct (first_of pages) as [p|]; [|discriminate].
  cbn [bind]. cbv zeta.
  repeat match goal with
         | |- context [match re_search ?q ?t with _ => _ end] =>
             destruct (re_search q t) as [gs|]
         end;
    try discriminate;
    (destruct (datetime_of_match gs) as [dt|] eqn:E; [|discriminate];
     cbn [bind]; intros [= <-]; now apply datetime_of_match_valid in E).
Qed.

Lemma valid_year_c_int (y m d : Z) : Spec.valid_date y m d -> c_int y = true.
Proof. unfold Spec.valid_date, c_int. lia. Qed.

(** *** One candidate cell *)

Lemma check_cell_date_at (grid : table) (r c : nat) (y : Z) :
  c_int y = true ->
  check_cell grid r c y = Ok (Spec.date_at grid c y (Z.of_nat r)).
Proof.
  intros Hy. unfold check_cell, Spec.date_at, Spec.cell_at.
  destruct (Z.ltb_spec (Z.of_nat r) 0); [lia|].
  rewrite Nat2Z.id.
  destruct (nth_error grid r) as [row|] eqn:Er.
  - rewrite (nth_error_nth grid r [] Er).
    destruct (nth_error row c) as [cell|] eqn:Ec.
    + assert (Hlt : (c < List.length row)%nat)
        by (apply nth_error_Some; congruence).
      replace (c <? List.length row)%nat with true
        by (symmetry; apply Nat.ltb_lt, Hlt).
      rewrite (nth_error_nth row c None Ec).
      destruct cell as [text|]; [|reflexivity].
      destruct text as [|x t]; [reflexivity|]. cbv [truthy].
      rewrite extract_date_from_cell_total by exact Hy. cbn [bind].
      destruct (Spec.cell_date (x :: t) y) as [d|] eqn:Ed; [|reflexivity].
      apply cell_date_iso in Ed. destruct Ed as (m & dd & _ & ->).
      pose proof (strftime_truthy (mk_datetime y m dd)) as Ht.
      unfold truthy in Ht. now rewrite Ht.
    + apply nth_error_None in Ec.
      replace (c <? List.length row)%nat with false
        by (symmetry; apply Nat.ltb_ge, Ec).
      reflexivity.
  - apply nth_error_None in Er. rewrite (nth_overflow grid [] Er).
    reflexivity.
Qed.

Lemma date_at_outside (grid : table) (c : nat) (y r : Z) :
  r < 0 \/ Z.of_nat (List.length grid) <= r ->
  Spec.date_at grid c y r = None.
Proof.
  intros H. unfold Spec.date_at, Spec.cell_at.
  destruct (Z.ltb_spec r 0); [reflexivity|].
  destruct (nth_error grid (Z.to_nat r)) eqn:E; [|reflexivity].
  assert ((Z.to_nat r < List.length grid)%nat)
    by (apply nth_error_Some; congruence).
  lia.
Qed.

(** A row guarded by [0 <= r < len(table)], as in strategy 2. *)
Lemma guarded_check (grid : table) (c : nat) (y r : Z) :
  c_int y = true ->
  (if (0 <=? r) && (r <? Z.of_nat (List.length grid))
   then check_cell grid (Z.to_nat r) c y else Ok None)
  = Ok (Spec.date_at grid c y r).
Proof.
  intros Hy. destruct (Z.leb_spec 0 r); simpl.
  - destruct (Z.ltb_spec r (Z.of_nat (List.length grid))).
    + rewrite check_cell_date_at by exact Hy. now rewrite Z2Nat.id.
    + now rewrite date_at_outside by lia.
  - now rewrite date_at_outside by lia.
Qed.

(** A row guarded by [r < len(table)] only, as in strategies 1 and 3. *)
Lemma upper_guarded_check (grid : table) (c : nat) (y r : Z) :
  c_int y = true ->
  0 <= r ->
  (if r <? Z.of_nat (List.length grid)
   then check_cell grid (Z.to_nat r) c y else Ok None)
  = Ok (Spec.date_at grid c y r).
Proof.
  intros Hy Hr. rewrite <- guarded_check by exact Hy.
  now replace (0 <=? r) with true by lia.
Qed.

Lemma in_range (lo hi x : Z) : In x (range lo hi) -> lo <= x < hi.
Proof.
  unfold range. intros H. apply in_map_iff in H.
  destruct H as (i & <- & Hi). apply in_seq in Hi. lia.
Qed.

(** Clamping the start of strategy 3 at row 0 leaves out rows that hold no
    date anyway. *)
Lemma rows_above_clamped {B : Type} (f : Z -> option B) (h : Z) :
  0 <= h ->
  (forall r, r < 0 -> f r = None) ->
  Spec.first_some f (range (Z.max 0 (h - 5)) h)
  = Spec.first_some f [h - 5; h - 4; h - 3; h - 2; h - 1].
Proof.
  intros Hh Hneg.
  assert (Hc : h = 0 \/ h = 1 \/ h = 2 \/ h = 3 \/ h = 4 \/ 5 <= h) by lia.
  destruct Hc as [->|[->|[->|[->|[->|H5]]]]];
    try (cbn; rewrite ?Hneg by lia; reflexivity).
  rewrite Z.max_r by lia. unfold range.
  replace (Z.to_nat (h - (h - 5))) with 5%nat by lia.
  cbn [seq List.map]. f_equal. repeat (f_equal; try lia).
Qed.

(** The cascade on a dated document. *)
Lemma cascade_computes (grid : table) (h c : nat) (pdf_path : pdf_file)
      (doc_date : datetime) :
  extract_date_from_pdf pdf_path = Ok (Some doc_date) ->
  extract_forecast_date_universal grid h c pdf_path
  = Ok (Spec.cascade grid h c (year doc_date)).
Proof.
  intros Hd. unfold extract_forecast_date_universal.
  rewrite Hd. cbn [bind].
  assert (Hy : c_int (year doc_date) = true)
    by (eapply valid_year_c_int, extract_date_from_pdf_valid, Hd).
  set (y := year doc_date) in *. set (f := Spec.date_at grid c y).
  assert (H1 : (if (h <? List.length grid)%nat
                then check_cell grid h c y else Ok None)
               = Ok (f (Z.of_nat h))).
  { destruct (Nat.ltb_spec h (List.length grid)).
    - now apply check_cell_date_at.
    - unfold f. now rewrite date_at_outside by lia. }
  rewrite H1.
  rewrite (for_loop_first_some _ f (range _ _)).
  2:{ intros r Hr. apply in_range in Hr.
      apply upper_guarded_check; [exact Hy | lia]. }
  rewrite rows_above_clamped by
    (try lia; intros r Hr; unfold f; apply date_at_outside; lia).
  cbn [for_loop]. rewrite !guarded_check by exact Hy. fold f.
  unfold Spec.cascade, Spec.cascade_rows. fold f. cbn [Spec.first_some].
  replace (Z.of_nat h + -1) with (Z.of_nat h - 1) by lia.
  replace (Z.of_nat h + -2) with (Z.of_nat h - 2) by lia.
  destruct (f (Z.of_nat h)); [reflexivity|].
  destruct (f (Z.of_nat h + 1)); [reflexivity|].
  destruct (f (Z.of_nat h - 1)); [reflexivity|].
  destruct (f (Z.of_nat h + 2)); [reflexivity|].
  destruct (f (Z.of_nat h - 2)); [reflexivity|].
  destruct (f (Z.of_nat h + 3)); reflexivity.
Qed.

(** Whatever the cascade returns is the written form of a calendar date. *)
Lemma cascade_iso (grid : table) (h c : nat) (pdf_path : pdf_file)
      (date : str) :
  extract_forecast_date_universal grid h c pdf_path = Ok (Some date) ->
  exists y m d, Spec.valid_date y m d
                /\ date = strftime_Ymd (mk_datetime y m d).
Proof.
  intros H.
  destruct (extract_date_from_pdf pdf_path) as [[dd|]|e] eqn:Ed.
  - rewrite (cascade_computes _ _ _ _ _ Ed) in H. injection H as H.
    apply first_some_hit in H. destruct H as (r & _ & Hr).
    unfold Spec.date_at in Hr.
    destruct (Spec.cell_at grid r c); [|discriminate].
    apply cell_date_iso in Hr. destruct Hr as (m & d & Hv & ->).
    now exists (year dd), m, d.
  - unfold extract_forecast_date_universal in H. rewrite Ed in H.
    discriminate.
  - unfold extract_forecast_date_universal in H. rewrite Ed in H.
    discriminate.
Qed.

Example cascade_scenario :
  extract_forecast_date_universal Samples.grid 0 1 Samples.doc
  = Ok (Some (lit "2024-10-03")).
Proof. reflexivity. Qed.

(** With dates in the header cell, the row below and the row above, the
    header cell wins. *)
Example cascade_header_cell_first :
  extract_forecast_date_universal
    Samples.grid_dates_around_header 1 0 Samples.doc
  = Ok (Some (lit "2024-10-03")).
Proof. reflexivity. Qed.

(** With dates in the row below and the row above only, the row below
    wins. *)
Example cascade_below_before_above :
  extract_forecast_date_universal
    Samples.grid_dates_below_and_above 1 0 Samples.doc
  = Ok (Some (lit "2024-10-03")).
Proof. reflexivity. Qed.

(** A date in the header cell wins over every other cell. *)
Lemma cascade_header_cell_wins (grid : table) (h c : nat)
      (pdf_path : pdf_file) (doc_date : datetime) (date : str) :
  extract_date_from_pdf pdf_path = Ok (Some doc_date) ->
  Spec.date_at grid c (year doc_date) (Z.of_nat h) = Some date ->
  extract_forecast_date_universal grid h c pdf_path = Ok (Some date).
Proof.
  intros Hd Hh. rewrite (cascade_computes _ _ _ _ _ Hd).
  unfold Spec.cascade, Spec.cascade_rows. cbn [Spec.first_some].
  now rewrite Hh.
Qed.

(** Without a date in the header cell, a date one row below wins over a
    date one row above. *)
Lemma cascade_row_below_wins (grid : table) (h c : nat)
      (pdf_path : pdf_file) (doc_date : datetime) (date : str) :
  extract_date_from_pdf pdf_path = Ok (Some doc_date) ->
  Spec.date_at grid c (year doc_date) (Z.of_nat h) = None ->
  Spec.date_at grid c (year doc_date) (Z.of_nat h + 1) = Some date ->
  extract_forecast_date_universal grid h c pdf_path = Ok (Some date).
Proof.
  intros Hd Hh Hb. rewrite (cascade_computes _ _ _ _ _ Hd).
  unfold Spec.cascade, Spec.cascade_rows. cbn [Spec.first_some].
  now rewrite Hh, Hb.
Qed.

(** C1: on a document with a date, the cascade returns the first date the
    cell-date resolver finds, with the document's year, in the cells of the
    given column at the header row, then at the offsets +1, -1, +2, -2, +3
    from it, then at the rows header-5 up to header-1; rows outside the grid
    and absent cells hold no date; absent when none of them does. *)
Theorem cascade_priority_order (grid : table) (h c : nat)
        (pdf_path : pdf_file) (doc_date : datetime) :
  extract_date_from_pdf pdf_path = Ok (Some doc_date) ->
  extract_forecast_date_universal grid h c pdf_path
  = Ok (Spec.first_some
          (Spec.date_at grid c (year doc_date))
          [Z.of_nat h;
           Z.of_nat h + 1; Z.of_nat h - 1; Z.of_nat h + 2; Z.of_nat h - 2;
           Z.of_nat h + 3;
           Z.of_nat h - 5; Z.of_nat h - 4; Z.of_nat h - 3; Z.of_nat h - 2;
           Z.of_nat h - 1]).
Proof. apply cascade_computes. Qed.

Lemma cascade_priority_order_witness :
  extract_forecast_date_universal
    Samples.grid_dates_below_and_above 1 0 Samples.doc
  = Ok (Spec.first_some
          (Spec.date_at Samples.grid_dates_below_and_above 0 2024)
          [1; 2; 0; 3; -1; 4; -4; -3; -2; -1; 0]).
Proof.
  apply (cascade_priority_order Samples.grid_dates_below_and_above 1 0
           Samples.doc (mk_datetime 2024 10 1)).
  reflexivity.
Defined.

(** C10: when the document-date resolver yields absent, the cascade returns
    absent whatever the grid holds, since the reference year comes from the
    document date only. *)
Theorem cascade_without_document_date (grid : table) (h c : nat)
        (pdf_path : pdf_file) :
  extract_date_from_pdf pdf_path = Ok None ->
  extract_forecast_date_universal grid h c pdf_path = Ok None.
Proof.
  intros Hd. unfold extract_forecast_date_universal. now rewrite Hd.
Qed.

Lemma cascade_without_document_date_witness :
  Spec.cell_date Samples.oct3 2024 = Some (lit "2024-10-03")
  /\ extract_forecast_date_universal
       Samples.grid_dates_around_header 1 0 Samples.doc_undated
     = Ok None.
Proof.
  split; [reflexivity|].
  apply (cascade_without_document_date Samples.grid_dates_around_header 1 0
           Samples.doc_undated).
  reflexivity.
Defined.

End Cascade.

(* ================================================================= *)
(** ** Intersection Locator *)
(* ================================================================= *)

Section Locator.
Import Py Map.

Lemma for_loop_ext_in {A B : Type} (body body' : A -> res (option B))
      (l : list A) :
  (forall x, In x l -> body x = body' x) ->
  for_loop l body = for_loop l body'.
Proof.
  induction l as [|x l IH]; intros H; simpl; [reflexivity|].
  rewrite (H x (or_introl eq_refl)), IH; [reflexivity|].
  intros y Hy. apply H. now right.
Qed.

Lemma for_loop_filter {A B : Type} (p : A -> bool)
      (body : A -> res (option B)) (l : list A) :
  (forall x, p x = false -> body x = Ok None) ->
  for_loop l body = for_loop (filter p l) body.
Proof.
  intros H. induction l as [|x l IH]; simpl; [reflexivity|].
  destruct (p x) eqn:E; simpl.
  - now rewrite IH.
  - now rewrite (H x E).
Qed.

Lemma for_loop_map {A A' B : Type} (g : A -> A')
      (body : A' -> res (option B)) (l : list A) :
  for_loop (List.map g l) body = for_loop l (fun x => body (g x)).
Proof.
  induction l as [|x l IH]; simpl; [reflexivity | now rewrite IH].
Qed.

(** *** Rows and keywords *)

Lemma row_has_keyword_existsb (keywords : list str) (row : row) :
  row_has_keyword keywords row = existsb (cell_has_keyword keywords) row.
Proof. destruct row; reflexivity. Qed.

Lemma row_has_keyword_iff (keywords : list str) (row : row) :
  row_has_keyword keywords row = true
  <-> exists cell, In cell row /\ cell_has_keyword keywords cell = true.
Proof. rewrite row_has_keyword_existsb. apply existsb_exists. Qed.

Lemma enumerate_from_cons {A : Type} (s : nat) (x : A) (l : list A) :
  combine (seq s (List.length (x :: l))) (x :: l)
  = (s, x) :: combine (seq (S s) (List.length l)) l.
Proof. reflexivity. Qed.

Lemma flat_map_ext_on {A B : Type} (f g : A -> list B) (l : list A) :
  (forall x, In x l -> f x = g x) -> flat_map f l = flat_map g l.
Proof.
  induction l as [|x l IH]; intros H; simpl; [reflexivity|].
  rewrite (H x (or_introl eq_refl)), IH; [reflexivity|].
  intros y Hy. apply H. now right.
Qed.

(** Step 1, by its result: the rows among the first 40 that hold a metric
    keyword, all of them, top to bottom. *)
Lemma header_candidates_from (tbl : table) :
  forall s k,
    (k <= List.length tbl)%nat ->
    flat_map
      (fun i => let row := nth (i - s) tbl [] in
                if row_has_keyword TARGET_COLUMN_KEYWORDS row
                then [(i, row)] else [])
      (seq s k)
    = filter (fun hr => row_has_keyword TARGET_COLUMN_KEYWORDS (snd hr))
             (firstn k (combine (seq s (List.length tbl)) tbl)).
Proof.
  induction tbl as [|r tbl IH]; intros s k Hk.
  - simpl in Hk. replace k with 0%nat by lia. reflexivity.
  - destruct k as [|k]; [reflexivity|].
    rewrite enumerate_from_cons. cbn [seq flat_map firstn filter snd].
    rewrite Nat.sub_diag. cbn [nth].
    rewrite <- (IH (S s) k) by (simpl in Hk; lia).
    replace (flat_map _ (seq (S s) k))
      with (flat_map
              (fun i => let row := nth (i - S s) tbl [] in
                        if row_has_keyword TARGET_COLUMN_KEYWORDS row
                        then [(i, row)] else [])
              (seq (S s) k)).
    + destruct (row_has_keyword TARGET_COLUMN_KEYWORDS r); reflexivity.
    + apply flat_map_ext_on. intros i Hi. apply in_seq in Hi.
      replace (i - s)%nat with (S (i - S s)) by lia. reflexivity.
Qed.

Lemma header_candidates_filter (tbl : table) :
  header_candidates tbl
  = filter (fun hr => row_has_keyword TARGET_COLUMN_KEYWORDS (snd hr))
           (firstn 40 (enumerate tbl)).
Proof.
  unfold header_candidates, enumerate.
  destruct (Nat.le_ge_cases 40 (List.length tbl)) as [H|H].
  - rewrite Nat.min_l by exact H.
    rewrite <- (header_candidates_from tbl 0 40 H).
    apply flat_map_ext. intros i. now rewrite Nat.sub_0_r.
  - rewrite Nat.min_r by exact H.
    rewrite (firstn_all2 (n := 40)) by (rewrite length_combine, length_seq; lia).
    rewrite <- (firstn_all (combine _ tbl)) at 1.
    rewrite length_combine, length_seq, Nat.min_id.
    rewrite <- (header_candidates_from tbl 0 _ (le_n _)).
    apply flat_map_ext. intros i. now rewrite Nat.sub_0_r.
Qed.

(** Step 2, by its result: the first row that holds a subject keyword. *)
Lemma find_target_row_from (tbl : table) :
  forall s,
    match find_target_row (combine (seq s (List.length tbl)) tbl) with
    | Some (t, trow) =>
        (s <= t)%nat
        /\ nth_error tbl (t - s) = Some trow
        /\ row_has_keyword TARGET_ROW_KEYWORDS trow = true
        /\ (forall j row, (j < t - s)%nat -> nth_error tbl j = Some row ->
                          row_has_keyword TARGET_ROW_KEYWORDS row = false)
    | None =>
        forall row, In row tbl ->
                    row_has_keyword TARGET_ROW_KEYWORDS row = false
    end.
Proof.
  induction tbl as [|r tbl IH]; intros s.
  - simpl. intros row [].
  - rewrite enumerate_from_cons. cbn [find_target_row].
    destruct (row_has_keyword TARGET_ROW_KEYWORDS r) eqn:Er.
    + rewrite Nat.sub_diag. repeat split; auto. intros j row Hj. lia.
    + specialize (IH (S s)).
      destruct (find_target_row _) as [[t trow]|].
      * destruct IH as (Hs & Hn & Hk & Hfirst).
        replace (t - s)%nat with (S (t - S s)) by lia.
        repeat split; auto; try lia.
        intros [|j] row Hj Hr.
        -- simpl in Hr. now injection Hr as <-.
        -- simpl in Hr. apply (Hfirst j row); [lia | exact Hr].
      * intros row [<-|Hin]; [exact Er | now apply IH].
Qed.

(** *** One column of a header row *)

Lemma try_column_read_column (pdf_path : pdf_file) (tbl : table)
      (h : nat) (trow : row) (i : nat) (cell : cell) :
  cell_has_keyword TARGET_COLUMN_KEYWORDS cell = true ->
  try_column pdf_path tbl h trow (i, cell)
  = Spec.read_column pdf_path tbl h trow i.
Proof.
  intros Hk. unfold try_column, Spec.read_column. rewrite Hk.
  destruct (nth_error trow i) as [vc|] eqn:E.
  - assert (Hlt : (i < List.length trow)%nat)
      by (apply nth_error_Some; congruence).
    replace (i <? List.length trow)%nat with true
      by (symmetry; apply Nat.ltb_lt, Hlt).
    rewrite (nth_error_nth trow i None E).
    destruct vc as [text|]; [|reflexivity].
    destruct (strip text); reflexivity.
  - apply nth_error_None in E.
    replace (i <? List.length trow)%nat with false
      by (symmetry; apply Nat.ltb_ge, E).
    reflexivity.
Qed.

Lemma try_column_no_keyword (pdf_path : pdf_file) (tbl : table)
      (h : nat) (trow : row) (col : nat * cell) :
  cell_has_keyword TARGET_COLUMN_KEYWORDS (snd col) = false ->
  try_column pdf_path tbl h trow col = Ok None.
Proof.
  destruct col as [i cell]. simpl. intros Hk.
  unfold try_column. now rewrite Hk.
Qed.

(** The loop over the cells of a header row tries its metric columns, all
    of them, left to right. *)
Lemma header_row_columns (pdf_path : pdf_file) (tbl : table)
      (h : nat) (hrow trow : row) :
  for_loop (enumerate hrow) (try_column pdf_path tbl h trow)
  = for_loop (Spec.metric_columns hrow)
             (Spec.read_column pdf_path tbl h trow).
Proof.
  unfold Spec.metric_columns, Spec.matches_metric.
  rewrite for_loop_map.
  rewrite (for_loop_filter
             (fun col => cell_has_keyword TARGET_COLUMN_KEYWORDS (snd col))).
  - apply for_loop_ext_in. intros [i cell] Hin.
    apply filter_In in Hin. destruct Hin as [_ Hk].
    now apply try_column_read_column.
  - intros col. apply try_column_no_keyword.
Qed.

Lemma row_has_subject (row : row) :
  row_has_keyword TARGET_ROW_KEYWORDS row
  = existsb Spec.matches_subject row.
Proof. destruct row; reflexivity. Qed.

Lemma row_has_metric (row : row) :
  row_has_keyword TARGET_COLUMN_KEYWORDS row
  = existsb Spec.matches_metric row.
Proof. destruct row; reflexivity. Qed.

Lemma find_target_row_first (tbl : table) (t : nat) (trow : row) :
  find_target_row (enumerate tbl) = Some (t, trow)
  <-> nth_error tbl t = Some trow
      /\ existsb Spec.matches_subject trow = true
      /\ (forall j row, (j < t)%nat -> nth_error tbl j = Some row ->
                        existsb Spec.matches_subject row = false).
Proof.
  pose proof (find_target_row_from tbl 0) as H.
  fold (enumerate tbl) in H.
  split.
  - intros E. rewrite E in H. destruct H as (_ & Hn & Hk & Hf).
    rewrite Nat.sub_0_r in Hn, Hf.
    rewrite row_has_subject in Hk.
    repeat split; auto.
    intros j row Hj Hr. rewrite <- row_has_subject.
    now apply (Hf j row).
  - intros (Hn & Hk & Hf).
    destruct (find_target_row (enumerate tbl)) as [[t' trow']|].
    + destruct H as (_ & Hn' & Hk' & Hf').
      rewrite Nat.sub_0_r in Hn', Hf'.
      rewrite row_has_subject in Hk'.
      destruct (Nat.lt_trichotomy t' t) as [Hlt|[->|Hlt]].
      * rewrite (Hf t' trow' Hlt Hn') in Hk'. discriminate.
      * congruence.
      * specialize (Hf' t trow Hlt Hn).
        rewrite row_has_subject in Hf'. congruence.
    + apply nth_error_In in Hn. specialize (H trow Hn).
      rewrite row_has_subject in H. congruence.
Qed.

Lemma filter_none {A : Type} (p : A -> bool) (l : list A) :
  (forall x, In x l -> p x = false) -> filter p l = [].
Proof.
  induction l as [|x l IH]; intros H; simpl; [reflexivity|].
  rewrite (H x (or_introl eq_refl)). apply IH.
  intros y Hy. apply H. now right.
Qed.

(** A grid without a subject row yields nothing. *)
Lemma search_table_no_data_row (pdf_path : pdf_file) (tbl : table) :
  (forall row, In row tbl -> existsb Spec.matches_subject row = false) ->
  search_table pdf_path tbl = Ok None.
Proof.
  intros Hnone. unfold search_table.
  destruct (negb (truthy tbl) || (List.length tbl <? 2)%nat); [reflexivity|].
  destruct (find_target_row (enumerate tbl)) as [[t trow]|] eqn:E;
    [|reflexivity].
  apply find_target_row_first in E. destruct E as (Hn & Hk & _).
  apply nth_error_In in Hn. rewrite (Hnone trow Hn) in Hk. discriminate.
Qed.

(** With a data row, only the header candidates above it are tried. *)
Lemma search_table_headers_above (pdf_path : pdf_file) (tbl : table)
      (t : nat) (trow : row) :
  find_target_row (enumerate tbl) = Some (t, trow) ->
  search_table pdf_path tbl
  = for_loop (filter (fun hr => (fst hr <? t)%nat) (header_candidates tbl))
             (try_header pdf_path tbl t trow).
Proof.
  intros E. unfold search_table. rewrite E.
  pose proof (proj1 (find_target_row_first tbl t trow) E) as (Hn & Hk & _).
  assert (Ht : truthy trow = true) by (destruct trow; [discriminate | reflexivity]).
  rewrite Ht. cbn [negb].
  destruct (negb (truthy tbl) || (List.length tbl <? 2)%nat) eqn:Esmall.
  - assert (Hlen : (List.length tbl < 2)%nat).
    { apply orb_prop in Esmall. destruct Esmall as [H|H].
      - destruct tbl; [simpl; lia | discriminate].
      - now apply Nat.ltb_lt. }
    assert (Hlt : (t < List.length tbl)%nat)
      by (apply nth_error_Some; congruence).
    rewrite filter_none; [reflexivity|].
    intros [h hrow] _. simpl. apply Nat.ltb_ge. lia.
  - apply for_loop_filter. intros [h hrow]. cbn [fst]. intros Hh.
    unfold try_header. apply Nat.ltb_ge in Hh.
    now replace (t <=? h)%nat with true by (symmetry; apply Nat.leb_le, Hh).
Qed.

Example locator_scenario :
  find_fiscal_forecast_value Samples.doc
  = Ok (Some (-1234), Some (lit "2024-10-03")).
Proof. reflexivity. Qed.

Example locator_blank_value :
  find_fiscal_forecast_value Samples.doc_blank_value = Ok (None, None).
Proof. reflexivity. Qed.

(** C4, as stated, fails on the code: in this grid the header row matches
    the metric keywords at columns 0 and 1; reading the data row at the
    first of them only gives nothing (the cell there is the row label), yet
    the locator goes on to column 1 of the same header row and returns the
    value found there. *)
Lemma first_metric_column_only_refuted :
  Spec.metric_columns [Some Samples.metric_short; Some Samples.metric]
  = [0%nat; 1%nat]
  /\ Spec.first_column_only Samples.doc_two_metric_columns
       Samples.grid_two_metric_columns 0
       [Some Samples.metric_short; Some Samples.metric]
       [Some Samples.subject; Some (lit "123")]
     = Ok None
  /\ try_header Samples.doc_two_metric_columns
       Samples.grid_two_metric_columns 1
       [Some Samples.subject; Some (lit "123")]
       (0%nat, [Some Samples.metric_short; Some Samples.metric])
     = Ok (Some (123, lit "2024-10-03"))
  /\ find_fiscal_forecast_value Samples.doc_two_metric_columns
     = Ok (Some 123, Some (lit "2024-10-03")).
Proof. repeat split; reflexivity. Qed.

(** C4 (amended): for a header candidate above the data row, the locator
    tries every column of the header row that matches the metric keywords,
    left to right, reading the data-row cell at each of them, until one
    column gives both a numeric value and a date; only when all of them have
    failed does it move to the next header candidate.  In particular a later
    matching column is used when the earlier ones give nothing. *)
Theorem header_row_tries_every_metric_column
        (pdf_path : pdf_file) (tbl : table)
        (t h : nat) (hrow trow : row) :
  (h < t)%nat ->
  try_header pdf_path tbl t trow (h, hrow)
  = for_loop (Spec.metric_columns hrow)
             (Spec.read_column pdf_path tbl h trow)
  /\ (forall before c after r,
         Spec.metric_columns hrow = before ++ c :: after ->
         (forall c', In c' before ->
                     Spec.read_column pdf_path tbl h trow c' = Ok None) ->
         Spec.read_column pdf_path tbl h trow c = Ok (Some r) ->
         try_header pdf_path tbl t trow (h, hrow) = Ok (Some r)).
Proof.
  intros Hlt.
  assert (Heq : try_header pdf_path tbl t trow (h, hrow)
                = for_loop (Spec.metric_columns hrow)
                           (Spec.read_column pdf_path tbl h trow)).
  { unfold try_header.
    replace (t <=? h)%nat with false by (symmetry; apply Nat.leb_gt, Hlt).
    apply header_row_columns. }
  split; [exact Heq|].
  intros before c after r Hcols Hbefore Hc. rewrite Heq, Hcols.
  clear Hcols Heq. induction before as [|b before IH]; simpl.
  - now rewrite Hc.
  - rewrite (Hbefore b (or_introl eq_refl)). simpl.
    apply IH. intros c' Hc'. apply Hbefore. now right.
Qed.

Lemma header_row_tries_every_metric_column_witness :
  try_header Samples.doc_two_metric_columns
    Samples.grid_two_metric_columns 1
    [Some Samples.subject; Some (lit "123")]
    (0%nat, [Some Samples.metric_short; Some Samples.metric])
  = for_loop [0%nat; 1%nat]
      (Spec.read_column Samples.doc_two_metric_columns
         Samples.grid_two_metric_columns 0
         [Some Samples.subject; Some (lit "123")]).
Proof.
  apply (header_row_tries_every_metric_column
           Samples.doc_two_metric_columns Samples.grid_two_metric_columns
           1 0 [Some Samples.metric_short; Some Samples.metric]
           [Some Samples.subject; Some (lit "123")]).
  lia.
Defined.

(** C5: the header candidates of a grid are exactly the rows among its
    first 40 that hold a cell matching the metric keywords, all of them, top
    to bottom; the data row is the first row of the whole grid that holds a
    cell matching the subject keywords; a grid without such a row yields
    nothing; and with a data row the locator tries the header candidates
    whose index is strictly below the data row's, and no other. *)
Theorem locator_header_and_data_rows (pdf_path : pdf_file) (tbl : table) :
  header_candidates tbl
  = filter (fun hr => existsb Spec.matches_metric (snd hr))
           (firstn 40 (enumerate tbl))
  /\ (forall t trow,
         find_target_row (enumerate tbl) = Some (t, trow)
         <-> nth_error tbl t = Some trow
             /\ existsb Spec.matches_subject trow = true
             /\ (forall j row, (j < t)%nat -> nth_error tbl j = Some row ->
                               existsb Spec.matches_subject row = false))
  /\ ((forall row, In row tbl ->
                   existsb Spec.matches_subject row = false) ->
      search_table pdf_path tbl = Ok None)
  /\ (forall t trow,
         find_target_row (enumerate tbl) = Some (t, trow) ->
         search_table pdf_path tbl
         = for_loop
             (filter (fun hr => (fst hr <? t)%nat) (header_candidates tbl))
             (try_header pdf_path tbl t trow)).
Proof.
  split; [|split; [|split]].
  - rewrite header_candidates_filter. apply filter_ext.
    intros [i row]. apply row_has_metric.
  - intros t trow. apply find_target_row_first.
  - apply search_table_no_data_row.
  - intros t trow. apply search_table_headers_above.
Qed.

End Locator.

(* ================================================================= *)
(** ** Record Assembler *)
(* ================================================================= *)

Section Assembler.
Import Py Map.

(** *** What a hit of the locator is made of *)

Lemma try_column_hit (pdf_path : pdf_file) (tbl : table) (h : nat)
      (trow : row) (col : nat * cell) (v : Z) (d : str) :
  try_column pdf_path tbl h trow col = Ok (Some (v, d)) ->
  extract_forecast_date_universal tbl h (fst col) pdf_path = Ok (Some d)
  /\ exists text, nth_error trow (fst col) = Some (Some text)
                  /\ clean_numeric_value text = Ok (Some v).
Proof.
  destruct col as [c cell]. unfold try_column. cbn [fst].
  destruct (cell_has_keyword TARGET_COLUMN_KEYWORDS cell); [|discriminate].
  destruct (Nat.ltb_spec c (List.length trow)) as [Hlt|]; [|discriminate].
  destruct (nth c trow None) as [text|] eqn:En; [|discriminate].
  destruct (negb (truthy (strip text))); [discriminate|].
  destruct (clean_numeric_value text) as [[n|]|e] eqn:Ev;
    cbn [bind]; try discriminate.
  destruct (extract_forecast_date_universal tbl h c pdf_path)
    as [[date|]|e] eqn:Ed; cbn [bind]; try discriminate.
  intros [= <- <-]. split; [reflexivity|].
  exists text. split; [|exact Ev].
  rewrite <- En. apply nth_error_nth'. exact Hlt.
Qed.

Lemma search_table_hit (pdf_path : pdf_file) (tbl : table) (v : Z) (d : str) :
  search_table pdf_path tbl = Ok (Some (v, d)) ->
  exists h c, extract_forecast_date_universal tbl h c pdf_path = Ok (Some d).
Proof.
  unfold search_table.
  destruct (negb (truthy tbl) || (List.length tbl <? 2)%nat); [discriminate|].
  destruct (find_target_row (enumerate tbl)) as [[t trow]|]; [|discriminate].
  destruct (negb (truthy trow)); [discriminate|].
  intros H. apply for_loop_hit in H. destruct H as ([h hrow] & _ & H).
  unfold try_header in H. destruct (t <=? h)%nat; [discriminate|].
  apply for_loop_hit in H. destruct H as (col & _ & H).
  apply try_column_hit in H. destruct H as [H _].
  now exists h, (fst col).
Qed.

(** The locator returns a value and a date together or not at all, and the
    date is the written form of a calendar date. *)
Lemma find_fiscal_forecast_value_cases (pdf_path : pdf_file) :
  (exists e, find_fiscal_forecast_value pdf_path = Raise e)
  \/ find_fiscal_forecast_value pdf_path = Ok (None, None)
  \/ (exists v date y m d,
         find_fiscal_forecast_value pdf_path = Ok (Some v, Some date)
         /\ Spec.valid_date y m d
         /\ date = strftime_Ymd (mk_datetime y m d)).
Proof.
  unfold find_fiscal_forecast_value.
  destruct (pdfplumber_open pdf_path) as [pages|e]; cbn [bind];
    [|left; now exists e].
  destruct (first_of pages) as [page|e]; cbn [bind]; [|left; now exists e].
  destruct (for_loop (extract_tables page) (search_table pdf_path))
    as [[[v date]|]|e] eqn:E; cbn [bind].
  - right. right. apply for_loop_hit in E. destruct E as (tbl & _ & E).
    apply search_table_hit in E. destruct E as (h & c & E).
    apply cascade_iso in E. destruct E as (y & m & d & Hv & ->).
    now exists v, (strftime_Ymd (mk_datetime y m d)), y, m, d.
  - right. now left.
  - left. now exists e.
Qed.

Lemma create_mapped_data_record (pdf_path : pdf_file) :
  create_mapped_data pdf_path
  = match find_fiscal_forecast_value pdf_path with
    | Raise e => Raise e
    | Ok _ => Ok (option_map Spec.frame_row (Spec.record_of pdf_path))
    end.
Proof.
  unfold create_mapped_data, Spec.record_of.
  destruct (find_fiscal_forecast_value_cases pdf_path)
    as [[e E]|[E|(v & date & y & m & d & E & _)]]; rewrite E; reflexivity.
Qed.

Example assembled_scenario :
  create_mapped_data Samples.doc
  = Ok (Some [(HEADER_1, VStr (lit "2024-10-03")); (HEADER_2, VInt (-1234))]).
Proof. reflexivity. Qed.

Example assembled_blank_value :
  create_mapped_data Samples.doc_blank_value = Ok None.
Proof. reflexivity. Qed.

(** C8: the extraction of a document ends in one of three ways: with an
    exception and no result; with no value and no date, hence no record; or
    with both an integer value and a date, the written form of a calendar
    date, which make the record.  A record never holds an absent field. *)
Theorem extraction_both_or_nothing (pdf_path : pdf_file) :
  (exists e, find_fiscal_forecast_value pdf_path = Raise e
             /\ create_mapped_data pdf_path = Raise e)
  \/ (find_fiscal_forecast_value pdf_path = Ok (None, None)
      /\ create_mapped_data pdf_path = Ok None)
  \/ (exists v date,
         find_fiscal_forecast_value pdf_path = Ok (Some v, Some date)
         /\ create_mapped_data pdf_path
            = Ok (Some [(HEADER_1, VStr date); (HEADER_2, VInt v)])
         /\ exists y m d, Spec.valid_date y m d
                          /\ date = strftime_Ymd (mk_datetime y m d)).
Proof.
  unfold create_mapped_data.
  destruct (find_fiscal_forecast_value_cases pdf_path)
    as [[e E]|[E|(v & date & y & m & d & E & Hv & ->)]]; rewrite E.
  - left. now exists e.
  - right. now left.
  - right. right. eexists _, _. split; [reflexivity|].
    split; [reflexivity|]. now exists y, m, d.
Qed.

(** *** No fallback to the publication date *)

Lemma header_candidates_in (tbl : table) (h : nat) (hrow : row) :
  In (h, hrow) (header_candidates tbl) ->
  (h < List.length tbl)%nat /\ hrow = nth h tbl [].
Proof.
  unfold header_candidates. intros H. apply in_flat_map in H.
  destruct H as (i & Hi & H). apply in_seq in Hi.
  cbv zeta in H.
  destruct (row_has_keyword _ _); [|contradiction].
  destruct H as [[= <- <-]|[]]. split; [lia | reflexivity].
Qed.

Lemma enumerate_in {A : Type} (l : list A) (i : nat) (x : A) :
  In (i, x) (enumerate l) -> (i < List.length l)%nat.
Proof.
  unfold enumerate. intros H. apply in_combine_l in H.
  apply in_seq in H. lia.
Qed.

Lemma try_column_without_date (pdf_path : pdf_file) (tbl : table)
      (h : nat) (trow : row) (col : nat * cell) :
  (cell_has_keyword TARGET_COLUMN_KEYWORDS (snd col) = true ->
   extract_forecast_date_universal tbl h (fst col) pdf_path = Ok None) ->
  try_column pdf_path tbl h trow col = Ok None.
Proof.
  destruct col as [c cell]. cbn [fst snd]. intros Hd. unfold try_column.
  destruct (cell_has_keyword _ cell); [|reflexivity].
  destruct (c <? List.length trow)%nat; [|reflexivity].
  destruct (nth c trow None) as [text|]; [|reflexivity].
  destruct (negb (truthy (strip text))); [reflexivity|].
  rewrite normalizer_computes. cbn [bind].
  destruct (Spec.normalize text); [|reflexivity].
  now rewrite Hd.
Qed.

(** A grid in which the cascade finds no date at any metric cell of any
    header candidate gives nothing. *)
Lemma search_table_without_metric_date (pdf_path : pdf_file) (tbl : table) :
  (forall h hrow c cell,
      In (h, hrow) (header_candidates tbl) ->
      In (c, cell) (enumerate hrow) ->
      cell_has_keyword TARGET_COLUMN_KEYWORDS cell = true ->
      extract_forecast_date_universal tbl h c pdf_path = Ok None) ->
  search_table pdf_path tbl = Ok None.
Proof.
  intros Hd. unfold search_table.
  destruct (negb (truthy tbl) || (List.length tbl <? 2)%nat); [reflexivity|].
  destruct (find_target_row (enumerate tbl)) as [[t trow]|]; [|reflexivity].
  destruct (negb (truthy trow)); [reflexivity|].
  apply for_loop_all_miss. intros [h hrow] Hh.
  unfold try_header. destruct (t <=? h)%nat; [reflexivity|].
  apply for_loop_all_miss. intros [c cell] Hc.
  apply try_column_without_date. cbn [fst snd]. intros Hk.
  now apply (Hd h hrow c cell).
Qed.

Lemma search_table_without_date (pdf_path : pdf_file) (tbl : table) :
  (forall h c, (h < List.length tbl)%nat ->
               (c < List.length (nth h tbl []))%nat ->
               extract_forecast_date_universal tbl h c pdf_path = Ok None) ->
  search_table pdf_path tbl = Ok None.
Proof.
  intros Hd. apply search_table_without_metric_date.
  intros h hrow c cell Hh Hc _.
  apply header_candidates_in in Hh. destruct Hh as [Hlt ->].
  apply enumerate_in in Hc. now apply Hd.
Qed.

(** C3, as stated, fails on the code: this document has a publication date
    (2024-10-01) and a numeric value at the intersection (-1234), and no
    cell of the cascade holds a date; the caller does not fall back to the
    publication date, the document yields no record. *)
Lemma publication_date_fallback_refuted :
  extract_date_from_pdf Samples.doc_without_cell_date
  = Ok (Some (mk_datetime 2024 10 1))
  /\ nth_error Samples.grid_without_date 1
     = Some [Some Samples.subject; Some Samples.minus_1234; Some (lit "z")]
  /\ clean_numeric_value Samples.minus_1234 = Ok (Some (-1234))
  /\ extract_forecast_date_universal
       Samples.grid_without_date 0 1 Samples.doc_without_cell_date
     = Ok None
  /\ create_mapped_data Samples.doc_without_cell_date = Ok None
  /\ create_mapped_data Samples.doc_without_cell_date
     <> Ok (Some [(HEADER_1, VStr (lit "2024-10-01"));
                  (HEADER_2, VInt (-1234))]).
Proof. repeat split; try reflexivity. vm_compute. discriminate. Qed.

End Assembler.

(* ================================================================= *)
(** ** Batch processing and the batch file *)
(* ================================================================= *)

Section Batch.
Import Py Map.

(** *** The loop over the documents *)

Lemma create_mapped_data_ok (pdf_path : pdf_file) :
  Spec.failure_of pdf_path = None ->
  create_mapped_data pdf_path
  = Ok (option_map Spec.frame_row (Spec.record_of pdf_path)).
Proof.
  unfold Spec.failure_of. rewrite !create_mapped_data_record.
  destruct (find_fiscal_forecast_value pdf_path); [reflexivity | discriminate].
Qed.

Lemma create_mapped_data_raise (pdf_path : pdf_file) (e : exn) :
  Spec.failure_of pdf_path = Some e -> create_mapped_data pdf_path = Raise e.
Proof.
  unfold Spec.failure_of.
  destruct (create_mapped_data pdf_path); [discriminate | now intros [= ->]].
Qed.

Lemma collect_records (pdf_files : list pdf_file) :
  forall all_data,
    collect pdf_files all_data
    = match Spec.first_failure pdf_files with
      | Some e => Raise e
      | None =>
          Ok (all_data ++ List.map Spec.frame_row (Spec.records pdf_files))
      end.
Proof.
  unfold Spec.first_failure, Spec.records.
  induction pdf_files as [|p rest IH]; intros all_data; simpl.
  - now rewrite app_nil_r.
  - destruct (Spec.failure_of p) as [e|] eqn:F.
    + now rewrite (create_mapped_data_raise _ _ F).
    + rewrite (create_mapped_data_ok _ F). cbn [bind].
      destruct (Spec.record_of p) as [r|]; cbn [option_map].
      * cbn [truthy Spec.frame_row]. rewrite IH.
        destruct (Spec.first_some Spec.failure_of rest); [reflexivity|].
        cbn [List.map app]. now rewrite <- app_assoc.
      * rewrite IH. reflexivity.
Qed.

(** *** The DataFrame and the file *)

Lemma select_columns_frame (rs : list (str * Z)) :
  select_columns (List.map Spec.frame_row rs)
  = Ok (List.map Spec.frame_row rs).
Proof.
  induction rs as [|r rs IH]; [reflexivity|].
  cbn [List.map select_columns].
  change (getitem (Spec.frame_row r) HEADER_1) with (Ok (VStr (fst r))).
  change (getitem (Spec.frame_row r) HEADER_2) with (Ok (VInt (snd r))).
  cbn [bind]. rewrite IH. reflexivity.
Qed.

Lemma csv_lines_frame (rs : list (str * Z)) :
  csv_lines (List.map Spec.frame_row rs)
  = Ok (Spec.unlines (List.map Spec.data_line rs)).
Proof.
  induction rs as [|r rs IH]; [reflexivity|].
  cbn [List.map csv_lines]. unfold csv_line.
  change (getitem (Spec.frame_row r) HEADER_1) with (Ok (VStr (fst r))).
  change (getitem (Spec.frame_row r) HEADER_2) with (Ok (VInt (snd r))).
  cbn [bind format_value]. rewrite IH. cbn [bind Spec.unlines].
  unfold Spec.data_line. now rewrite <- !app_assoc.
Qed.

Lemma save_custom_csv_frame (rs : list (str * Z)) :
  save_custom_csv (List.map Spec.frame_row rs)
  = Ok (Spec.unlines (Spec.file_lines rs)).
Proof.
  unfold save_custom_csv. rewrite csv_lines_frame. cbn [bind].
  unfold Spec.file_lines. cbn [Spec.unlines].
  now rewrite <- !app_assoc.
Qed.

(** The batch, by its result: a file is written when there is a record and
    the output path is given and not the empty string. *)
Lemma process_multiple_pdfs_computes (pdf_files : list pdf_file)
      (output_csv : option string) :
  process_multiple_pdfs pdf_files output_csv
  = match Spec.first_failure pdf_files with
    | Some e => Raise e
    | None =>
        let rs := Spec.records pdf_files in
        Ok (List.map Spec.frame_row rs,
            match rs, output_csv with
            | _ :: _, Some (String a path) =>
                [(String a path, Spec.unlines (Spec.file_lines rs))]
            | _, _ => []
            end)
    end.
Proof.
  unfold process_multiple_pdfs. rewrite collect_records.
  destruct (Spec.first_failure pdf_files); [reflexivity|].
  cbn [bind app].
  destruct (Spec.records pdf_files) as [|r rs] eqn:E; [reflexivity|].
  rewrite <- E. replace (truthy (List.map Spec.frame_row (Spec.records pdf_files)))
    with true by (rewrite E; reflexivity).
  rewrite select_columns_frame. cbn [bind].
  destruct output_csv as [[|a path]|].
  - rewrite E. reflexivity.
  - rewrite save_custom_csv_frame. cbn [bind]. rewrite E. reflexivity.
  - rewrite E. reflexivity.
Qed.

(** *** Lines *)

Lemma count_line_feeds_none (s : str) :
  Spec.no_line_feed s = true -> count_occ Z.eq_dec s 10 = 0%nat.
Proof.
  induction s as [|c s IH]; [reflexivity|].
  simpl. intros H. apply andb_prop in H. destruct H as [Hc Hs].
  destruct (Z.eq_dec c 10) as [->|]; [discriminate | now apply IH].
Qed.

Lemma count_line_feeds_unlines (ls : list str) :
  Forall (fun l => Spec.no_line_feed l = true) ls ->
  count_occ Z.eq_dec (Spec.unlines ls) 10 = List.length ls.
Proof.
  induction 1 as [|l ls Hl _ IH]; [reflexivity|].
  cbn [Spec.unlines List.length]. rewrite !count_occ_app, IH.
  rewrite (count_line_feeds_none _ Hl). reflexivity.
Qed.

Lemma no_line_feed_app (a b : str) :
  Spec.no_line_feed (a ++ b)
  = Spec.no_line_feed a && Spec.no_line_feed b.
Proof. apply forallb_app. Qed.

Lemma uint_no_line_feed (d : Decimal.uint) :
  Spec.no_line_feed (lit (NilEmpty.string_of_uint d)) = true.
Proof. induction d; simpl; auto. Qed.

Lemma str_of_int_no_line_feed (n : Z) :
  Spec.no_line_feed (str_of_int n) = true.
Proof.
  assert (H : forall d,
             Spec.no_line_feed (lit (NilZero.string_of_uint d)) = true).
  { intros d. unfold NilZero.string_of_uint.
    destruct d; first [reflexivity | apply uint_no_line_feed]. }
  unfold str_of_int, NilZero.string_of_int.
  destruct (Z.to_int n) as [d|d]; [apply H|].
  change (Spec.no_line_feed (45 :: lit (NilZero.string_of_uint d)) = true).
  cbn [Spec.no_line_feed forallb]. apply H.
Qed.

Lemma digit_char_no_line_feed (n : Z) : negb (digit_char n =? 10) = true.
Proof.
  unfold digit_char. pose proof (Z.mod_pos_bound n 10 ltac:(lia)).
  destruct (Z.eqb_spec (48 + n mod 10) 10); [lia | reflexivity].
Qed.

Lemma strftime_no_line_feed (dt : datetime) :
  Spec.no_line_feed (strftime_Ymd dt) = true.
Proof.
  unfold strftime_Ymd, two_digits.
  rewrite !no_line_feed_app, str_of_int_no_line_feed.
  cbn [app Spec.no_line_feed forallb].
  rewrite !digit_char_no_line_feed. reflexivity.
Qed.

Lemma records_in (pdf_files : list pdf_file) (r : str * Z) :
  In r (Spec.records pdf_files) ->
  exists y m d, Spec.valid_date y m d
                /\ fst r = strftime_Ymd (mk_datetime y m d).
Proof.
  unfold Spec.records. intros H. apply in_flat_map in H.
  destruct H as (p & _ & H). unfold Spec.record_of in H.
  destruct (find_fiscal_forecast_value_cases p)
    as [[e E]|[E|(v & date & y & m & d & E & Hv & ->)]];
    rewrite E in H; try contradiction.
  destruct H as [<-|[]]. now exists y, m, d.
Qed.

Lemma file_lines_no_line_feed (pdf_files : list pdf_file) :
  Forall (fun l => Spec.no_line_feed l = true)
         (Spec.file_lines (Spec.records pdf_files)).
Proof.
  unfold Spec.file_lines.
  constructor; [reflexivity|]. constructor; [reflexivity|].
  apply Forall_forall. intros l Hl. apply in_map_iff in Hl.
  destruct Hl as (r & <- & Hr). apply records_in in Hr.
  destruct Hr as (y & m & d & _ & Hiso).
  unfold Spec.data_line. rewrite !no_line_feed_app, Hiso.
  now rewrite strftime_no_line_feed, str_of_int_no_line_feed.
Qed.

(** The same document twice gives the same line twice. *)
Example batch_keeps_duplicates :
  process_multiple_pdfs [Samples.doc; Samples.doc] (Some "out.csv"%string)
  = Ok (List.map Spec.frame_row
          [(lit "2024-10-03", -1234); (lit "2024-10-03", -1234)],
        [("out.csv"%string,
          Spec.unlines
            [lit ",UYTCAB.DEMANDFORECAST.CHANGECURRBAL.JPN.B";
             lit ",Supply and demand forecast: Change in current account balance";
             lit "2024-10-03,-1234";
             lit "2024-10-03,-1234"])]).
Proof. reflexivity. Qed.

(** Without any record there is no file. *)
Example batch_without_records :
  process_multiple_pdfs [Samples.doc_blank_value] (Some "out.csv"%string)
  = Ok ([], []).
Proof. reflexivity. Qed.

Example batch_unreadable_first :
  process_multiple_pdfs [Unreadable; Samples.doc] None = Raise OpenError.
Proof. reflexivity. Qed.

(** A first page whose date text matches the pattern without being a
    calendar date: the document-date resolver raises once the locator has a
    value to date. *)
Example batch_invalid_document_date :
  create_mapped_data
    (Pdf [mk_page (lit "2024" ++ [NEN] ++ Samples.feb30) [Samples.grid]])
  = Raise ValueError.
Proof. reflexivity. Qed.

(** C7, as stated, fails on the code: a batch whose first file cannot be
    opened ends with the exception of [pdfplumber.open]; the second
    document, which on its own yields a record, is never processed. *)
Lemma batch_open_failure_refuted :
  create_mapped_data Unreadable = Raise OpenError
  /\ create_mapped_data Samples.doc
     = Ok (Some [(HEADER_1, VStr (lit "2024-10-03"));
                 (HEADER_2, VInt (-1234))])
  /\ process_multiple_pdfs [Unreadable; Samples.doc] (Some "out.csv"%string)
     = Raise OpenError
  /\ (forall r, process_multiple_pdfs [Unreadable; Samples.doc]
                  (Some "out.csv"%string) <> Ok r).
Proof. repeat split; try reflexivity. intros r. vm_compute. discriminate. Qed.

(** C7 (amended): in batch processing a document whose extraction ends
    without a record (no intersection, no resolvable date, no numeric value,
    no document date) is skipped and the remaining documents are processed:
    the result holds the records of all documents, in order.  An exception
    is not caught at the document boundary: the first document whose
    extraction raises (a file that cannot be opened, a document without
    pages, a document date that is no calendar date) ends the whole batch
    with that exception. *)
Theorem batch_skips_absent_results_only (pdf_files : list pdf_file)
        (output_csv : option string) :
  match Spec.first_failure pdf_files with
  | Some e => process_multiple_pdfs pdf_files output_csv = Raise e
  | None =>
      exists files,
        process_multiple_pdfs pdf_files output_csv
        = Ok (List.map Spec.frame_row (Spec.records pdf_files), files)
  end.
Proof.
  rewrite process_multiple_pdfs_computes.
  destruct (Spec.first_failure pdf_files); [reflexivity|].
  eexists. reflexivity.
Qed.

(** When no document raises and at least one yields a record, and the
    output path is not the empty string, the batch file holds, each ended by
    a line feed, the line made of a comma and the series identifier, the
    line made of a comma and the series description, and one line
    [date,value] per record, in processing order, the date as the cell-date
    resolver wrote it and the value as a decimal integer; it has two lines
    more than there are records. *)
Lemma batch_file_text (pdf_files : list pdf_file) (a : ascii) (path : string) :
  Spec.first_failure pdf_files = None ->
  Spec.records pdf_files <> [] ->
  exists text,
    process_multiple_pdfs pdf_files (Some (String a path))
    = Ok (List.map Spec.frame_row (Spec.records pdf_files),
          [(String a path, text)])
    /\ text
       = Spec.unlines
           ((lit "," ++ lit HEADER_1) :: (lit "," ++ lit HEADER_2)
            :: List.map (fun r => fst r ++ lit "," ++ str_of_int (snd r))
                        (Spec.records pdf_files))
    /\ count_occ Z.eq_dec text 10
       = (2 + List.length (Spec.records pdf_files))%nat
    /\ Forall (fun r => exists y m d,
                   Spec.valid_date y m d
                   /\ fst r = strftime_Ymd (mk_datetime y m d)
                   /\ (1000 <= y -> Spec.parse_iso (fst r) = Some (y, m, d)))
              (Spec.records pdf_files).
Proof.
  intros Hok Hsome. rewrite process_multiple_pdfs_computes, Hok.
  cbv zeta.
  exists (Spec.unlines (Spec.file_lines (Spec.records pdf_files))).
  split; [|split; [|split]].
  - destruct (Spec.records pdf_files); [now elim Hsome | reflexivity].
  - reflexivity.
  - rewrite count_line_feeds_unlines by apply file_lines_no_line_feed.
    unfold Spec.file_lines. cbn [List.length]. now rewrite length_map.
  - apply Forall_forall. intros r Hr. apply records_in in Hr.
    destruct Hr as (y & m & d & Hv & ->).
    exists y, m, d. split; [exact Hv|]. split; [reflexivity|].
    intros Hy. now apply parse_iso_strftime.
Qed.

(** The batch of the scenario: one success and one not-found give a file of
    three lines. *)
Example batch_three_lines :
  process_multiple_pdfs [Samples.doc; Samples.doc_blank_value]
    (Some "out.csv"%string)
  = Ok (List.map Spec.frame_row [(lit "2024-10-03", -1234)],
        [("out.csv"%string,
          Spec.unlines
            [lit ",UYTCAB.DEMANDFORECAST.CHANGECURRBAL.JPN.B";
             lit ",Supply and demand forecast: Change in current account balance";
             lit "2024-10-03,-1234"])]).
Proof. reflexivity. Qed.

(** C9 fails on the code, by the defect of the cell-date resolver (a year
    below 1000 is written without padding): a document dated 0999年10月1日
    whose grid holds 10月3日 over the value -1234 is processed with
    success, and the batch file's data line is
    [999-10-03,-1234]: what stands before the comma has a year of three
    digits, it is no ISO date and not the form YYYY-MM-DD that the docstring
    of [save_custom_csv] gives for the lines of the file.  The two label
    lines, the number of lines (three, for this success and one not-found)
    and the order are as the claim says. *)
Theorem batch_file_year_999 :
  extract_date_from_pdf DateText.doc_year_999
  = Ok (Some (mk_datetime 999 10 1))
  /\ process_multiple_pdfs [DateText.doc_year_999; Samples.doc_blank_value]
       (Some "out.csv"%string)
     = Ok (List.map Spec.frame_row [(lit "999-10-03", -1234)],
           [("out.csv"%string,
             Spec.unlines
               [lit ",UYTCAB.DEMANDFORECAST.CHANGECURRBAL.JPN.B";
                lit ",Supply and demand forecast: Change in current account balance";
                lit "999-10-03,-1234"])])
  /\ Spec.parse_iso (lit "999-10-03") = None.
Proof. repeat split; reflexivity. Qed.

End Batch.

(* ================================================================= *)
(** ** The document-date resolver *)
(* ================================================================= *)

Section DocumentDate.
Import Py Map.

Lemma valid_date_bounds (y m d : Z) :
  Spec.valid_date y m d -> 1 <= y <= 9999 /\ 1 <= m <= 12 /\ 1 <= d <= 31.
Proof.
  intros (Hy & Hm & Hd). repeat split; try lia.
  unfold Spec.month_length in Hd.
  repeat match type of Hd with
         | context [if ?b then _ else _] => destruct b
         end; lia.
Qed.

(** The resolver on a document with a first page, by what the patterns
    find. *)
Lemma extract_date_from_pdf_computes (first_page : page) (others : list page) :
  extract_date_from_pdf (Pdf (first_page :: others))
  = match DateText.document_match (extract_text first_page) with
    | Some (y, m, d) => dt <- new_datetime y m d ;; Ok (Some dt)
    | None => Ok None
    end.
Proof.
  unfold extract_date_from_pdf, DateText.document_match.
  cbn [pdfplumber_open first_of bind].
  set (text := extract_text first_page).
  assert (Hstep : forall p gs,
             p = date_pattern1 \/ p = date_pattern2 \/ p = date_pattern3 ->
             re_search p text = Some gs ->
             exists g1 g2 g3,
               gs = [g1; g2; g3]
               /\ datetime_of_match gs
                  = new_datetime (digits_value g1) (digits_value g2)
                                 (digits_value g3)).
  { intros p gs Hp Hs.
    destruct (date_pattern3_groups p text gs Hp Hs)
      as (g1 & g2 & g3 & -> & I1 & I2 & I3 & _).
    exists g1, g2, g3. split; [reflexivity|].
    unfold datetime_of_match. cbn [group nth_error bind].
    rewrite I1. cbn [bind]. rewrite I2. cbn [bind]. rewrite I3. reflexivity. }
  destruct (re_search date_pattern1 text) as [gs|] eqn:E1.
  { destruct (Hstep _ _ (or_introl eq_refl) E1) as (g1 & g2 & g3 & -> & ->).
    reflexivity. }
  destruct (re_search date_pattern2 text) as [gs|] eqn:E2.
  { destruct (Hstep _ _ (or_intror (or_introl eq_refl)) E2)
      as (g1 & g2 & g3 & -> & ->).
    reflexivity. }
  destruct (re_search date_pattern3 text) as [gs|] eqn:E3.
  { destruct (Hstep _ _ (or_intror (or_intror eq_refl)) E3)
      as (g1 & g2 & g3 & -> & ->).
    reflexivity. }
  reflexivity.
Qed.

(** The numbers the patterns find have at most four digits. *)
Lemma document_match_c_int (text : str) (y m d : Z) :
  DateText.document_match text = Some (y, m, d) ->
  c_int y && c_int m && c_int d = true.
Proof.
  unfold DateText.document_match.
  assert (Hstep : forall p gs,
             p = date_pattern1 \/ p = date_pattern2 \/ p = date_pattern3 ->
             re_search p text = Some gs ->
             match gs with
             | [g1; g2; g3] =>
                 Some (digits_value g1, digits_value g2, digits_value g3)
             | _ => None
             end = Some (y, m, d) ->
             c_int y && c_int m && c_int d = true).
  { intros p gs Hp Hs.
    destruct (date_pattern3_groups p text gs Hp Hs)
      as (g1 & g2 & g3 & -> & _ & _ & _ & C).
    now intros [= <- <- <-]. }
  destruct (re_search date_pattern1 text) as [gs|] eqn:E1.
  { exact (Hstep _ _ (or_introl eq_refl) E1). }
  destruct (re_search date_pattern2 text) as [gs|] eqn:E2.
  { exact (Hstep _ _ (or_intror (or_introl eq_refl)) E2). }
  destruct (re_search date_pattern3 text) as [gs|] eqn:E3.
  { exact (Hstep _ _ (or_intror (or_intror eq_refl)) E3). }
  discriminate.
Qed.

(** Pages after the first play no part. *)
Lemma extract_date_from_pdf_first_page (first_page : page)
      (others : list page) :
  extract_date_from_pdf (Pdf (first_page :: others))
  = extract_date_from_pdf (Pdf [first_page]).
Proof. reflexivity. Qed.

Example document_date_japanese :
  extract_date_from_pdf Samples.doc = Ok (Some (mk_datetime 2024 10 1)).
Proof. reflexivity. Qed.

(** The Japanese pattern is tried first and decides alone: its impossible
    date is not replaced by the slashed date that follows. *)
Example document_date_no_second_try :
  DateText.document_match DateText.impossible_then_slashed = Some (2024, 2, 30)
  /\ extract_date_from_pdf (Pdf [mk_page DateText.impossible_then_slashed []])
     = Raise ValueError.
Proof. split; reflexivity. Qed.

(** The three outcomes of the resolver on a document with a first page. *)
Lemma document_match_cases (first_page : page) (others : list page) :
  match DateText.document_match (extract_text first_page) with
  | None => extract_date_from_pdf (Pdf (first_page :: others)) = Ok None
  | Some (y, m, d) =>
      (Spec.valid_date y m d
       /\ extract_date_from_pdf (Pdf (first_page :: others))
          = Ok (Some (mk_datetime y m d)))
      \/ (~ Spec.valid_date y m d
          /\ extract_date_from_pdf (Pdf (first_page :: others))
             = Raise ValueError)
  end.
Proof.
  rewrite extract_date_from_pdf_computes.
  destruct (DateText.document_match (extract_text first_page))
    as [[[y m] d]|] eqn:Em; [|reflexivity].
  apply document_match_c_int in Em.
  destruct (new_datetime y m d) as [dt|e] eqn:N.
  - apply new_datetime_fields in N. destruct N as [-> Hv]. now left.
  - right.
    assert (Hn : ~ Spec.valid_date y m d).
    { intros Hv. rewrite (new_datetime_valid _ _ _ Hv) in N. discriminate. }
    split; [exact Hn|]. rewrite (new_datetime_invalid _ _ _ Em Hn) in N.
    now injection N as <-.
Qed.

(** X1: on a document with a first page, the document-date resolver returns
    absent when none of the three patterns matches; otherwise the first
    pattern that matches, in the order Japanese, dotted, slashed, decides
    alone: when its numbers are a calendar date (year 1 to 9999) that date
    is returned, and when they are not the resolver raises [ValueError],
    without trying the later patterns.  It raises nothing else. *)
Theorem document_date_outcomes (first_page : page) (others : list page) :
  match DateText.document_match (extract_text first_page) with
  | None => extract_date_from_pdf (Pdf (first_page :: others)) = Ok None
  | Some (y, m, d) =>
      (Spec.valid_date y m d
       /\ extract_date_from_pdf (Pdf (first_page :: others))
          = Ok (Some (mk_datetime y m d)))
      \/ (~ Spec.valid_date y m d
          /\ extract_date_from_pdf (Pdf (first_page :: others))
             = Raise ValueError)
  end.
Proof. apply document_match_cases. Qed.

(** *** The documented formats *)

Lemma decimal_digit_char (n : Z) :
  isdecimal (digit_char n) = true /\ digit_value (digit_char n) = n mod 10.
Proof.
  unfold digit_char.
  pose proof (Z.mod_pos_bound n 10 ltac:(lia)) as Hb.
  assert (Hc : n mod 10 = 0 \/ n mod 10 = 1 \/ n mod 10 = 2 \/ n mod 10 = 3
               \/ n mod 10 = 4 \/ n mod 10 = 5 \/ n mod 10 = 6
               \/ n mod 10 = 7 \/ n mod 10 = 8 \/ n mod 10 = 9) by lia.
  repeat (destruct Hc as [Hc|Hc]; [rewrite Hc; split; reflexivity|]).
  rewrite Hc. split; reflexivity.
Qed.

Lemma four_digits_value (y : Z) :
  0 <= y <= 9999 -> digits_value (four_digits y) = y.
Proof.
  intros Hy. unfold digits_value, four_digits. cbn [fold_left].
  rewrite !(proj2 (decimal_digit_char _)).
  replace (y / 1000) with (y / 10 / 10 / 10)
    by (rewrite !Z.div_div by lia; reflexivity).
  replace (y / 100) with (y / 10 / 10)
    by (rewrite !Z.div_div by lia; reflexivity).
  Z.div_mod_to_equations; lia.
Qed.

Lemma four_digits_decimal (y : Z) : forallb isdecimal (four_digits y) = true.
Proof.
  unfold four_digits. cbn [forallb].
  now rewrite !(proj1 (decimal_digit_char _)).
Qed.

(** A year of four digits at the start of a text, then the rest of the
    pattern. *)
Lemma match_here_year (p : pattern) (y : Z) (tail : str) (gs : list str) :
  match_here p tail = Some gs ->
  match_here (Digits 4 4 :: p) (four_digits y ++ tail)
  = Some (four_digits y :: gs).
Proof.
  intros Hp. cbn [match_here]. unfold four_digits.
  cbn [app try_counts List.length Nat.leb andb firstn skipn].
  fold (four_digits y). rewrite four_digits_decimal, Hp. reflexivity.
Qed.

Lemma re_search_at_start (p : pattern) (s : str) (gs : list str) :
  match_here p s = Some gs -> re_search p s = Some gs.
Proof. intros H. destruct s; simpl; now rewrite H. Qed.

(** A pattern matches only where each of its literal characters occurs. *)
Lemma match_here_needs_char (c : Z) (p : pattern) :
  In (Chr c) p ->
  forall s gs, match_here p s = Some gs -> In c s.
Proof.
  induction p as [|a p IH]; intros Hin s gs; [destruct Hin|].
  destruct a as [c0|lo hi]; cbn [match_here].
  - destruct s as [|x s]; [discriminate|].
    destruct (Z.eqb_spec x c0) as [->|]; [|discriminate].
    intros H. destruct Hin as [[= ->]|Hin]; [now left|].
    right. eapply IH; eauto.
  - intros H. apply try_counts_some in H.
    destruct H as (n & gs' & _ & _ & _ & Hc & _).
    destruct Hin as [Hin|Hin]; [discriminate|].
    specialize (IH Hin _ _ Hc).
    rewrite <- (firstn_skipn n s). apply in_or_app. now right.
Qed.

Lemma re_search_needs_char (c : Z) (p : pattern) (s : str) :
  In (Chr c) p -> ~ In c s -> re_search p s = None.
Proof.
  intros Hin. induction s as [|x s IH]; intros Hn; simpl.
  - destruct (match_here p []) eqn:E; [|reflexivity].
    elim Hn. eapply match_here_needs_char; eauto.
  - destruct (match_here p (x :: s)) eqn:E.
    + elim Hn. eapply match_here_needs_char; eauto.
    + apply IH. intros H. apply Hn. now right.
Qed.

Lemma digit_char_bounds (n : Z) : 48 <= digit_char n <= 57.
Proof.
  unfold digit_char. pose proof (Z.mod_pos_bound n 10 ltac:(lia)). lia.
Qed.

Lemma four_digits_chars (y c : Z) : In c (four_digits y) -> 48 <= c <= 57.
Proof.
  unfold four_digits. intros [<-|[<-|[<-|[<-|[]]]]]; apply digit_char_bounds.
Qed.

(** The months and days of the calendar, in either width, after the year
    mark or separator: what the rest of each pattern finds. *)
Lemma japanese_tail (pm pd : bool) (m d : Z) :
  1 <= m <= 12 -> 1 <= d <= 31 ->
  exists gm gd,
    match_here [Chr NEN; Digits 1 2; Chr GATSU; Digits 1 2; Chr NICHI]
      ([NEN] ++ DateText.field pm m ++ [GATSU] ++ DateText.field pd d
       ++ [NICHI])
    = Some [gm; gd]
    /\ digits_value gm = m /\ digits_value gd = d.
Proof.
  intros Hm Hd.
  assert (Hall :
    forallb (fun pm' => forallb (fun pd' =>
      forallb (fun m' => forallb (fun d' =>
        match match_here
                [Chr NEN; Digits 1 2; Chr GATSU; Digits 1 2; Chr NICHI]
                ([NEN] ++ DateText.field pm' m' ++ [GATSU]
                 ++ DateText.field pd' d' ++ [NICHI]) with
        | Some [gm; gd] => (digits_value gm =? m') && (digits_value gd =? d')
        | _ => false
        end) (range 1 32)) (range 1 13)) [true; false]) [true; false] = true)
    by (vm_compute; reflexivity).
  rewrite forallb_forall in Hall.
  specialize (Hall pm ltac:(destruct pm; simpl; tauto)).
  rewrite forallb_forall in Hall.
  specialize (Hall pd ltac:(destruct pd; simpl; tauto)).
  rewrite forallb_forall in Hall.
  specialize (Hall m (range_in 1 13 m ltac:(lia))).
  rewrite forallb_forall in Hall.
  specialize (Hall d (range_in 1 32 d ltac:(lia))).
  destruct (match_here _ _) as [[|gm [|gd [|]]]|]; try discriminate.
  apply andb_prop in Hall. destruct Hall as [H1 H2].
  apply Z.eqb_eq in H1. apply Z.eqb_eq in H2. now exists gm, gd.
Qed.

Lemma separated_tail (sep : Z) (pm pd : bool) (m d : Z) :
  sep = 46 \/ sep = 47 ->
  1 <= m <= 12 -> 1 <= d <= 31 ->
  (exists gm gd,
      match_here [Chr sep; Digits 1 2; Chr sep; Digits 1 2]
        ([sep] ++ DateText.field pm m ++ [sep] ++ DateText.field pd d)
      = Some [gm; gd]
      /\ digits_value gm = m /\ digits_value gd = d)
  /\ (forall c, In c ([sep] ++ DateText.field pm m ++ [sep]
                      ++ DateText.field pd d) ->
                c = sep \/ 48 <= c <= 57).
Proof.
  intros Hsep Hm Hd.
  assert (Hall :
    forallb (fun sep' => forallb (fun pm' => forallb (fun pd' =>
      forallb (fun m' => forallb (fun d' =>
        match match_here [Chr sep'; Digits 1 2; Chr sep'; Digits 1 2]
                ([sep'] ++ DateText.field pm' m' ++ [sep']
                 ++ DateText.field pd' d') with
        | Some [gm; gd] =>
            (digits_value gm =? m') && (digits_value gd =? d')
            && forallb (fun c => (c =? sep') || ((48 <=? c) && (c <=? 57)))
                       ([sep'] ++ DateText.field pm' m' ++ [sep']
                        ++ DateText.field pd' d')
        | _ => false
        end) (range 1 32)) (range 1 13)) [true; false]) [true; false])
      [46; 47] = true)
    by (vm_compute; reflexivity).
  rewrite forallb_forall in Hall.
  specialize (Hall sep ltac:(destruct Hsep as [->| ->]; simpl; tauto)).
  rewrite forallb_forall in Hall.
  specialize (Hall pm ltac:(destruct pm; simpl; tauto)).
  rewrite forallb_forall in Hall.
  specialize (Hall pd ltac:(destruct pd; simpl; tauto)).
  rewrite forallb_forall in Hall.
  specialize (Hall m (range_in 1 13 m ltac:(lia))).
  rewrite forallb_forall in Hall.
  specialize (Hall d (range_in 1 32 d ltac:(lia))).
  destruct (match_here _ _) as [[|gm [|gd [|]]]|]; try discriminate.
  apply andb_prop in Hall. destruct Hall as [Hall H3].
  apply andb_prop in Hall. destruct Hall as [H1 H2].
  apply Z.eqb_eq in H1. apply Z.eqb_eq in H2. split.
  - now exists gm, gd.
  - intros c Hc. rewrite forallb_forall in H3. specialize (H3 c Hc).
    apply orb_prop in H3. destruct H3 as [H3|H3].
    + left. now apply Z.eqb_eq.
    + right. apply andb_prop in H3. lia.
Qed.

Lemma document_match_japanese (pm pd : bool) (y m d : Z) :
  Spec.valid_date y m d ->
  DateText.document_match (DateText.japanese_date pm pd y m d)
  = Some (y, m, d).
Proof.
  intros Hv. destruct (valid_date_bounds _ _ _ Hv) as (Hy & Hm & Hd).
  destruct (japanese_tail pm pd m d Hm Hd) as (gm & gd & Ht & <- & <-).
  unfold DateText.document_match, DateText.japanese_date, date_pattern1.
  rewrite (re_search_at_start _ _ _ (match_here_year _ y _ _ Ht)).
  now rewrite four_digits_value by lia.
Qed.

Lemma document_match_separated (sep : Z) (pm pd : bool) (y m d : Z) :
  sep = 46 \/ sep = 47 ->
  Spec.valid_date y m d ->
  DateText.document_match (DateText.separated_date sep pm pd y m d)
  = Some (y, m, d).
Proof.
  intros Hsep Hv. destruct (valid_date_bounds _ _ _ Hv) as (Hy & Hm & Hd).
  destruct (separated_tail sep pm pd m d Hsep Hm Hd)
    as ((gm & gd & Ht & Egm & Egd) & Hchars).
  assert (Hin : forall c, In c (DateText.separated_date sep pm pd y m d) ->
                          c = sep \/ 48 <= c <= 57).
  { unfold DateText.separated_date. intros c Hc.
    apply in_app_or in Hc. destruct Hc as [Hc|Hc].
    - right. eapply four_digits_chars, Hc.
    - now apply Hchars. }
  assert (Hno : forall c, c <> sep -> ~ 48 <= c <= 57 ->
                re_search [Digits 4 4; Chr c; Digits 1 2; Chr c; Digits 1 2]
                  (DateText.separated_date sep pm pd y m d) = None
                /\ re_search date_pattern1
                     (DateText.separated_date sep pm pd y m d) = None).
  { intros c Hc1 Hc2. split.
    - apply (re_search_needs_char c); [simpl; tauto|].
      intros H. apply Hin in H. tauto.
    - apply (re_search_needs_char NEN); [simpl; tauto|].
      intros H. apply Hin in H. unfold NEN in H.
      destruct Hsep; subst sep; lia. }
  unfold DateText.document_match.
  destruct Hsep as [->| ->].
  - rewrite (proj2 (Hno 47 ltac:(lia) ltac:(lia))).
    unfold date_pattern2, DateText.separated_date.
    rewrite (re_search_at_start _ _ _ (match_here_year _ y _ _ Ht)).
    now rewrite four_digits_value, Egm, Egd by lia.
  - rewrite (proj2 (Hno 46 ltac:(lia) ltac:(lia))).
    change date_pattern2
      with [Digits 4 4; Chr 46; Digits 1 2; Chr 46; Digits 1 2].
    rewrite (proj1 (Hno 46 ltac:(lia) ltac:(lia))).
    unfold date_pattern3, DateText.separated_date.
    rewrite (re_search_at_start _ _ _ (match_here_year _ y _ _ Ht)).
    now rewrite four_digits_value, Egm, Egd by lia.
Qed.

(** X2: a first page whose text is a calendar date in one of the three
    documented forms - year, month and day with the marks 年 月 日, or
    separated by dots, or by slashes, the month and day zero-padded or not -
    resolves to exactly that date. *)
Theorem documented_formats_resolve
        (text : str) (tables : list table) (others : list page)
        (pm pd : bool) (y m d : Z) :
  Spec.valid_date y m d ->
  text = DateText.japanese_date pm pd y m d
  \/ text = DateText.separated_date 46 pm pd y m d
  \/ text = DateText.separated_date 47 pm pd y m d ->
  extract_date_from_pdf (Pdf (mk_page text tables :: others))
  = Ok (Some (mk_datetime y m d)).
Proof.
  intros Hv Htext. rewrite extract_date_from_pdf_computes.
  cbn [extract_text].
  replace (DateText.document_match text) with (Some (y, m, d)).
  - now rewrite (new_datetime_valid _ _ _ Hv).
  - symmetry. destruct Htext as [->|[->| ->]].
    + now apply document_match_japanese.
    + apply document_match_separated; [now left | exact Hv].
    + apply document_match_separated; [now right | exact Hv].
Qed.

Lemma documented_formats_resolve_witness :
  extract_date_from_pdf (Pdf [mk_page (lit "2024.05.16") []])
  = Ok (Some (mk_datetime 2024 5 16)).
Proof.
  apply (documented_formats_resolve (lit "2024.05.16") [] [] true true
           2024 5 16).
  - unfold Spec.valid_date.
    change (Spec.month_length 2024 5) with 31. lia.
  - right. left. reflexivity.
Defined.

End DocumentDate.

(* ================================================================= *)
(** ** The normalizer on written-out integers and on padded text *)
(* ================================================================= *)

Section NormalizerRoundTrip.
Import Py Map.

Lemma lit_cons (a : ascii) (s : string) :
  lit (String a s) = Z.of_N (N_of_ascii a) :: lit s.
Proof. reflexivity. Qed.

(** The digits of a decimal numeral, read by the normalizer's [int]. *)
Lemma uint_digits_acc (d : Decimal.uint) :
  forall acc : positive,
    fold_left (fun a c => a * 10 + digit_value c)
              (lit (NilEmpty.string_of_uint d)) (Zpos acc)
    = Zpos (Pos.of_uint_acc d acc).
Proof.
  induction d; intros acc; cbn [NilEmpty.string_of_uint Pos.of_uint_acc];
    [reflexivity | ..];
    rewrite lit_cons; cbn [fold_left]; rewrite <- IHd; f_equal;
    match goal with
    | |- context [digit_value ?c] =>
        let v := eval vm_compute in (digit_value c) in
        change (digit_value c) with v
    end; lia.
Qed.

Lemma uint_digits (d : Decimal.uint) :
  fold_left (fun a c => a * 10 + digit_value c)
            (lit (NilEmpty.string_of_uint d)) 0
  = Z.of_N (Pos.of_uint d).
Proof.
  induction d; cbn [NilEmpty.string_of_uint Pos.of_uint];
    [reflexivity | ..];
    rewrite lit_cons; cbn [fold_left];
    match goal with
    | |- context [digit_value ?c] =>
        let v := eval vm_compute in (digit_value c) in
        change (digit_value c) with v
    end; cbn [Z.mul Z.add]; first [exact IHd | apply uint_digits_acc].
Qed.

Lemma uint_all_decimal (d : Decimal.uint) :
  forallb isdecimal (lit (NilEmpty.string_of_uint d)) = true.
Proof. induction d; simpl; auto. Qed.

Lemma filter_all {A : Type} (p : A -> bool) (l : list A) :
  forallb p l = true -> filter p l = l.
Proof.
  induction l as [|x l IH]; simpl; [reflexivity|].
  intros H. apply andb_prop in H. destruct H as [Hx Hl].
  now rewrite Hx, IH.
Qed.

Lemma decimal_not_triangle (l : str) :
  forallb isdecimal l = true -> existsb (Z.eqb SANKAKU) l = false.
Proof.
  induction l as [|c l IH]; cbn [forallb existsb]; [reflexivity|].
  intros H. apply andb_prop in H. destruct H as [Hc Hl].
  rewrite (IH Hl), orb_false_r.
  destruct (Z.eqb_spec SANKAKU c) as [<-|]; [|reflexivity].
  vm_compute in Hc. discriminate.
Qed.

(** A positive number written out: its digits, no sign. *)
Lemma normalize_positive_numeral (p : positive) :
  (List.length (lit (NilEmpty.string_of_uint (Pos.to_uint p)))
   <= int_max_str_digits)%nat ->
  Spec.normalize (lit (NilEmpty.string_of_uint (Pos.to_uint p)))
  = Some (Zpos p)
  /\ Spec.normalize (45 :: lit (NilEmpty.string_of_uint (Pos.to_uint p)))
     = Some (Zneg p).
Proof.
  set (t := lit (NilEmpty.string_of_uint (Pos.to_uint p))). intros Hlen.
  assert (Hdec : forallb isdecimal t = true) by apply uint_all_decimal.
  assert (Hval : digits_value t = Zpos p).
  { unfold digits_value, t. rewrite uint_digits, DecimalPos.Unsigned.of_to.
    reflexivity. }
  assert (Hlim : (int_max_str_digits <? List.length t)%nat = false)
    by (apply Nat.ltb_ge, Hlen).
  destruct t as [|c t'] eqn:Et; [discriminate|].
  assert (Hc : isdecimal c = true)
    by (simpl in Hdec; now apply andb_prop in Hdec).
  split; unfold Spec.normalize.
  - rewrite (filter_all _ _ Hdec), Hlim, (decimal_not_triangle _ Hdec).
    cbn [lstrip]. rewrite (isdecimal_not_space _ Hc), Hval.
    destruct (Z.eqb_spec c 45) as [->|]; [vm_compute in Hc; discriminate|].
    reflexivity.
  - assert (Hf : filter isdecimal (45 :: c :: t') = c :: t').
    { change (filter isdecimal (45 :: c :: t'))
        with (filter isdecimal (c :: t')).
      apply filter_all, Hdec. }
    rewrite Hf, Hlim, Hval.
    change (lstrip (45 :: c :: t')) with (45 :: c :: t').
    cbv beta iota. rewrite Z.eqb_refl, orb_true_r. reflexivity.
Qed.

Example normalize_written_out :
  clean_numeric_value (str_of_int (-1234)) = Ok (Some (-1234))
  /\ clean_numeric_value (str_of_int 0) = Ok (Some 0)
  /\ clean_numeric_value (str_of_int 98765) = Ok (Some 98765).
Proof. repeat split; reflexivity. Qed.

(** X3: the normalizer reads back every integer that the batch writer can
    write: for an integer of at most 4300 digits, the text [str(n)] is
    normalized to [n] itself, sign included. *)
Theorem clean_numeric_value_of_written_integer (n : Z) :
  (List.length (filter isdecimal (str_of_int n)) <= int_max_str_digits)%nat ->
  clean_numeric_value (str_of_int n) = Ok (Some n).
Proof.
  intros Hlen. rewrite normalizer_computes. f_equal.
  destruct n as [|p|p].
  - reflexivity.
  - assert (Es : str_of_int (Zpos p)
                 = lit (NilEmpty.string_of_uint (Pos.to_uint p))).
    { unfold str_of_int. cbn [Z.to_int NilZero.string_of_int].
      unfold NilZero.string_of_uint.
      destruct (Pos.to_uint p) eqn:E; try reflexivity.
      pose proof (DecimalPos.Unsigned.of_to p) as H. rewrite E in H.
      discriminate. }
    rewrite Es in *.
    rewrite (filter_all _ _ (uint_all_decimal _)) in Hlen.
    apply normalize_positive_numeral, Hlen.
  - assert (Es : str_of_int (Zneg p)
                 = 45 :: lit (NilEmpty.string_of_uint (Pos.to_uint p))).
    { unfold str_of_int. cbn [Z.to_int NilZero.string_of_int].
      unfold NilZero.string_of_uint.
      destruct (Pos.to_uint p) eqn:E; try reflexivity.
      pose proof (DecimalPos.Unsigned.of_to p) as H. rewrite E in H.
      discriminate. }
    rewrite Es in *. cbn [filter] in Hlen.
    change (isdecimal 45) with false in Hlen.
    rewrite (filter_all _ _ (uint_all_decimal _)) in Hlen.
    apply normalize_positive_numeral, Hlen.
Qed.

Lemma clean_numeric_value_of_written_integer_witness :
  clean_numeric_value (str_of_int (-1234)) = Ok (Some (-1234)).
Proof.
  apply (clean_numeric_value_of_written_integer (-1234)).
  apply Nat.leb_le. vm_compute. reflexivity.
Defined.

(** *** Text around and inside the number *)

Lemma lstrip_app_visible (a b : str) :
  existsb (fun c => negb (isspace c)) a = true ->
  lstrip (a ++ b) = lstrip a ++ b.
Proof.
  induction a as [|c a IH]; simpl; [discriminate|].
  destruct (isspace c); simpl; [exact IH | reflexivity].
Qed.

Lemma lstrip_visible_head (a : str) :
  existsb (fun c => negb (isspace c)) a = true ->
  exists c r, lstrip a = c :: r.
Proof.
  induction a as [|c a IH]; simpl; [discriminate|].
  destruct (isspace c); simpl; [exact IH | intros _; now exists c, a].
Qed.

Example separators_ignored :
  clean_numeric_value (lit "JPY 1,234,567 -") = Ok (Some 1234567)
  /\ clean_numeric_value (lit "-1 234") = Ok (Some (-1234))
  /\ clean_numeric_value (lit "12-34") = Ok (Some 1234).
Proof. repeat split; reflexivity. Qed.

(** X4: text that holds neither a decimal digit nor the triangle glyph -
    thousand separators, blanks, currency symbols, plus and minus signs -
    changes nothing when it stands anywhere after the first visible
    character of the cell: the normalizer gives the same result with and
    without it. *)
Theorem clean_numeric_value_ignores_inner_text (before inner after : str) :
  existsb (fun c => negb (isspace c)) before = true ->
  forallb (fun c => negb (isdecimal c) && negb (SANKAKU =? c)) inner = true ->
  clean_numeric_value (before ++ inner ++ after)
  = clean_numeric_value (before ++ after).
Proof.
  intros Hvis Hinner. rewrite !normalizer_computes. f_equal.
  assert (Hd : filter isdecimal inner = []).
  { apply filter_none. intros c Hc.
    rewrite forallb_forall in Hinner. specialize (Hinner c Hc).
    apply andb_prop in Hinner. destruct Hinner as [H _].
    now apply negb_true_iff in H. }
  assert (Ht : existsb (Z.eqb SANKAKU) inner = false).
  { rewrite <- truthy_filter_existsb.
    rewrite filter_none; [reflexivity|]. intros c Hc.
    rewrite forallb_forall in Hinner. specialize (Hinner c Hc).
    apply andb_prop in Hinner. destruct Hinner as [_ H].
    now apply negb_true_iff in H. }
  unfold Spec.normalize.
  rewrite !filter_app, Hd, !existsb_app, Ht. cbn [app orb].
  rewrite !(lstrip_app_visible before) by exact Hvis.
  destruct (lstrip_visible_head before Hvis) as (c & r & ->).
  reflexivity.
Qed.

Lemma clean_numeric_value_ignores_inner_text_witness :
  clean_numeric_value (lit "1" ++ lit "," ++ lit "234")
  = clean_numeric_value (lit "1" ++ lit "234").
Proof.
  apply (clean_numeric_value_ignores_inner_text (lit "1") (lit ",")
           (lit "234")); reflexivity.
Defined.

End NormalizerRoundTrip.

(* ================================================================= *)
(** ** What the cascade reads, and the year it gives *)
(* ================================================================= *)

Section CascadeReach.
Import Py Map.

(** The cascade gives dates of the document's year. *)
Lemma cascade_year (grid : table) (h c : nat) (pdf_path : pdf_file)
      (date : str) :
  extract_forecast_date_universal grid h c pdf_path = Ok (Some date) ->
  exists doc_date m d,
    extract_date_from_pdf pdf_path = Ok (Some doc_date)
    /\ Spec.valid_date (year doc_date) m d
    /\ date = strftime_Ymd (mk_datetime (year doc_date) m d).
Proof.
  intros H.
  destruct (extract_date_from_pdf pdf_path) as [[dd|]|e] eqn:Ed.
  - rewrite (cascade_computes _ _ _ _ _ Ed) in H. injection H as H.
    apply first_some_hit in H. destruct H as (r & _ & Hr).
    unfold Spec.date_at in Hr.
    destruct (Spec.cell_at grid r c); [|discriminate].
    apply cell_date_iso in Hr. destruct Hr as (m & d & Hv & ->).
    now exists dd, m, d.
  - unfold extract_forecast_date_universal in H. rewrite Ed in H.
    discriminate.
  - unfold extract_forecast_date_universal in H. rewrite Ed in H.
    discriminate.
Qed.

Lemma first_some_ext_in {A B : Type} (f g : A -> option B) (l : list A) :
  (forall x, In x l -> f x = g x) ->
  Spec.first_some f l = Spec.first_some g l.
Proof.
  induction l as [|x l IH]; intros H; simpl; [reflexivity|].
  rewrite (H x (or_introl eq_refl)), IH; [reflexivity|].
  intros y Hy. apply H. now right.
Qed.

Lemma cascade_without_date_of_document (grid : table) (h c : nat)
      (pdf_path : pdf_file) :
  extract_date_from_pdf pdf_path = Ok None ->
  extract_forecast_date_universal grid h c pdf_path = Ok None.
Proof.
  intros Hd. unfold extract_forecast_date_universal. now rewrite Hd.
Qed.

(** X5: the cascade reads the grid only at the given column, in the rows
    from five above the header row to three below it: two grids that agree
    on these cells give the same result, whatever they hold elsewhere. *)
Theorem cascade_reads_one_column (grid grid' : table) (h c : nat)
        (pdf_path : pdf_file) :
  (forall r, Z.of_nat h - 5 <= r <= Z.of_nat h + 3 ->
             Spec.cell_at grid r c = Spec.cell_at grid' r c) ->
  extract_forecast_date_universal grid h c pdf_path
  = extract_forecast_date_universal grid' h c pdf_path.
Proof.
  intros Hsame.
  destruct (extract_date_from_pdf pdf_path) as [[dd|]|e] eqn:Ed.
  - rewrite !(cascade_computes _ _ _ _ _ Ed). f_equal.
    unfold Spec.cascade. apply first_some_ext_in.
    intros r Hr. unfold Spec.date_at. rewrite Hsame; [reflexivity|].
    unfold Spec.cascade_rows in Hr. simpl in Hr.
    repeat (destruct Hr as [<-|Hr]; [lia|]). destruct Hr.
  - unfold extract_forecast_date_universal. now rewrite Ed.
  - unfold extract_forecast_date_universal. now rewrite Ed.
Qed.

Lemma cascade_reads_one_column_witness :
  extract_forecast_date_universal Samples.grid 0 1 Samples.doc
  = extract_forecast_date_universal
      [ [None; Some Samples.metric];
        [Some Samples.jul16; Some Samples.minus_1234; None; Some Samples.oct3];
        [Some Samples.jul16; Some Samples.oct3] ]
      0 1 Samples.doc.
Proof.
  apply (cascade_reads_one_column Samples.grid _ 0 1 Samples.doc).
  intros r Hr.
  assert (Hc : r = -5 \/ r = -4 \/ r = -3 \/ r = -2 \/ r = -1 \/ r = 0
               \/ r = 1 \/ r = 2 \/ r = 3) by lia.
  repeat (destruct Hc as [->|Hc]; [reflexivity|]). subst r. reflexivity.
Defined.

End CascadeReach.

(* ================================================================= *)
(** ** What the locator finds, misses and raises *)
(* ================================================================= *)

Section LocatorReach.
Import Py Map.

Lemma nth_error_enumerate_from {A : Type} (l : list A) :
  forall s i,
    nth_error (combine (seq s (List.length l)) l) i
    = option_map (fun x => ((s + i)%nat, x)) (nth_error l i).
Proof.
  induction l as [|x l IH]; intros s i.
  - destruct i; reflexivity.
  - destruct i as [|i]; cbn [List.length seq combine nth_error option_map].
    + now rewrite Nat.add_0_r.
    + rewrite IH. now replace (S s + i)%nat with (s + S i)%nat by lia.
Qed.

Lemma nth_error_enumerate {A : Type} (l : list A) (i : nat) :
  nth_error (enumerate l) i = option_map (fun x => (i, x)) (nth_error l i).
Proof. unfold enumerate. now rewrite nth_error_enumerate_from. Qed.

Lemma in_enumerate {A : Type} (l : list A) (i : nat) (x : A) :
  In (i, x) (enumerate l) <-> nth_error l i = Some x.
Proof.
  split.
  - intros H. apply In_nth_error in H. destruct H as (j & Hj).
    rewrite nth_error_enumerate in Hj.
    destruct (nth_error l j) as [y|] eqn:E; [|discriminate].
    simpl in Hj. injection Hj as <- <-. exact E.
  - intros H. apply (nth_error_In _ i).
    rewrite nth_error_enumerate, H. reflexivity.
Qed.

Lemma in_header_candidates (tbl : table) (h : nat) (hrow : row) :
  In (h, hrow) (header_candidates tbl)
  <-> nth_error tbl h = Some hrow /\ (h < 40)%nat
      /\ existsb Spec.matches_metric hrow = true.
Proof.
  rewrite header_candidates_filter, filter_In. cbn [snd].
  rewrite row_has_metric. split.
  - intros [Hin Hk]. apply In_nth_error in Hin. destruct Hin as (j & Hj).
    rewrite nth_error_firstn, nth_error_enumerate in Hj.
    destruct (Nat.ltb_spec j 40); [|discriminate].
    destruct (nth_error tbl j) as [r|] eqn:E; [|discriminate].
    simpl in Hj. injection Hj as <- <-. auto.
  - intros (Hn & Hlt & Hk). split; [|exact Hk].
    apply (nth_error_In _ h).
    rewrite nth_error_firstn, nth_error_enumerate, Hn.
    now replace (h <? 40)%nat with true by (symmetry; apply Nat.ltb_lt, Hlt).
Qed.

Lemma for_loop_raise {A B : Type} (body : A -> res (option B))
      (l : list A) (e : exn) :
  for_loop l body = Raise e -> exists x, In x l /\ body x = Raise e.
Proof.
  induction l as [|x l IH]; simpl; [discriminate|].
  destruct (body x) as [[b|]|e'] eqn:E; simpl.
  - discriminate.
  - intros H. destruct (IH H) as (y & Hy & Hb).
    exists y. split; [now right | exact Hb].
  - intros [= <-]. exists x. split; [now left | exact E].
Qed.

Lemma for_loop_some {A B : Type} (body : A -> res (option B))
      (l : list A) (x : A) (b : B) :
  (forall y, In y l -> exists r, body y = Ok r) ->
  In x l -> body x = Ok (Some b) ->
  exists b', for_loop l body = Ok (Some b').
Proof.
  induction l as [|y l IH]; intros Hok Hin Hb; [destruct Hin|].
  simpl. destruct (Hok y (or_introl eq_refl)) as ([b0|] & Ey); rewrite Ey.
  - now exists b0.
  - simpl. destruct Hin as [->|Hin]; [congruence|].
    apply IH; auto. intros z Hz. apply Hok. now right.
Qed.

(** *** A hit, taken apart *)

Lemma try_column_sound (pdf_path : pdf_file) (tbl : table) (h : nat)
      (trow : row) (c : nat) (cell : cell) (v : Z) (date : str) :
  try_column pdf_path tbl h trow (c, cell) = Ok (Some (v, date)) ->
  Spec.matches_metric cell = true
  /\ exists text, nth_error trow c = Some (Some text)
                  /\ clean_numeric_value text = Ok (Some v)
                  /\ extract_forecast_date_universal tbl h c pdf_path
                     = Ok (Some date).
Proof.
  intros H. destruct (try_column_hit _ _ _ _ _ _ _ H) as (Hd & text & Hn & Hv).
  split.
  - unfold try_column in H. unfold Spec.matches_metric.
    destruct (cell_has_keyword TARGET_COLUMN_KEYWORDS cell);
      [reflexivity | discriminate].
  - exists text. auto.
Qed.

Lemma search_table_sound (pdf_path : pdf_file) (tbl : table)
      (v : Z) (date : str) :
  search_table pdf_path tbl = Ok (Some (v, date)) ->
  exists t trow h hrow c cell text,
    nth_error tbl t = Some trow
    /\ existsb Spec.matches_subject trow = true
    /\ (forall j row, (j < t)%nat -> nth_error tbl j = Some row ->
                      existsb Spec.matches_subject row = false)
    /\ nth_error tbl h = Some hrow /\ (h < t)%nat /\ (h < 40)%nat
    /\ nth_error hrow c = Some cell
    /\ Spec.matches_metric cell = true
    /\ nth_error trow c = Some (Some text)
    /\ clean_numeric_value text = Ok (Some v)
    /\ extract_forecast_date_universal tbl h c pdf_path = Ok (Some date).
Proof.
  unfold search_table.
  destruct (negb (truthy tbl) || (List.length tbl <? 2)%nat); [discriminate|].
  destruct (find_target_row (enumerate tbl)) as [[t trow]|] eqn:Et;
    [|discriminate].
  destruct (negb (truthy trow)); [discriminate|].
  intros H. apply for_loop_hit in H. destruct H as ([h hrow] & Hh & H).
  unfold try_header in H.
  destruct (Nat.leb_spec t h) as [|Hlt]; [discriminate|].
  apply for_loop_hit in H. destruct H as ([c cell] & Hc & H).
  apply try_column_sound in H. destruct H as (Hm & text & Hn & Hv & Hd).
  apply find_target_row_first in Et. destruct Et as (Ht & Hs & Hfirst).
  apply in_header_candidates in Hh. destruct Hh as (Hrow & H40 & _).
  apply in_enumerate in Hc.
  exists t, trow, h, hrow, c, cell, text. repeat split; auto.
Qed.

(** X6: a value and date returned by the locator always come from an
    intersection of the first page: some grid there has a data row, the
    first of its rows with a subject keyword, and strictly above it, among
    the first 40 rows, a header row with a metric keyword in some column;
    the value is the normalized cell of the data row at that column, and
    the date is what the cascade gives for that header row and column. *)
Theorem located_value_is_an_intersection (pdf_path : pdf_file)
        (v : Z) (date : str) :
  find_fiscal_forecast_value pdf_path = Ok (Some v, Some date) ->
  exists first_page others tbl t trow h hrow c cell text,
    pdf_path = Pdf (first_page :: others)
    /\ In tbl (extract_tables first_page)
    /\ nth_error tbl t = Some trow
    /\ existsb Spec.matches_subject trow = true
    /\ (forall j row, (j < t)%nat -> nth_error tbl j = Some row ->
                      existsb Spec.matches_subject row = false)
    /\ nth_error tbl h = Some hrow /\ (h < t)%nat /\ (h < 40)%nat
    /\ nth_error hrow c = Some cell
    /\ Spec.matches_metric cell = true
    /\ nth_error trow c = Some (Some text)
    /\ clean_numeric_value text = Ok (Some v)
    /\ extract_forecast_date_universal tbl h c pdf_path = Ok (Some date).
Proof.
  unfold find_fiscal_forecast_value.
  destruct pdf_path as [|[|first_page others]]; try discriminate.
  cbn [pdfplumber_open first_of bind].
  destruct (for_loop _ _) as [[[v' d']|]|e] eqn:E; cbn [bind];
    try discriminate.
  intros [= -> ->].
  apply for_loop_hit in E. destruct E as (tbl & Hin & E).
  apply search_table_sound in E.
  destruct E as (t & trow & h & hrow & c & cell & text & E).
  exists first_page, others, tbl, t, trow, h, hrow, c, cell, text.
  split; [reflexivity|]. split; [exact Hin | exact E].
Qed.

Lemma located_value_is_an_intersection_witness :
  exists first_page others tbl t trow h hrow c cell text,
    Samples.doc = Pdf (first_page :: others)
    /\ In tbl (extract_tables first_page)
    /\ nth_error tbl t = Some trow
    /\ existsb Spec.matches_subject trow = true
    /\ (forall j row, (j < t)%nat -> nth_error tbl j = Some row ->
                      existsb Spec.matches_subject row = false)
    /\ nth_error tbl h = Some hrow /\ (h < t)%nat /\ (h < 40)%nat
    /\ nth_error hrow c = Some cell
    /\ Spec.matches_metric cell = true
    /\ nth_error trow c = Some (Some text)
    /\ clean_numeric_value text = Ok (Some (-1234))
    /\ extract_forecast_date_universal tbl h c Samples.doc
       = Ok (Some (lit "2024-10-03")).
Proof.
  apply (located_value_is_an_intersection Samples.doc (-1234)
           (lit "2024-10-03")).
  reflexivity.
Defined.

(** *** When a candidate resolves, the document yields a record *)

Lemma cascade_ok (tbl : table) (h c : nat) (pdf_path : pdf_file)
      (doc_date : datetime) :
  extract_date_from_pdf pdf_path = Ok (Some doc_date) ->
  exists r, extract_forecast_date_universal tbl h c pdf_path = Ok r.
Proof. intros Hd. eexists. apply (cascade_computes _ _ _ _ _ Hd). Qed.

Lemma try_column_ok (pdf_path : pdf_file) (tbl : table) (h : nat)
      (trow : row) (col : nat * cell) (doc_date : datetime) :
  extract_date_from_pdf pdf_path = Ok (Some doc_date) ->
  exists r, try_column pdf_path tbl h trow col = Ok r.
Proof.
  intros Hd. destruct col as [c cell]. unfold try_column.
  destruct (cell_has_keyword _ cell); [|now eexists].
  destruct (c <? List.length trow)%nat; [|now eexists].
  destruct (nth c trow None) as [text|]; [|now eexists].
  destruct (negb (truthy (strip text))); [now eexists|].
  rewrite normalizer_computes. cbn [bind].
  destruct (Spec.normalize text); [|now eexists].
  destruct (cascade_ok tbl h c pdf_path doc_date Hd) as (r & ->).
  cbn [bind]. destruct r; now eexists.
Qed.

Lemma try_header_ok (pdf_path : pdf_file) (tbl : table) (t : nat)
      (trow : row) (header : nat * row) (doc_date : datetime) :
  extract_date_from_pdf pdf_path = Ok (Some doc_date) ->
  exists r, try_header pdf_path tbl t trow header = Ok r.
Proof.
  intros Hd. destruct header as [h hrow]. unfold try_header.
  destruct (t <=? h)%nat; [now eexists|].
  destruct (for_loop (enumerate hrow) (try_column pdf_path tbl h trow))
    as [r|e] eqn:E; [now eexists|].
  apply for_loop_raise in E. destruct E as (col & _ & E).
  destruct (try_column_ok pdf_path tbl h trow col doc_date Hd) as (r & Er).
  congruence.
Qed.

Lemma search_table_ok (pdf_path : pdf_file) (tbl : table)
      (doc_date : datetime) :
  extract_date_from_pdf pdf_path = Ok (Some doc_date) ->
  exists r, search_table pdf_path tbl = Ok r.
Proof.
  intros Hd. unfold search_table.
  destruct (negb (truthy tbl) || (List.length tbl <? 2)%nat); [now eexists|].
  destruct (find_target_row (enumerate tbl)) as [[t trow]|]; [|now eexists].
  destruct (negb (truthy trow)); [now eexists|].
  destruct (for_loop (header_candidates tbl)
                     (try_header pdf_path tbl t trow)) as [r|e] eqn:E;
    [now eexists|].
  apply for_loop_raise in E. destruct E as (hd & _ & E).
  destruct (try_header_ok pdf_path tbl t trow hd doc_date Hd) as (r & Er).
  congruence.
Qed.

(** X7: on a document whose date resolves, the locator returns a value and
    a date as soon as some candidate resolves both: a grid of the first page
    with a data row (its first row with a subject keyword), a header row
    strictly above it among the first 40 with a metric keyword at some
    column, a data-row cell at that column that is not blank and
    normalizes to a number, and a date from the cascade for that header row
    and column.  The record returned may be that of another candidate, met
    earlier in the search. *)
Theorem resolving_candidate_gives_record
        (first_page : page) (others : list page) (doc_date : datetime)
        (tbl : table) (t h c : nat) (trow hrow : row) (cell : cell)
        (text : str) (v : Z) (date : str) :
  extract_date_from_pdf (Pdf (first_page :: others)) = Ok (Some doc_date) ->
  In tbl (extract_tables first_page) ->
  nth_error tbl t = Some trow ->
  existsb Spec.matches_subject trow = true ->
  (forall j row, (j < t)%nat -> nth_error tbl j = Some row ->
                 existsb Spec.matches_subject row = false) ->
  nth_error tbl h = Some hrow -> (h < t)%nat -> (h < 40)%nat ->
  nth_error hrow c = Some cell ->
  Spec.matches_metric cell = true ->
  nth_error trow c = Some (Some text) ->
  strip text <> [] ->
  clean_numeric_value text = Ok (Some v) ->
  extract_forecast_date_universal tbl h c (Pdf (first_page :: others))
  = Ok (Some date) ->
  exists v' date',
    find_fiscal_forecast_value (Pdf (first_page :: others))
    = Ok (Some v', Some date').
Proof.
  intros Hd Hin Ht Hs Hfirst Hh Hlt H40 Hc Hm Hn Hvis Hv Hdate.
  set (pdf := Pdf (first_page :: others)) in *.
  assert (Hcol : try_column pdf tbl h trow (c, cell) = Ok (Some (v, date))).
  { rewrite (try_column_read_column _ _ _ _ _ _ Hm).
    unfold Spec.read_column. rewrite Hn.
    destruct (strip text); [now elim Hvis|].
    rewrite Hv. cbn [bind]. rewrite Hdate. reflexivity. }
  assert (Hhead : exists r, try_header pdf tbl t trow (h, hrow) = Ok (Some r)).
  { unfold try_header.
    replace (t <=? h)%nat with false by (symmetry; apply Nat.leb_gt, Hlt).
    apply (for_loop_some _ _ (c, cell) (v, date)).
    - intros col _. apply (try_column_ok _ _ _ _ _ doc_date Hd).
    - now apply in_enumerate.
    - exact Hcol. }
  destruct Hhead as (r1 & Hr1).
  assert (Htab : exists r, search_table pdf tbl = Ok (Some r)).
  { unfold search_table.
    assert (Hlen : (t < List.length tbl)%nat)
      by (apply nth_error_Some; congruence).
    replace (negb (truthy tbl) || (List.length tbl <? 2)%nat) with false.
    2:{ symmetry. apply orb_false_iff. split.
        - destruct tbl; [simpl in Hlen; lia | reflexivity].
        - apply Nat.ltb_ge. lia. }
    rewrite (proj2 (find_target_row_first tbl t trow)) by auto.
    replace (negb (truthy trow)) with false
      by (destruct trow; [discriminate | reflexivity]).
    apply (for_loop_some _ _ (h, hrow) r1).
    - intros hd _. apply (try_header_ok _ _ _ _ _ doc_date Hd).
    - apply in_header_candidates. repeat split; auto.
      apply existsb_exists. exists cell. split; [|exact Hm].
      eapply nth_error_In, Hc.
    - exact Hr1. }
  destruct Htab as (r2 & Hr2).
  assert (Hall : exists r, for_loop (extract_tables first_page)
                                    (search_table pdf) = Ok (Some r)).
  { apply (for_loop_some _ _ tbl r2); auto.
    intros tb _. apply (search_table_ok _ _ doc_date Hd). }
  destruct Hall as ([v' date'] & Hr3).
  exists v', date'. unfold find_fiscal_forecast_value, pdf.
  cbn [pdfplumber_open first_of bind]. fold pdf. now rewrite Hr3.
Qed.

Lemma resolving_candidate_gives_record_witness :
  exists v' date',
    find_fiscal_forecast_value Samples.doc = Ok (Some v', Some date').
Proof.
  apply (resolving_candidate_gives_record
           (mk_page Samples.dated_text [Samples.grid]) []
           (mk_datetime 2024 10 1) Samples.grid 1 0 1
           [Some Samples.subject; Some Samples.minus_1234; Some (lit "z")]
           [Some (lit "x"); Some Samples.metric; Some (lit "y")]
           (Some Samples.metric) Samples.minus_1234 (-1234)
           (lit "2024-10-03")); try reflexivity.
  - now left.
  - intros j row Hj Hr. destruct j as [|j]; [|lia].
    injection Hr as <-. reflexivity.
  - lia.
  - lia.
  - discriminate.
Defined.

(** *** No fallback to the publication date *)

(** C3 (amended): when no step of the cascade succeeds for any header
    candidate of the first page's grids (a row among the first 40 that
    holds a metric cell, taken at the column of such a cell), the caller
    performs no fallback to the publication date: the locator returns
    neither value nor date and the document yields no record, even if a
    numeric value was located at an intersection and even if the cascade
    would find a date from other cells. *)
Theorem no_publication_date_fallback (first_page : page) (others : list page) :
  (forall tbl h hrow c cell,
      In tbl (extract_tables first_page) ->
      In (h, hrow) (header_candidates tbl) ->
      nth_error hrow c = Some cell ->
      cell_has_keyword TARGET_COLUMN_KEYWORDS cell = true ->
      extract_forecast_date_universal tbl h c (Pdf (first_page :: others))
      = Ok None) ->
  find_fiscal_forecast_value (Pdf (first_page :: others)) = Ok (None, None)
  /\ create_mapped_data (Pdf (first_page :: others)) = Ok None.
Proof.
  intros Hd.
  assert (E : find_fiscal_forecast_value (Pdf (first_page :: others))
              = Ok (None, None)).
  { unfold find_fiscal_forecast_value. cbn [pdfplumber_open first_of bind].
    rewrite for_loop_all_miss; [reflexivity|].
    intros tbl Hin. apply search_table_without_metric_date.
    intros h hrow c cell Hh Hc Hk. apply in_enumerate in Hc.
    now apply (Hd tbl h hrow c cell). }
  split; [exact E|]. unfold create_mapped_data. now rewrite E.
Qed.

(** The document of the witness has a publication date, the value 123 at
    the intersection of the subject row and the metric column, and a date
    in a cell of another column, where the cascade of the metric column does
    not look. *)
Lemma no_publication_date_fallback_witness :
  (extract_date_from_pdf DateText.doc_date_elsewhere
   = Ok (Some (mk_datetime 2024 10 1))
   /\ extract_forecast_date_universal
        DateText.grid_date_elsewhere 0 0 DateText.doc_date_elsewhere
      = Ok (Some (lit "2024-10-03")))
  /\ find_fiscal_forecast_value DateText.doc_date_elsewhere = Ok (None, None)
  /\ create_mapped_data DateText.doc_date_elsewhere = Ok None.
Proof.
  split; [split; reflexivity|].
  apply (no_publication_date_fallback
           (mk_page Samples.dated_text [DateText.grid_date_elsewhere]) []).
  intros tbl h hrow c cell [<-|[]] Hh Hc Hk.
  destruct Hh as [[= <- <-]|[]].
  destruct c as [|[|c]].
  - injection Hc as <-. discriminate Hk.
  - reflexivity.
  - destruct c; discriminate Hc.
Defined.

End LocatorReach.

(* ================================================================= *)
(** ** Records, pages and exceptions *)
(* ================================================================= *)

Section RecordReach.
Import Py Map.

Example record_of_first_page_only :
  create_mapped_data
    (Pdf [mk_page Samples.dated_text [Samples.grid]; DateText.other_page])
  = create_mapped_data Samples.doc
  /\ create_mapped_data (Pdf [DateText.other_page])
     = Ok (Some [(HEADER_1, VStr (lit "2023-07-16")); (HEADER_2, VInt 77)]).
Proof. split; reflexivity. Qed.

(** X8: the date of every record lies in the year of the document date:
    when a document yields a record, its document date resolves, and the
    record's date is the written form (the year in decimal, a hyphen, the
    month on two digits, a hyphen, the day on two digits) of a calendar date
    whose year is the year of the document date, the month and day coming
    from a cell; when that year is 1000 or later the record's date reads
    back as that date in the form YYYY-MM-DD.  A document whose date does
    not resolve never yields a record. *)
Theorem record_date_in_document_year (pdf_path : pdf_file) (data : dict) :
  create_mapped_data pdf_path = Ok (Some data) ->
  exists doc_date v date m d,
    extract_date_from_pdf pdf_path = Ok (Some doc_date)
    /\ data = [(HEADER_1, VStr date); (HEADER_2, VInt v)]
    /\ Spec.valid_date (year doc_date) m d
    /\ date = str_of_int (year doc_date) ++ [45] ++ two_digits m
              ++ [45] ++ two_digits d
    /\ (1000 <= year doc_date ->
        Spec.parse_iso date = Some (year doc_date, m, d)).
Proof.
  unfold create_mapped_data.
  destruct (find_fiscal_forecast_value pdf_path) as [[[v|] [date|]]|e] eqn:E;
    cbn [bind]; try discriminate.
  intros [= <-].
  unfold find_fiscal_forecast_value in E.
  destruct (pdfplumber_open pdf_path) as [pages|]; [|discriminate].
  cbn [bind] in E.
  destruct (first_of pages) as [first_page|]; [|discriminate].
  cbn [bind] in E.
  destruct (for_loop _ _) as [[[v' d']|]|e] eqn:El; cbn [bind] in E;
    try discriminate.
  injection E as -> ->.
  apply for_loop_hit in El. destruct El as (tbl & _ & El).
  apply search_table_hit in El. destruct El as (h & c & El).
  apply cascade_year in El. destruct El as (dd & m & d & Hd & Hv & ->).
  exists dd, v, (strftime_Ymd (mk_datetime (year dd) m d)), m, d.
  split; [exact Hd|]. split; [reflexivity|]. split; [exact Hv|].
  split; [reflexivity|]. intros Hy. now apply parse_iso_strftime.
Qed.

Lemma record_date_in_document_year_witness :
  exists doc_date v date m d,
    extract_date_from_pdf Samples.doc = Ok (Some doc_date)
    /\ [(HEADER_1, VStr (lit "2024-10-03")); (HEADER_2, VInt (-1234))]
       = [(HEADER_1, VStr date); (HEADER_2, VInt v)]
    /\ Spec.valid_date (year doc_date) m d
    /\ date = str_of_int (year doc_date) ++ [45] ++ two_digits m
              ++ [45] ++ two_digits d
    /\ (1000 <= year doc_date ->
        Spec.parse_iso date = Some (year doc_date, m, d)).
Proof.
  apply (record_date_in_document_year Samples.doc). reflexivity.
Defined.

(** *** Pages after the first *)

Lemma cascade_first_page (tbl : table) (h c : nat) (first_page : page)
      (others : list page) :
  extract_forecast_date_universal tbl h c (Pdf (first_page :: others))
  = extract_forecast_date_universal tbl h c (Pdf [first_page]).
Proof.
  unfold extract_forecast_date_universal.
  now rewrite extract_date_from_pdf_first_page.
Qed.

Lemma search_table_first_page (tbl : table) (first_page : page)
      (others : list page) :
  search_table (Pdf (first_page :: others)) tbl
  = search_table (Pdf [first_page]) tbl.
Proof.
  unfold search_table.
  destruct (negb (truthy tbl) || (List.length tbl <? 2)%nat); [reflexivity|].
  destruct (find_target_row (enumerate tbl)) as [[t trow]|]; [|reflexivity].
  destruct (negb (truthy trow)); [reflexivity|].
  apply for_loop_ext_in. intros [h hrow] _. unfold try_header.
  destruct (t <=? h)%nat; [reflexivity|].
  apply for_loop_ext_in. intros [c cell] _. unfold try_column.
  now rewrite cascade_first_page.
Qed.

(** X9: only the first page of a document is ever read: the pages after
    it, whatever their text and grids, change neither the record nor the
    exception of the extraction. *)
Theorem later_pages_ignored (first_page : page) (others : list page) :
  create_mapped_data (Pdf (first_page :: others))
  = create_mapped_data (Pdf [first_page]).
Proof.
  unfold create_mapped_data, find_fiscal_forecast_value.
  cbn [pdfplumber_open first_of bind].
  rewrite (for_loop_ext_in (search_table (Pdf (first_page :: others)))
                           (search_table (Pdf [first_page]))).
  - reflexivity.
  - intros tbl _. apply search_table_first_page.
Qed.

(** *** Exceptions *)

Lemma extract_date_from_pdf_raises (first_page : page) (others : list page)
      (e : exn) :
  extract_date_from_pdf (Pdf (first_page :: others)) = Raise e ->
  e = ValueError.
Proof.
  pose proof (document_match_cases first_page others) as H.
  destruct (DateText.document_match (extract_text first_page))
    as [[[y m] d]|].
  - destruct H as [[_ ->]|[_ ->]]; [discriminate | now intros [= <-]].
  - rewrite H. discriminate.
Qed.

(** X10: the extraction of a document raises in three cases only: the file
    cannot be opened (the error of [pdfplumber.open]), the document has no
    page ([IndexError]), or the document-date resolver raises [ValueError],
    which happens when the first date pattern that matches the first page
    is no calendar date. *)
Theorem extraction_exceptions (pdf_path : pdf_file) (e : exn) :
  create_mapped_data pdf_path = Raise e ->
  (pdf_path = Unreadable /\ e = OpenError)
  \/ (pdf_path = Pdf [] /\ e = IndexError)
  \/ (e = ValueError
      /\ extract_date_from_pdf pdf_path = Raise ValueError
      /\ exists first_page others, pdf_path = Pdf (first_page :: others)).
Proof.
  unfold create_mapped_data.
  destruct (find_fiscal_forecast_value pdf_path) as [[[v|] [d|]]|e'] eqn:E;
    cbn [bind]; try discriminate.
  intros [= <-].
  destruct pdf_path as [|[|first_page others]].
  - left. unfold find_fiscal_forecast_value in E. simpl in E.
    injection E as <-. now split.
  - right. left. unfold find_fiscal_forecast_value in E. simpl in E.
    injection E as <-. now split.
  - right. right.
    unfold find_fiscal_forecast_value in E.
    cbn [pdfplumber_open first_of bind] in E.
    destruct (for_loop _ _) as [[[v' d']|]|e0] eqn:El; cbn [bind] in E;
      try discriminate.
    injection E as ->.
    apply for_loop_raise in El. destruct El as (tbl & _ & El).
    assert (Hdate : extract_date_from_pdf (Pdf (first_page :: others))
                    = Raise e').
    { destruct (extract_date_from_pdf (Pdf (first_page :: others)))
        as [[dd|]|e0] eqn:Ed.
      - destruct (search_table_ok _ tbl dd Ed) as (r & Er). congruence.
      - rewrite search_table_without_date in El; [discriminate|].
        intros h c _ _. now apply cascade_without_date_of_document.
      - unfold search_table in El.
        destruct (negb (truthy tbl) || _); [discriminate|].
        destruct (find_target_row _) as [[t trow]|]; [|discriminate].
        destruct (negb (truthy trow)); [discriminate|].
        apply for_loop_raise in El. destruct El as ([h hrow] & _ & El).
        unfold try_header in El. destruct (t <=? h)%nat; [discriminate|].
        apply for_loop_raise in El. destruct El as ([c cell] & _ & El).
        unfold try_column in El.
        destruct (cell_has_keyword _ cell); [|discriminate].
        destruct (c <? List.length trow)%nat; [|discriminate].
        destruct (nth c trow None) as [text|]; [|discriminate].
        destruct (negb (truthy (strip text))); [discriminate|].
        rewrite normalizer_computes in El. cbn [bind] in El.
        destruct (Spec.normalize text); [|discriminate].
        unfold extract_forecast_date_universal in El.
        rewrite Ed in El. cbn [bind] in El. congruence. }
    pose proof (extract_date_from_pdf_raises _ _ _ Hdate) as ->.
    repeat split; auto. now exists first_page, others.
Qed.

Lemma extraction_exceptions_witness :
  (Pdf [mk_page (lit "2024" ++ [NEN] ++ Samples.feb30) [Samples.grid]]
   = Unreadable /\ ValueError = OpenError)
  \/ (Pdf [mk_page (lit "2024" ++ [NEN] ++ Samples.feb30) [Samples.grid]]
      = Pdf [] /\ ValueError = IndexError)
  \/ (ValueError = ValueError
      /\ extract_date_from_pdf
           (Pdf [mk_page (lit "2024" ++ [NEN] ++ Samples.feb30)
                   [Samples.grid]])
         = Raise ValueError
      /\ exists first_page others,
           Pdf [mk_page (lit "2024" ++ [NEN] ++ Samples.feb30) [Samples.grid]]
           = Pdf (first_page :: others)).
Proof.
  apply (extraction_exceptions
           (Pdf [mk_page (lit "2024" ++ [NEN] ++ Samples.feb30)
                   [Samples.grid]]) ValueError).
  reflexivity.
Defined.

End RecordReach.

(* ================================================================= *)
(** ** More on the batch and its file *)
(* ================================================================= *)

Section BatchReach.
Import Py Map.

(** X11: the batch writes at most one file, and writes it exactly when an
    output path is given, is not the empty string, and at least one document
    yields a record; when no document yields a record the result is the
    empty frame and nothing is written, not even the two label lines; and
    with the empty string as path nothing is written either. *)
Theorem batch_file_written_iff (pdf_files : list pdf_file)
        (output_csv : option string) (df : dataframe)
        (files : list (string * str)) :
  process_multiple_pdfs pdf_files output_csv = Ok (df, files) ->
  df = List.map Spec.frame_row (Spec.records pdf_files)
  /\ (files = [] <-> output_csv = None \/ output_csv = Some EmptyString
                     \/ df = [])
  /\ (forall path text, In (path, text) files ->
                        output_csv = Some path /\ path <> EmptyString
                        /\ files = [(path, text)]).
Proof.
  rewrite process_multiple_pdfs_computes.
  destruct (Spec.first_failure pdf_files); [discriminate|].
  cbv zeta. intros [= <- <-]. split; [reflexivity|].
  destruct (Spec.records pdf_files) as [|r rs]; cbn [List.map].
  - split; [tauto|]. intros path text [].
  - destruct output_csv as [[|a p]|]; split.
    + tauto.
    + intros path text [].
    + split; [discriminate|]. intros [H|[H|H]]; discriminate H.
    + intros path text [[= <- <-]|[]].
      split; [reflexivity|]. split; [discriminate | reflexivity].
    + tauto.
    + intros path text [].
Qed.

Lemma batch_file_written_iff_witness :
  List.map Spec.frame_row [(lit "2024-10-03", -1234)]
  = List.map Spec.frame_row (Spec.records [Samples.doc])
  /\ (@nil (string * str) = []
      <-> Some EmptyString = None \/ Some EmptyString = Some EmptyString
          \/ List.map Spec.frame_row [(lit "2024-10-03", -1234)] = [])
  /\ (forall path text, In (path, text) (@nil (string * str)) ->
                        Some EmptyString = Some path /\ path <> EmptyString
                        /\ @nil (string * str) = [(path, text)]).
Proof.
  apply (batch_file_written_iff [Samples.doc] (Some EmptyString)
           (List.map Spec.frame_row [(lit "2024-10-03", -1234)]) []).
  reflexivity.
Defined.

(** *** Commas *)

Lemma count_none (c : Z) (s : str) :
  (forall x, In x s -> x <> c) -> count_occ Z.eq_dec s c = 0%nat.
Proof.
  intros H. apply count_occ_not_In. intros Hin. now apply (H c Hin).
Qed.

Lemma uint_chars (d : Decimal.uint) (c : Z) :
  In c (lit (NilEmpty.string_of_uint d)) -> 48 <= c <= 57.
Proof.
  induction d; cbn [NilEmpty.string_of_uint]; [intros [] | ..];
    rewrite lit_cons; intros [<-|H]; auto; vm_compute; split; discriminate.
Qed.

Lemma str_of_int_chars (n c : Z) :
  In c (str_of_int n) -> c = 45 \/ 48 <= c <= 57.
Proof.
  assert (H : forall d x, In x (lit (NilZero.string_of_uint d)) ->
                          48 <= x <= 57).
  { intros d x. unfold NilZero.string_of_uint.
    destruct d; try apply uint_chars.
    intros [<-|[]]. vm_compute. split; discriminate. }
  unfold str_of_int, NilZero.string_of_int.
  destruct (Z.to_int n) as [d|d].
  - intros Hc. right. eapply H, Hc.
  - rewrite lit_cons. intros [<-|Hc]; [now left|]. right. eapply H, Hc.
Qed.

Lemma strftime_chars (dt : datetime) (c : Z) :
  In c (strftime_Ymd dt) -> c = 45 \/ 48 <= c <= 57.
Proof.
  unfold strftime_Ymd, two_digits. intros H.
  apply in_app_or in H. destruct H as [H|H];
    [now apply str_of_int_chars in H|].
  cbn [app] in H.
  repeat (destruct H as [<-|H];
          [first [now left | right; apply digit_char_bounds]|]).
  destruct H.
Qed.

Lemma data_line_one_comma (r : str * Z) :
  (exists dt, fst r = strftime_Ymd dt) ->
  count_occ Z.eq_dec (Spec.data_line r) 44 = 1%nat.
Proof.
  intros (dt & Hr). unfold Spec.data_line. rewrite Hr, !count_occ_app.
  rewrite (count_none 44 (strftime_Ymd dt)).
  2:{ intros x Hx. apply strftime_chars in Hx. lia. }
  rewrite (count_none 44 (str_of_int (snd r))).
  2:{ intros x Hx. apply str_of_int_chars in Hx. lia. }
  reflexivity.
Qed.

(** X12: every line of the batch file (written when the output path is not
    the empty string and there is a record) holds exactly one comma and no
    line feed: the two label lines and each data line have two fields, the
    first of the label lines being empty, so the file reads back as a table
    of two columns. *)
Theorem batch_file_two_columns (pdf_files : list pdf_file) (path : string) :
  path <> EmptyString ->
  Spec.first_failure pdf_files = None ->
  Spec.records pdf_files <> [] ->
  exists df lines,
    process_multiple_pdfs pdf_files (Some path)
    = Ok (df, [(path, Spec.unlines lines)])
    /\ List.length lines = (2 + List.length (Spec.records pdf_files))%nat
    /\ Forall (fun l => count_occ Z.eq_dec l 44 = 1%nat
                        /\ count_occ Z.eq_dec l 10 = 0%nat) lines.
Proof.
  intros Hpath Hok Hsome. rewrite process_multiple_pdfs_computes, Hok.
  cbv zeta.
  exists (List.map Spec.frame_row (Spec.records pdf_files)),
         (Spec.file_lines (Spec.records pdf_files)).
  split; [|split].
  - destruct (Spec.records pdf_files); [now elim Hsome|].
    destruct path; [now elim Hpath | reflexivity].
  - unfold Spec.file_lines. cbn [List.length]. now rewrite length_map.
  - apply Forall_forall. intros l Hl. split.
    + unfold Spec.file_lines in Hl.
      destruct Hl as [<-|[<-|Hl]]; [reflexivity | reflexivity |].
      apply in_map_iff in Hl. destruct Hl as (r & <- & Hr).
      apply data_line_one_comma. apply records_in in Hr.
      destruct Hr as (y & m & d & _ & Hr). eexists. exact Hr.
    + apply count_line_feeds_none.
      pose proof (file_lines_no_line_feed pdf_files) as Hall.
      rewrite Forall_forall in Hall. now apply Hall.
Qed.

Lemma batch_file_two_columns_witness :
  exists df lines,
    process_multiple_pdfs [Samples.doc; Samples.doc_blank_value]
      (Some "out.csv"%string)
    = Ok (df, [("out.csv"%string, Spec.unlines lines)])
    /\ List.length lines = 3%nat
    /\ Forall (fun l => count_occ Z.eq_dec l 44 = 1%nat
                        /\ count_occ Z.eq_dec l 10 = 0%nat) lines.
Proof.
  apply (batch_file_two_columns [Samples.doc; Samples.doc_blank_value]
           "out.csv").
  - discriminate.
  - reflexivity.
  - discriminate.
Defined.

(** *** Batches put together *)

Lemma first_some_app {A B : Type} (f : A -> option B) (a b : list A) :
  Spec.first_some f (a ++ b)
  = match Spec.first_some f a with
    | Some x => Some x
    | None => Spec.first_some f b
    end.
Proof.
  induction a as [|x a IH]; simpl; [reflexivity|].
  destruct (f x); [reflexivity | exact IH].
Qed.

(** X13: documents are processed independently of each other: when two
    batches each end normally, the batch of the first list followed by the
    second ends normally too and its frame is the first frame followed by
    the second; and when the first batch raises, the joint batch raises the
    same exception. *)
Theorem batch_concatenation (batch1 batch2 : list pdf_file)
        (out1 out2 out : option string) :
  (forall df1 files1 df2 files2,
      process_multiple_pdfs batch1 out1 = Ok (df1, files1) ->
      process_multiple_pdfs batch2 out2 = Ok (df2, files2) ->
      exists files,
        process_multiple_pdfs (batch1 ++ batch2) out
        = Ok (df1 ++ df2, files))
  /\ (forall e,
         process_multiple_pdfs batch1 out1 = Raise e ->
         process_multiple_pdfs (batch1 ++ batch2) out = Raise e).
Proof.
  rewrite !process_multiple_pdfs_computes.
  unfold Spec.first_failure, Spec.records.
  rewrite first_some_app, flat_map_app, map_app.
  fold (Spec.first_failure batch1). fold (Spec.first_failure batch2).
  fold (Spec.records batch1). fold (Spec.records batch2).
  split.
  - intros df1 files1 df2 files2.
    destruct (Spec.first_failure batch1); [discriminate|].
    destruct (Spec.first_failure batch2); [discriminate|].
    cbv zeta. intros [= <- _] [= <- _]. eexists. reflexivity.
  - intros e. destruct (Spec.first_failure batch1); [|discriminate].
    now intros [= <-].
Qed.

End BatchReach.

(* ================================================================= *)
(** ** The folder listing *)
(* ================================================================= *)

Section FolderListing.
Import Py Map Folder.
Import Stdlib.Sorting.Permutation Stdlib.Sorting.Sorted.

(** *** The order of names *)

Lemma str_ltb_irrefl (a : str) : str_ltb a a = false.
Proof.
  induction a as [|x a IH]; [reflexivity|]. cbn [str_ltb].
  now rewrite Z.ltb_irrefl, Z.eqb_refl, IH.
Qed.

Lemma str_ltb_trichotomy (a : str) :
  forall b, str_ltb a b = true \/ a = b \/ str_ltb b a = true.
Proof.
  induction a as [|x a IH]; intros [|y b]; cbn [str_ltb]; auto.
  destruct (Z.lt_trichotomy x y) as [H|[->|H]].
  - left. now replace (x <? y) with true by lia.
  - rewrite Z.ltb_irrefl, Z.eqb_refl. cbn [orb andb].
    destruct (IH b) as [H|[->|H]]; auto.
  - right. right. now replace (y <? x) with true by lia.
Qed.

Lemma str_ltb_asym (a : str) :
  forall b, str_ltb a b = true -> str_ltb b a = false.
Proof.
  induction a as [|x a IH]; intros [|y b]; cbn [str_ltb]; auto;
    try discriminate.
  intros H. apply orb_prop in H. destruct H as [H|H].
  - apply Z.ltb_lt in H.
    replace (y <? x) with false by lia. replace (y =? x) with false by lia.
    reflexivity.
  - apply andb_prop in H. destruct H as [He H]. apply Z.eqb_eq in He.
    subst y. rewrite Z.ltb_irrefl, Z.eqb_refl. cbn [orb andb]. now apply IH.
Qed.

Lemma str_ltb_trans (a : str) :
  forall b c, str_ltb a b = true -> str_ltb b c = true -> str_ltb a c = true.
Proof.
  induction a as [|x a IH]; intros [|y b] [|z c]; cbn [str_ltb]; auto;
    try discriminate.
  intros H1 H2.
  apply orb_prop in H1. apply orb_prop in H2.
  destruct H1 as [H1|H1], H2 as [H2|H2].
  - replace (x <? z) with true by lia. reflexivity.
  - apply andb_prop in H2. destruct H2 as [He _]. apply Z.eqb_eq in He.
    subst z. now rewrite H1.
  - apply andb_prop in H1. destruct H1 as [He _]. apply Z.eqb_eq in He.
    subst y. now rewrite H2.
  - apply andb_prop in H1. destruct H1 as [He1 H1].
    apply andb_prop in H2. destruct H2 as [He2 H2].
    apply Z.eqb_eq in He1. apply Z.eqb_eq in He2. subst y z.
    rewrite Z.eqb_refl, (IH _ _ H1 H2). now rewrite orb_true_r.
Qed.

(** [a <= b]: [b] is not below [a]. *)
Lemma not_below_trans (a b c : str) :
  str_ltb b a = false -> str_ltb c b = false -> str_ltb c a = false.
Proof.
  intros H1 H2. destruct (str_ltb c a) eqn:E; [|reflexivity].
  destruct (str_ltb_trichotomy c b) as [H|[->|H]]; try congruence.
  rewrite (str_ltb_trans _ _ _ H E) in H1. discriminate.
Qed.

Lemma not_below_antisym (a b : str) :
  str_ltb a b = false -> str_ltb b a = false -> a = b.
Proof.
  intros H1 H2. destruct (str_ltb_trichotomy a b) as [H|[->|H]]; congruence.
Qed.

(** *** [sorted] sorts *)

Lemma insert_permutation (name : str) (names : list str) :
  Permutation (insert name names) (name :: names).
Proof.
  induction names as [|x rest IH]; cbn [insert]; [reflexivity|].
  destruct (str_ltb x name); [|reflexivity].
  rewrite IH. apply perm_swap.
Qed.

Lemma sorted_permutation (names : list str) :
  Permutation (sorted names) names.
Proof.
  induction names as [|x rest IH]; cbn [sorted]; [reflexivity|].
  rewrite insert_permutation. now constructor.
Qed.

Lemma insert_ascending (name : str) (names : list str) :
  StronglySorted (fun a b => str_ltb b a = false) names ->
  StronglySorted (fun a b => str_ltb b a = false) (insert name names).
Proof.
  induction 1 as [|x rest Hs IH Hx]; cbn [insert].
  - repeat constructor.
  - destruct (str_ltb x name) eqn:E.
    + constructor; [exact IH|].
      apply Forall_forall. intros y Hy.
      apply (Permutation_in _ (insert_permutation name rest)) in Hy.
      destruct Hy as [<-|Hy]; [now apply str_ltb_asym|].
      rewrite Forall_forall in Hx. now apply Hx.
    + constructor; [now constructor|].
      constructor; [exact E|].
      apply Forall_forall. intros y Hy. rewrite Forall_forall in Hx.
      apply (not_below_trans _ x); auto.
Qed.

Lemma sorted_ascending (names : list str) :
  StronglySorted (fun a b => str_ltb b a = false) (sorted names).
Proof.
  induction names as [|x rest IH]; cbn [sorted]; [constructor|].
  now apply insert_ascending.
Qed.

Lemma ascending_unique (l1 : list str) :
  forall l2,
    StronglySorted (fun a b => str_ltb b a = false) l1 ->
    StronglySorted (fun a b => str_ltb b a = false) l2 ->
    Permutation l1 l2 -> l1 = l2.
Proof.
  induction l1 as [|a l1 IH]; intros l2 H1 H2 Hp.
  - apply Permutation_nil in Hp. now subst.
  - destruct l2 as [|b l2];
      [apply Permutation_sym, Permutation_nil in Hp; discriminate|].
    inversion H1 as [|? ? Hs1 Ha]; subst.
    inversion H2 as [|? ? Hs2 Hb]; subst.
    rewrite Forall_forall in Ha, Hb.
    assert (Hab : a = b).
    { assert (Hina : In a (b :: l2))
        by (apply (Permutation_in _ Hp); now left).
      assert (Hinb : In b (a :: l1))
        by (apply (Permutation_in _ (Permutation_sym Hp)); now left).
      destruct Hina as [->|Hina]; [reflexivity|].
      destruct Hinb as [->|Hinb]; [reflexivity|].
      apply not_below_antisym; [apply Hb, Hina | apply Ha, Hinb]. }
    subst b. f_equal. apply IH; auto.
    eapply Permutation_cons_inv, Hp.
Qed.

Lemma filter_permutation {A : Type} (p : A -> bool) (l1 l2 : list A) :
  Permutation l1 l2 -> Permutation (filter p l1) (filter p l2).
Proof.
  induction 1 as [|x l1 l2 _ IH|x y l|l1 l2 l3 _ IH1 _ IH2]; cbn [filter].
  - constructor.
  - destruct (p x); [now constructor | exact IH].
  - destruct (p x), (p y); try reflexivity. apply perm_swap.
  - now rewrite IH1.
Qed.

Example pdf_files_sorted :
  pdf_files [lit "ds251002.pdf"; lit "notes.txt"; lit "ds251001.pdf";
             lit "DS250930.PDF"; lit "ds251003.pdf.crdownload"]
  = [lit "ds251001.pdf"; lit "ds251002.pdf"].
Proof. reflexivity. Qed.

(** X14: the batch over a folder depends only on which [.pdf] names the
    folder holds: two listings with the same names ending in [.pdf], in any
    order and among any other entries (which are never opened), give the
    same result.  The documents are taken in ascending order of their
    names. *)
Theorem folder_listing_order_irrelevant
        (listdir1 listdir2 : list str) (file_at : str -> pdf_file)
        (output_csv : option string) :
  Permutation (filter (endswith (lit ".pdf")) listdir1)
              (filter (endswith (lit ".pdf")) listdir2) ->
  pdf_files listdir1 = pdf_files listdir2
  /\ StronglySorted (fun a b => str_ltb b a = false) (pdf_files listdir1)
  /\ process_folder listdir1 file_at output_csv
     = process_folder listdir2 file_at output_csv.
Proof.
  intros Hp.
  assert (Heq : pdf_files listdir1 = pdf_files listdir2).
  { unfold pdf_files. apply ascending_unique; try apply sorted_ascending.
    rewrite !sorted_permutation. exact Hp. }
  split; [exact Heq|]. split; [apply sorted_ascending|].
  unfold process_folder. now rewrite Heq.
Qed.

Lemma folder_listing_order_irrelevant_witness :
  pdf_files [lit "b.pdf"; lit "notes.txt"; lit "a.pdf"]
  = pdf_files [lit "a.pdf"; lit "b.pdf"; lit "c.pdf.crdownload"]
  /\ StronglySorted (fun a b => str_ltb b a = false)
       (pdf_files [lit "b.pdf"; lit "notes.txt"; lit "a.pdf"])
  /\ process_folder [lit "b.pdf"; lit "notes.txt"; lit "a.pdf"]
       (fun _ => Samples.doc) None
     = process_folder [lit "a.pdf"; lit "b.pdf"; lit "c.pdf.crdownload"]
         (fun _ => Samples.doc) None.
Proof.
  apply (folder_listing_order_irrelevant
           [lit "b.pdf"; lit "notes.txt"; lit "a.pdf"]
           [lit "a.pdf"; lit "b.pdf"; lit "c.pdf.crdownload"]
           (fun _ => Samples.doc) None).
  change (Permutation [lit "b.pdf"; lit "a.pdf"] [lit "a.pdf"; lit "b.pdf"]).
  apply perm_swap.
Defined.

End FolderListing.

(* ================================================================= *)
(** ** The orchestrator *)
(* ================================================================= *)

Section Pipeline.
Import Orchestrator.

Example pipeline_download_fails :
  main (fun script => if String.eqb script "main.py" then Exited 1
                      else Exited 0)
  = (1, ["main.py"%string]).
Proof. reflexivity. Qed.

(** X15: the orchestrator ends with status 0 exactly when [main.py] and
    then [map.py] both exit with return code 0, and with status 1 in every
    other case; [main.py] is always started first, and [map.py] is started
    exactly when [main.py] has exited with return code 0. *)
Theorem pipeline_status (run : string -> outcome) :
  (fst (main run) = 0
   <-> run "main.py"%string = Exited 0 /\ run "map.py"%string = Exited 0)
  /\ (fst (main run) = 0 \/ fst (main run) = 1)
  /\ (snd (main run) = ["main.py"%string; "map.py"%string]
      <-> run "main.py"%string = Exited 0)
  /\ (snd (main run) = ["main.py"%string]
      <-> run "main.py"%string <> Exited 0).
Proof.
  unfold main, run_script.
  destruct (run "main.py"%string) as [[|p|p]|];
    destruct (run "map.py"%string) as [[|q|q]|]; cbn;
    repeat split; intros; try discriminate; try tauto; try congruence;
    match goal with
    | H : _ /\ _ |- _ => destruct H; discriminate
    | _ => idtac
    end.
Qed.

End Pipeline.

(* ================================================================= *)
(** ** Waiting for the download *)
(* ================================================================= *)

Section WaitingForDownload.
Import Py Map Download.

Variable path_join : str -> str -> str.

Lemma last_in {A : Type} (l : list A) (d : A) : l <> [] -> In (last l d) l.
Proof.
  induction l as [|x l IH]; [congruence|]. intros _.
  destruct l as [|y l]; [now left|].
  right. apply IH. discriminate.
Qed.

(** X16: [wait_for_download] returns at the first pass of its loop that
    sees a name ending in [.pdf] and, in its second listing, no name ending
    in [.crdownload]; what it returns is the folder joined with a name that
    ends in [.pdf] and was listed in that pass - possibly a file that was
    already there.  It returns [None] when no pass qualifies before the
    time is up. *)
Theorem wait_for_download_result (download_dir : str)
        (polls : list (list str * list str)) :
  match wait_for_download path_join download_dir polls with
  | Some path =>
      exists earlier listing1 listing2 later name,
        polls = earlier ++ (listing1, listing2) :: later
        /\ In name listing1
        /\ Folder.endswith (lit ".pdf") name = true
        /\ (forall temp, In temp listing2 ->
                         Folder.endswith (lit ".crdownload") temp = false)
        /\ path = path_join download_dir name
        /\ wait_for_download path_join download_dir earlier = None
  | None =>
      forall listing1 listing2,
        In (listing1, listing2) polls ->
        (forall name, In name listing1 ->
                      Folder.endswith (lit ".pdf") name = false)
        \/ (exists temp, In temp listing2
                         /\ Folder.endswith (lit ".crdownload") temp = true)
  end.
Proof.
  induction polls as [|[l1 l2] later IH]; cbn [wait_for_download].
  - intros ? ? [].
  - destruct (filter (Folder.endswith (lit ".pdf")) l1) as [|f fs] eqn:Ef.
    + cbn [truthy andb].
      destruct (wait_for_download path_join download_dir later) as [p|].
      * destruct IH as (earlier & a & b & lat & name & -> & H).
        exists ((l1, l2) :: earlier), a, b, lat, name.
        split; [reflexivity|].
        destruct H as (H1 & H2 & H3 & H4 & H5).
        repeat split; auto. cbn [wait_for_download]. rewrite Ef.
        cbn [truthy andb]. exact H5.
      * intros a b [[= <- <-]|Hin]; [|now apply IH].
        left. intros name Hn.
        destruct (Folder.endswith (lit ".pdf") name) eqn:E; [|reflexivity].
        assert (Hf : In name (filter (Folder.endswith (lit ".pdf")) l1))
          by (apply filter_In; now split).
        rewrite Ef in Hf. destruct Hf.
    + cbn [truthy andb].
      destruct (filter (Folder.endswith (lit ".crdownload")) l2)
        as [|t ts] eqn:Et; cbn [truthy negb].
      * exists [], l1, l2, later, (last_of (f :: fs)).
        assert (Hl : In (last_of (f :: fs))
                        (filter (Folder.endswith (lit ".pdf")) l1)).
        { rewrite Ef. apply last_in. discriminate. }
        apply filter_In in Hl. destruct Hl as [Hl1 Hl2].
        repeat split; auto.
        intros temp Ht.
        destruct (Folder.endswith (lit ".crdownload") temp) eqn:E;
          [|reflexivity].
        assert (Hf : In temp (filter (Folder.endswith (lit ".crdownload")) l2))
          by (apply filter_In; now split).
        rewrite Et in Hf. destruct Hf.
      * destruct (wait_for_download path_join download_dir later) as [p|].
        -- destruct IH as (earlier & a & b & lat & name & -> & H).
           exists ((l1, l2) :: earlier), a, b, lat, name.
           split; [reflexivity|].
           destruct H as (H1 & H2 & H3 & H4 & H5).
           repeat split; auto. cbn [wait_for_download]. rewrite Ef, Et.
           cbn [truthy andb negb]. exact H5.
        -- intros a b [[= <- <-]|Hin]; [|now apply IH].
           right. exists t.
           assert (Hf : In t (filter (Folder.endswith (lit ".crdownload")) l2))
             by (rewrite Et; now left).
           apply filter_In in Hf. exact Hf.
Qed.

End WaitingForDownload.

(* ================================================================= *)
(** ** Short dates in cells *)
(* ================================================================= *)

Section ShortDates.
Import Py Map.

(** A counted run of at least one digit cannot start on a character that
    is no digit. *)
Lemma try_counts_needs_digit (cont : str -> option (list str))
      (c : Z) (rest : str) (lo k : nat) :
  isdecimal c = false -> (1 <= lo)%nat ->
  try_counts cont (c :: rest) lo k = None.
Proof.
  intros Hc Hlo. induction k as [|k IH]; cbn [try_counts].
  - replace (lo <=? 0)%nat with false
      by (symmetry; apply Nat.leb_gt; lia).
    reflexivity.
  - cbn [firstn forallb]. rewrite Hc, andb_false_r. exact IH.
Qed.

Lemma date_pattern_needs_digit (c : Z) (rest : str) :
  isdecimal c = false -> match_here date_pattern (c :: rest) = None.
Proof.
  intros Hc. unfold date_pattern. cbn [match_here].
  now apply try_counts_needs_digit.
Qed.

Lemma re_search_skips_text (before s : str) :
  forallb (fun c => negb (isdecimal c)) before = true ->
  re_search date_pattern (before ++ s) = re_search date_pattern s.
Proof.
  induction before as [|c before IH]; [reflexivity|].
  cbn [forallb app re_search]. intros H.
  apply andb_prop in H. destruct H as [Hc Hb].
  apply negb_true_iff in Hc.
  rewrite (date_pattern_needs_digit _ _ Hc). now apply IH.
Qed.

Lemma padded_short_date_parsed (pm pd : bool) (m d : Z) :
  1 <= m <= 12 -> 1 <= d <= 31 ->
  Spec.parsed_month_day
    (DateText.field pm m ++ [GATSU] ++ DateText.field pd d ++ [NICHI])
  = Some (m, d).
Proof.
  intros Hm Hd.
  assert (Hall :
    forallb (fun pm' => forallb (fun pd' =>
      forallb (fun m' => forallb (fun d' =>
        match Spec.parsed_month_day
                (DateText.field pm' m' ++ [GATSU]
                 ++ DateText.field pd' d' ++ [NICHI]) with
        | Some (m'', d'') => (m'' =? m') && (d'' =? d')
        | None => false
        end) (range 1 32)) (range 1 13)) [true; false]) [true; false] = true)
    by (vm_compute; reflexivity).
  rewrite forallb_forall in Hall.
  specialize (Hall pm ltac:(destruct pm; simpl; tauto)).
  rewrite forallb_forall in Hall.
  specialize (Hall pd ltac:(destruct pd; simpl; tauto)).
  rewrite forallb_forall in Hall.
  specialize (Hall m (range_in 1 13 m ltac:(lia))).
  rewrite forallb_forall in Hall.
  specialize (Hall d (range_in 1 32 d ltac:(lia))).
  destruct (Spec.parsed_month_day _) as [[m' d']|]; [|discriminate].
  apply andb_prop in Hall. destruct Hall as [H1 H2].
  apply Z.eqb_eq in H1. apply Z.eqb_eq in H2. now subst.
Qed.

Example short_date_in_text :
  extract_date_from_cell
    ([24403; 31038; 38656; 32102; 20104; 24819; 65288] ++ Samples.oct3) 2024
  = Ok (Some (lit "2024-10-03")).
Proof. reflexivity. Qed.

(** X17: a calendar date of the reference year written in a cell as month,
    月, day, 日 - the month and the day zero-padded or not, after any text
    that holds no digit - resolves to that very date, written as the year
    in decimal, a hyphen, the month on two digits, a hyphen and the day on
    two digits; from the year 1000 on this is the form YYYY-MM-DD and reads
    back as the date. *)
Theorem short_date_resolves (before : str) (pm pd : bool) (year m d : Z) :
  forallb (fun c => negb (isdecimal c)) before = true ->
  Spec.valid_date year m d ->
  extract_date_from_cell
    (before ++ DateText.field pm m ++ [GATSU] ++ DateText.field pd d
     ++ [NICHI]) year
  = Ok (Some (str_of_int year ++ [45] ++ two_digits m ++ [45]
              ++ two_digits d))
  /\ (1000 <= year ->
      Spec.parse_iso (str_of_int year ++ [45] ++ two_digits m ++ [45]
                      ++ two_digits d)
      = Some (year, m, d)).
Proof.
  intros Hb Hv. split.
  2:{ intros Hy. now apply (parse_iso_strftime year m d). }
  destruct (valid_date_bounds _ _ _ Hv) as (_ & Hm & Hd).
  rewrite cell_date_computes. unfold Spec.parsed_month_day.
  rewrite (re_search_skips_text _ _ Hb).
  fold (Spec.parsed_month_day
          (DateText.field pm m ++ [GATSU] ++ DateText.field pd d ++ [NICHI])).
  rewrite (padded_short_date_parsed pm pd m d Hm Hd).
  now rewrite (new_datetime_valid _ _ _ Hv).
Qed.

Lemma short_date_resolves_witness :
  extract_date_from_cell
    (lit "as of " ++ DateText.field true 7 ++ [GATSU]
     ++ DateText.field false 16 ++ [NICHI]) 2025
  = Ok (Some (str_of_int 2025 ++ [45] ++ two_digits 7 ++ [45]
              ++ two_digits 16))
  /\ (1000 <= 2025 ->
      Spec.parse_iso (str_of_int 2025 ++ [45] ++ two_digits 7 ++ [45]
                      ++ two_digits 16)
      = Some (2025, 7, 16)).
Proof.
  apply (short_date_resolves (lit "as of ") true false 2025 7 16).
  - reflexivity.
  - unfold Spec.valid_date. change (Spec.month_length 2025 7) with 31. lia.
Defined.

End ShortDates.
